(** * RAG chatbot backend: a shallow embedding of the request pipeline,
    the validators, the persistence retry decorator, the analytics
    aggregations and the metrics collector, with the properties the
    specification states about them.

  Conventions of the embedding.
  - A Python [str] is a Rocq [string], one [ascii] per code point (code
    points below 256).  [len] is [String.length].
  - A Python [float] is an exact rational ([Q]); rounding is not modelled.
    Equalities between computed scores are stated with [==] or, where the
    source returns a literal, with [=].
  - A raised exception is a value of type [exn]; a computation that can
    raise returns [exn + A].
  - Logging and metric recording do not influence control flow and are
    left out of the pipeline; the calls to the external services are
    recorded in a trace. *)

From stdpp Require Import gmap strings list.
From Stdlib Require Import QArith Qround Qminmax ZArith Lia Lqa Ascii String.
From Stdlib Require Import Sorted.

Local Close Scope Q_scope.
Local Open Scope nat_scope.
Local Open Scope string_scope.

(* ================================================================= *)
(** ** Python values *)

Module Py.

(** Exceptions that occur in the modelled code.  Every class below derives
    from [Exception].  The two [ValidationError] classes are distinct and
    unrelated: one is declared in [app/utils/validators.py] as a direct
    subclass of [Exception], the other in [app/utils/exceptions.py] as a
    subclass of [ChatbotException]. *)
Inductive exn : Type :=
| ValidatorsValidationError (msg : string)
| ExceptionsValidationError (msg : string)
| QdrantUnavailableError (msg : string)
| GeminiAPIError (msg : string)
| DatabaseError (msg : string)
| SQLAlchemyError (msg : string)
| HTTPException (status_code : Z) (detail : string)
| UnboundLocalError (name : string)
| PydanticValidationError (msg : string)
| TypeError (msg : string)
| OtherException (msg : string).

(** [str(e)] for the exception classes whose message is used. *)
Definition str_exn (e : exn) : string :=
  match e with
  | ValidatorsValidationError m | ExceptionsValidationError m
  | QdrantUnavailableError m | GeminiAPIError m | DatabaseError m
  | SQLAlchemyError m | PydanticValidationError m | TypeError m
  | OtherException m => m
  | HTTPException _ d => d
  | UnboundLocalError n => n
  end.

Definition code (c : ascii) : nat := nat_of_ascii c.

(** The newline character. *)
Definition LF : ascii := ascii_of_nat 10.

(** [str.isspace] on one character, for code points below 256. *)
Definition isspace (c : ascii) : bool :=
  let n := code c in
  (((9 <=? n) && (n <=? 13)) || ((28 <=? n) && (n <=? 32))
   || (n =? 133) || (n =? 160))%nat.

Fixpoint lstrip (s : string) : string :=
  match s with
  | EmptyString => EmptyString
  | String c s' => if isspace c then lstrip s' else s
  end.

(** [rstrip]: the result is empty when everything from here on is space. *)
Fixpoint rstrip (s : string) : string :=
  match s with
  | EmptyString => EmptyString
  | String c s' =>
      match rstrip s' with
      | EmptyString => if isspace c then EmptyString else String c EmptyString
      | r => String c r
      end
  end.

Definition strip (s : string) : string := rstrip (lstrip s).

Definition len (s : string) : nat := String.length s.

(** [sub in s]. *)
Fixpoint contains (sub s : string) : bool :=
  String.prefix sub s
  || match s with
     | EmptyString => false
     | String _ s' => contains sub s'
     end.

(** Truthiness of an optional float: [None] and [0.0] are falsy. *)
Definition truthy (x : option Q) : bool :=
  match x with
  | None => false
  | Some q => negb (Qeq_bool q 0%Q)
  end.

(** Two-argument [min] and [max]: the first argument wins ties. *)
Definition min (a b : Q) : Q := if Qlt_le_dec b a then b else a.
Definition max (a b : Q) : Q := if Qlt_le_dec a b then b else a.

(** [sum(l)] over floats. *)
Definition sum (l : list Q) : Q := fold_left Qplus l 0%Q.

(** [int(x)] on a non-negative float, as a list index. *)
Definition int (x : Q) : nat := Z.to_nat (Qfloor x).

End Py.

(* ================================================================= *)
(** ** A small regular-expression matcher

  Enough of Python's [re] for the session-id pattern: the anchors [^] and
  [$] (without [re.MULTILINE]) and a greedy, backtracking, bounded
  repetition of a character class. *)

Module Re.

Inductive item : Type :=
| Bol                                       (* ^ *)
| Eol                                       (* $ *)
| ClassRep (ranges : list (ascii * ascii)) (lo hi : nat).  (* [...]{lo,hi} *)

Definition in_class (ranges : list (ascii * ascii)) (c : ascii) : bool :=
  existsb (fun r => ((Py.code (fst r) <=? Py.code c)
                     && (Py.code c <=? Py.code (snd r)))%nat) ranges.

(** Number of leading characters of [s] in the class, at most [hi]. *)
Fixpoint class_prefix (ranges : list (ascii * ascii)) (hi : nat) (s : string)
  : nat :=
  match hi, s with
  | S hi', String c s' =>
      if in_class ranges c then S (class_prefix ranges hi' s') else 0
  | _, _ => 0
  end.

Fixpoint drop (k : nat) (s : string) : string :=
  match k, s with
  | S k', String _ s' => drop k' s'
  | _, _ => s
  end.

(** [$] matches at the end of the string and also just before a newline
    that is the last character of the string. *)
Definition at_eol (s : string) : bool :=
  match s with
  | EmptyString => true
  | String c EmptyString => Ascii.eqb c Py.LF
  | _ => false
  end.

(** The repetition counts a greedy quantifier tries, longest first. *)
Definition greedy_counts (lo kmax : nat) : list nat :=
  rev (seq lo (S kmax - lo)).

(** Match the items at position [pos], where [s] is the rest of the
    subject string. *)
Fixpoint match_items (items : list item) (pos : nat) (s : string) : bool :=
  match items with
  | [] => true
  | Bol :: rest => (pos =? 0)%nat && match_items rest pos s
  | Eol :: rest => at_eol s && match_items rest pos s
  | ClassRep ranges lo hi :: rest =>
      existsb (fun k => match_items rest (pos + k) (drop k s))
              (greedy_counts lo (class_prefix ranges hi s))
  end.

(** [re.match(pattern, s)] as a truth value: a match anchored at the
    start of [s]. *)
Definition re_match (pattern : list item) (s : string) : bool :=
  match_items pattern 0 s.

End Re.

(* ================================================================= *)
(** ** app/core/constants.py *)

Module Constants.

Definition MAX_QUERY_LENGTH : nat := 2000.
Definition MIN_QUERY_LENGTH : nat := 5.
Definition MAX_CONTEXT_LENGTH : nat := 4000.
Definition MAX_RETRIEVED_CHUNKS : nat := 5.
Definition TARGET_P95_LATENCY_MS : Q := 3000%Q.
Definition MIN_CONFIDENCE_SCORE : Q := (3 # 10)%Q.

(** The character class [[a-zA-Z0-9\-_]]. *)
Definition session_id_class : list (ascii * ascii) :=
  [("a", "z"); ("A", "Z"); ("0", "9"); ("-", "-"); ("_", "_")]%char.

(** [SESSION_ID_PATTERN = r"^[a-zA-Z0-9\-_]{10,50}$"]. *)
Definition SESSION_ID_PATTERN : list Re.item :=
  [Re.Bol; Re.ClassRep session_id_class 10 50; Re.Eol].

Definition SESSION_ID_PATTERN_text : string :=
  "^[a-zA-Z0-9\-_]{10,50}$".

End Constants.

(* ================================================================= *)
(** ** app/utils/validators.py *)

Module Validators.
Import Py Constants.

Definition validate_query_length (query : string) : exn + unit :=
  let length := len (strip query) in
  if (length <? MIN_QUERY_LENGTH)%nat then
    inl (ValidatorsValidationError
           "Query too short. Minimum length is 5 characters.")
  else if (MAX_QUERY_LENGTH <? length)%nat then
    inl (ValidatorsValidationError
           "Query too long. Maximum length is 2000 characters.")
  else inr tt.

Definition validate_session_id (session_id : string) : exn + unit :=
  if negb (Re.re_match SESSION_ID_PATTERN session_id) then
    inl (ValidatorsValidationError
           ("Invalid session ID format. Must match pattern: "
              ++ SESSION_ID_PATTERN_text))
  else inr tt.

Definition validate_selected_context (context : option string)
  : exn + unit :=
  match context with
  | Some c =>
      if negb (len c =? 0)%nat && (MAX_CONTEXT_LENGTH <? len c)%nat then
        inl (ValidatorsValidationError
               "Selected context too long. Maximum length is 4000 characters.")
      else inr tt
  | None => inr tt
  end.

Definition validate_query_input (question session_id : string)
    (selected_context : option string) : exn + unit :=
  match validate_query_length question with
  | inl e => inl e
  | inr _ =>
      match validate_session_id session_id with
      | inl e => inl e
      | inr _ => validate_selected_context selected_context
      end
  end.

End Validators.

(* ================================================================= *)
(** ** Effects: external calls, the wall clock, exceptions

    The pipeline awaits the LLM client, the vector-search client and the
    persistence service, and reads [time.time()].  The three services are
    given by what each call answers; the state carries the calls made so far
    and the number of clock readings. *)

Module Eff.
Import Py.

Inductive event : Type :=
| CallInitServices
| CallGenerateEmbedding (text : string)
| CallSearchSimilarChunks (limit : nat)
| CallGenerateResponse (question prompt : string)
| CallSaveQuery (question response_text session_id : string).

Record state : Type := { trace : list event; ticks : nat }.

Definition initial : state := {| trace := []; ticks := 0 |}.

Definition M (A : Type) : Type := state -> (exn + A) * state.

Definition ret {A} (a : A) : M A := fun st => (inr a, st).

Definition raise {A} (e : exn) : M A := fun st => (inl e, st).

Definition bind {A B} (m : M A) (k : A -> M B) : M B :=
  fun st =>
    match m st with
    | (inl e, st') => (inl e, st')
    | (inr a, st') => k a st'
    end.

(** [try: m except <classes selected by h>: ...]: when [m] raises [e] and
    [h e] is a handler, the handler runs; any other exception propagates. *)
Definition try_except {A} (m : M A) (h : exn -> option (M A)) : M A :=
  fun st =>
    match m st with
    | (inl e, st') =>
        match h e with
        | Some handler => handler st'
        | None => (inl e, st')
        end
    | r => r
    end.

Definition lift {A} (r : exn + A) : M A := fun st => (r, st).

(** An awaited call of an external service: the call is recorded, then its
    answer is returned or its exception raised. *)
Definition call {A} (ev : event) (answer : exn + A) : M A :=
  fun st => (answer, {| trace := trace st ++ [ev]; ticks := ticks st |}).

(** [time.time()] *)
Definition time_time (clock : nat -> Q) : M Q :=
  fun st => (inr (clock (ticks st)),
             {| trace := trace st; ticks := S (ticks st) |}).

End Eff.

Notation "'let*' x ':=' m 'in' k" := (Eff.bind m (fun x => k))
  (at level 10, x pattern, m at level 100, k at level 200).

(* ================================================================= *)
(** ** app/services/rag_service.py *)

Module RagService.
Import Py Constants Eff.

(** A retrieved chunk.  [similarity_score] is [None] when the dict has no
    such key. *)
Record Chunk : Type := {
  chunk_id : Z;
  similarity_score : option Q;
  text : string;
  chapter : option Z;
  lesson : option Z;
  section : option string
}.

Record SourceRef : Type := {
  src_chapter : option Z;
  src_lesson : option Z;
  src_section : option string
}.

Record SaveArgs : Type := {
  sv_question : string;
  sv_response_text : string;
  sv_session_id : string;
  sv_source_chapters : list SourceRef;
  sv_confidence_score : Q;
  sv_selected_context : option string;
  sv_query_duration_ms : Q;
  sv_retrieval_duration_ms : Q;
  sv_generation_duration_ms : Q
}.

(** What the three services answer, and the clock. *)
Record Services : Type := {
  init_services : exn + unit;
  generate_embedding : string -> exn + list Q;
  search_similar_chunks : list Q -> nat -> exn + list Chunk;
  generate_response_for_query : string -> string -> exn + string;
  save_query : SaveArgs -> exn + unit;
  clock : nat -> Q
}.

(** The dict that [process_query] returns. *)
Record RagResult : Type := {
  response_text : string;
  source_references : list SourceRef;
  confidence_score : Q;
  timestamp : option string
}.

(** The two headings of the selected-passage block start with a pictograph
    in the source; here they are the bytes of its UTF-8 encoding. *)
Definition dquote : string := String (ascii_of_nat 34) EmptyString.
Definition newline : string := String LF EmptyString.

Definition RAG_CONSTRAINT_PROMPT : string :=
  "You are a helpful assistant for the Physical AI & Humanoid Robotics course."
  ++ newline ++
  "Answer ONLY using information provided in the course materials below."
  ++ newline ++
  "If the user asks about something not covered in the course materials, respond with:"
  ++ newline ++ dquote ++
  "I don't have information about this in the course material. Please ask about topics covered in the course."
  ++ dquote ++ newline ++
  "Do not use any external knowledge or information outside the provided context.".

Definition _build_augmented_prompt (question : string) (chunks : list Chunk)
    (selected_context : option string) : string :=
  let context_text := String.concat (newline ++ newline) (map text chunks) in
  let context_text :=
    match selected_context with
    | Some c =>
        if negb (len c =? 0)%nat then
          "🔍 SELECTED PASSAGE (user-highlighted text):" ++ newline
          ++ c ++ newline ++ newline
          ++ "📚 ADDITIONAL COURSE MATERIAL:" ++ newline ++ context_text
        else context_text
    | None => context_text
    end in
  RAG_CONSTRAINT_PROMPT ++ newline ++ newline
  ++ "Course Material Context:" ++ newline ++ context_text
  ++ newline ++ newline ++ "User Question: " ++ question
  ++ newline ++ newline ++ "Answer:".

Definition _extract_source_references (chunks : list Chunk)
  : list SourceRef :=
  map (fun c => {| src_chapter := chapter c;
                   src_lesson := lesson c;
                   src_section := section c |}) chunks.

(** [c.get("similarity_score", 0)] *)
Definition get_similarity (c : Chunk) : Q :=
  match similarity_score c with Some q => q | None => 0%Q end.

Definition _calculate_confidence_score (chunks : list Chunk)
    (response : string) : Q :=
  match chunks with
  | [] => 0%Q
  | _ =>
      let avg_similarity :=
        (Py.sum (map get_similarity chunks)
         / inject_Z (Z.of_nat (List.length chunks)))%Q in
      let response_factor :=
        Py.min (inject_Z (Z.of_nat (len response)) / 200)%Q 1%Q in
      let confidence :=
        (avg_similarity * (7 # 10) + response_factor * (3 # 10))%Q in
      Py.max MIN_CONFIDENCE_SCORE (Py.min confidence 1%Q)
  end.

Definition no_results_text : string :=
  "I couldn't find relevant information about your question in the course materials.".

Definition process_query (svc : Services) (question session_id : string)
    (selected_context : option string) : M RagResult :=
  let* start_time := time_time (clock svc) in
  (* Stage 1: validation *)
  let* _ := lift (Validators.validate_query_input
                    question session_id selected_context) in
  (* Stage 2: vector retrieval *)
  let* retrieval_start := time_time (clock svc) in
  let* query_embedding :=
    call (CallGenerateEmbedding question) (generate_embedding svc question) in
  let* retrieved_chunks :=
    call (CallSearchSimilarChunks MAX_RETRIEVED_CHUNKS)
         (search_similar_chunks svc query_embedding MAX_RETRIEVED_CHUNKS) in
  let* t := time_time (clock svc) in
  let retrieval_duration := (t - retrieval_start)%Q in
  match retrieved_chunks with
  | [] =>
      ret {| response_text := no_results_text;
             source_references := [];
             confidence_score := 0%Q;
             timestamp := None |}
  | _ =>
      (* Stage 3: augmentation *)
      let augmented_prompt :=
        _build_augmented_prompt question retrieved_chunks selected_context in
      (* Stage 4: generation *)
      let* generation_start := time_time (clock svc) in
      let* response_text :=
        call (CallGenerateResponse question augmented_prompt)
             (generate_response_for_query svc question augmented_prompt) in
      let* t := time_time (clock svc) in
      let generation_duration := (t - generation_start)%Q in
      (* Stage 5: attribution and scoring *)
      let source_references := _extract_source_references retrieved_chunks in
      let confidence_score :=
        _calculate_confidence_score retrieved_chunks response_text in
      let* t := time_time (clock svc) in
      let total_duration := (t - start_time)%Q in
      (* the query id reads the clock once more *)
      let* _ := time_time (clock svc) in
      (* Stage 6: persistence, awaited in line *)
      let args :=
        {| sv_question := question;
           sv_response_text := response_text;
           sv_session_id := session_id;
           sv_source_chapters := source_references;
           sv_confidence_score := confidence_score;
           sv_selected_context := selected_context;
           sv_query_duration_ms := (total_duration * 1000)%Q;
           sv_retrieval_duration_ms := (retrieval_duration * 1000)%Q;
           sv_generation_duration_ms := (generation_duration * 1000)%Q |} in
      let* _ := call (CallSaveQuery question response_text session_id)
                     (save_query svc args) in
      ret {| response_text := response_text;
             source_references := source_references;
             confidence_score := confidence_score;
             timestamp := None |}
  end.

End RagService.

(* ================================================================= *)
(** ** app/models/schemas.py *)

Module Schemas.
Import Py.

Record ChatQueryRequest : Type := {
  question : string;
  selected_context : option string;
  session_id : string
}.

(** Validation of a request body: the [Field] bounds on the raw values,
    then the two field validators.  Only the messages of the two field
    validators are the source's; the others name the violated bound. *)
Definition ChatQueryRequest_validate (raw_question : string)
    (raw_context : option string) (raw_session_id : string)
  : exn + ChatQueryRequest :=
  if (len raw_question <? 5)%nat || (2000 <? len raw_question)%nat then
    inl (PydanticValidationError "question: string length out of range")
  else if (len (strip raw_question) =? 0)%nat then
    inl (PydanticValidationError "Question cannot be empty or whitespace")
  else if match raw_context with
          | Some c => (4000 <? len c)%nat
          | None => false
          end then
    inl (PydanticValidationError "selected_context: string too long")
  else if (len raw_session_id <? 5)%nat then
    inl (PydanticValidationError "Session ID must be at least 5 characters")
  else
    inr {| question := strip raw_question;
           selected_context := raw_context;
           session_id := raw_session_id |}.

Record SourceReference : Type := {
  chapter : option Z;
  lesson : option Z;
  section : option string;
  context_grounded : bool
}.

Record ChatResponseSchema : Type := {
  response_text : string;
  source_references : list SourceReference;
  confidence_score : Q;
  timestamp : string
}.

Definition SourceReference_of (s : RagService.SourceRef) : SourceReference :=
  {| chapter := RagService.src_chapter s;
     lesson := RagService.src_lesson s;
     section := RagService.src_section s;
     context_grounded := false |}.

(** Construction of the response model; [confidence_score] is declared
    with [ge=0.0, le=1.0]. *)
Definition ChatResponseSchema_new (response_text : string)
    (source_references : list RagService.SourceRef) (confidence_score : Q)
    (timestamp : string) : exn + ChatResponseSchema :=
  if Qle_bool 0 confidence_score && Qle_bool confidence_score 1 then
    inr {| response_text := response_text;
           source_references := map SourceReference_of source_references;
           confidence_score := confidence_score;
           timestamp := timestamp |}
  else inl (PydanticValidationError "confidence_score out of range").

End Schemas.

(* ================================================================= *)
(** ** app/api/v1/query.py *)

Module QueryEndpoint.
Import Py Eff.

(** The name [ValidationError] in this module is the class imported from
    [app.utils.exceptions]. *)
Definition except_ValidationError {A} (e : exn) : option (M A) :=
  match e with
  | ExceptionsValidationError _ =>
      Some (raise (HTTPException 400 (str_exn e)))
  | _ => None
  end.

Definition except_pipeline (e : exn) : option (M (option RagService.RagResult)) :=
  match e with
  | QdrantUnavailableError _ => Some (raise (HTTPException 503 (str_exn e)))
  | GeminiAPIError _ => Some (raise (HTTPException 502 (str_exn e)))
  | DatabaseError _ =>
      (* logged; execution continues after the try statement with
         [rag_result] not assigned *)
      Some (ret None)
  | _ => None
  end.

Definition unexpected_detail : string :=
  "An unexpected error occurred. Please try again.".

Definition except_outer {A} (e : exn) : option (M A) :=
  match e with
  | HTTPException _ _ => None
  | _ => Some (raise (HTTPException 500 unexpected_detail))
  end.

(** [utcnow_iso] stands for [datetime.utcnow().isoformat()]. *)
Definition query_chatbot (svc : RagService.Services) (utcnow_iso : string)
    (query_request : Schemas.ChatQueryRequest)
  : M Schemas.ChatResponseSchema :=
  try_except
    (let* start_time := time_time (RagService.clock svc) in
     let* _ := call CallInitServices (RagService.init_services svc) in
     (* Stage 1: input validation *)
     let* _ :=
       try_except
         (lift (Validators.validate_query_input
                  (Schemas.question query_request)
                  (Schemas.session_id query_request)
                  (Schemas.selected_context query_request)))
         except_ValidationError in
     (* Stage 2-5: full pipeline *)
     let* rag_result :=
       try_except
         (let* r := RagService.process_query svc
                      (Schemas.question query_request)
                      (Schemas.session_id query_request)
                      (Schemas.selected_context query_request) in
          ret (Some r))
         except_pipeline in
     let* t := time_time (RagService.clock svc) in
     (* Build response: reads the local [rag_result] *)
     let* r :=
       match rag_result with
       | Some r => ret r
       | None => raise (UnboundLocalError "rag_result")
       end in
     lift (Schemas.ChatResponseSchema_new
             (RagService.response_text r)
             (RagService.source_references r)
             (RagService.confidence_score r)
             utcnow_iso))
    except_outer.

(** What the client receives. *)
Inductive HttpResponse : Type :=
| Http200 (body : Schemas.ChatResponseSchema)
| HttpError (status_code : Z) (detail : string).

Definition respond (r : exn + Schemas.ChatResponseSchema) : HttpResponse :=
  match r with
  | inr body => Http200 body
  | inl (HTTPException status detail) => HttpError status detail
  | inl _ => HttpError 500 "Internal Server Error"
  end.

(** POST /v1/query on a validated request body. *)
Definition post_query (svc : RagService.Services) (utcnow_iso : string)
    (query_request : Schemas.ChatQueryRequest) : HttpResponse :=
  respond (fst (query_chatbot svc utcnow_iso query_request initial)).

End QueryEndpoint.

(* ================================================================= *)
(** ** app/api/v1/health.py *)

Module Health.
Import Py.

(** [str(e)[:50]] *)
Definition truncate50 (s : string) : string := String.substring 0 50 s.

(** [outcome] is what constructing, initialising and closing the client
    does. *)
Definition check_qdrant_health (outcome : exn + unit) : bool * string :=
  match outcome with
  | inr _ => (true, "Connected")
  | inl e => (false, "Connection failed: " ++ truncate50 (str_exn e))
  end.

Definition check_gemini_health (outcome : exn + unit) : bool * string :=
  match outcome with
  | inr _ => (true, "Connected")
  | inl e => (false, "Connection failed: " ++ truncate50 (str_exn e))
  end.

(** [config] is what [AppConfig()] gives: its [database_url], or the
    exception its construction raises. *)
Definition check_postgres_health (config : exn + string) : bool * string :=
  match config with
  | inr database_url =>
      if negb (len database_url =? 0)%nat then (true, "Configured")
      else (false, "DATABASE_URL not configured")
  | inl e => (false, "Check failed: " ++ truncate50 (str_exn e))
  end.

Definition all (l : list bool) : bool := forallb (fun b => b) l.

(** The status computed by [health_check] from the three check results. *)
Definition overall_status (qdrant_healthy gemini_healthy postgres_healthy : bool)
  : string :=
  let all_healthy := qdrant_healthy && gemini_healthy && postgres_healthy in
  let some_degraded :=
    negb (all [qdrant_healthy; gemini_healthy; postgres_healthy]) in
  if all_healthy then "healthy"
  else if some_degraded then "degraded"
  else "unhealthy".

Definition up_down (b : bool) : string := if b then "up" else "down".

Record HealthCheckResponse : Type := {
  status : string;
  services : list (string * (string * string));
  timestamp : string
}.

Definition health_check (qdrant gemini : exn + unit) (config : exn + string)
    (utcnow_iso : string) : HealthCheckResponse :=
  let '(qdrant_healthy, qdrant_msg) := check_qdrant_health qdrant in
  let '(gemini_healthy, gemini_msg) := check_gemini_health gemini in
  let '(postgres_healthy, postgres_msg) := check_postgres_health config in
  {| status := overall_status qdrant_healthy gemini_healthy postgres_healthy;
     services := [("qdrant", (up_down qdrant_healthy, qdrant_msg));
                  ("gemini", (up_down gemini_healthy, gemini_msg));
                  ("postgres", (up_down postgres_healthy, postgres_msg))];
     timestamp := utcnow_iso |}.

End Health.

(* ================================================================= *)
(** ** app/models/chat_query.py and the database session *)

Module Db.
Import Py.

(** A loaded row, with the columns the aggregations and the window read.
    The numeric attributes are [None] when null; [timestamp] is in
    microseconds since the epoch. *)
Record ChatQuery : Type := {
  id : Z;
  question : string;
  session_id : string;
  timestamp : Z;
  response_text : string;
  confidence_score : option Q;
  query_duration_ms : option Q;
  retrieval_duration_ms : option Q;
  generation_duration_ms : option Q
}.

(** The session either answers from the stored rows or fails with a
    database-layer error. *)
Inductive Session : Type :=
| Serving (table : list ChatQuery)
| Failing (msg : string).

Definition microseconds_per_day : Z := 86400 * 1000000.

(** [datetime.utcnow() - timedelta(days=days_back)] *)
Definition cutoff (utcnow : Z) (days_back : Z) : Z :=
  (utcnow - days_back * microseconds_per_day)%Z.

(** [select(ChatQuery).where(ChatQuery.timestamp >= cutoff)], executed and
    loaded with [scalars().all()]. *)
Definition select_since (session : Session) (cutoff : Z)
  : exn + list ChatQuery :=
  match session with
  | Serving table =>
      inr (List.filter (fun q => (cutoff <=? timestamp q)%Z) table)
  | Failing msg => inl (SQLAlchemyError msg)
  end.

(** [[q.attr for q in queries if q.attr]] *)
Definition truthy_values (attr : ChatQuery -> option Q)
    (queries : list ChatQuery) : list Q :=
  omap (fun q => if truthy (attr q) then attr q else None) queries.

(** [sum(xs) / len(xs) if xs else 0] *)
Definition mean_or_zero (xs : list Q) : Q :=
  match xs with
  | [] => 0%Q
  | _ => (Py.sum xs / inject_Z (Z.of_nat (List.length xs)))%Q
  end.

(** [len(set(q.session_id for q in queries))] *)
Definition count_sessions (queries : list ChatQuery) : nat :=
  size (list_to_set (map session_id queries) : gset string).

End Db.

(* ================================================================= *)
(** ** app/services/postgres_service.py *)

Module PostgresService.
Import Py Db.

Definition is_SQLAlchemyError (e : exn) : bool :=
  match e with
  | SQLAlchemyError _ => true
  | _ => false
  end.

(** [range(n)] *)
Definition range (n : Z) : list Z := map Z.of_nat (seq 0 (Z.to_nat n)).

Section Retry.
Context {W A : Type}.
Variables (max_retries : Z) (initial_delay backoff_factor : Q).

(** The wrapped coroutine function: a call answers and changes the world. *)
Variable func : W -> (exn + A) * W.

(** The [for attempt in range(max_retries + 1)] loop of [wrapper].  The
    third component of the result lists the arguments of the
    [asyncio.sleep] calls made, in order. *)
Fixpoint retry_loop (attempts : list Z) (last_exception : option exn)
    (delay : Q) (w : W) (slept : list Q) : (exn + A) * W * list Q :=
  match attempts with
  | [] =>
      (inl (match last_exception with
            | Some e => e
            | None => TypeError "exceptions must derive from BaseException"
            end), w, slept)
  | attempt :: rest =>
      match func w with
      | (inr a, w') => (inr a, w', slept)
      | (inl e, w') =>
          if is_SQLAlchemyError e then
            if (attempt =? max_retries)%Z then (inl e, w', slept)
            else retry_loop rest (Some e) (delay * backoff_factor)%Q w'
                            (slept ++ [delay])
          else (inl e, w', slept)
      end
  end.

Definition retry_on_connection_error (w : W) : (exn + A) * W * list Q :=
  retry_loop (range (max_retries + 1)) None initial_delay w [].

End Retry.

(** The decoration of [save_query]:
    [@retry_on_connection_error(max_retries=3, initial_delay=0.1,
    backoff_factor=2)]. *)
Definition save_query_retry {W A : Type} (func : W -> (exn + A) * W)
  : W -> (exn + A) * W * list Q :=
  retry_on_connection_error 3 (1 # 10) 2 func.

Record Analytics : Type := {
  query_count : nat;
  avg_confidence : Q;
  avg_response_time_ms : Q;
  unique_sessions : nat;
  period_days : option Z
}.

(** The dict returned by [get_analytics]; [EmptyDict] is [{}]. *)
Inductive AnalyticsDict : Type :=
| EmptyDict
| AnalyticsOf (a : Analytics).

Definition get_analytics (session : Session) (utcnow : Z) (days_back : Z)
  : AnalyticsDict :=
  match select_since session (cutoff utcnow days_back) with
  | inl _ => EmptyDict
  | inr [] =>
      AnalyticsOf {| query_count := 0;
                     avg_confidence := 0;
                     avg_response_time_ms := 0;
                     unique_sessions := 0;
                     period_days := None |}
  | inr queries =>
      let confidences := truthy_values confidence_score queries in
      let durations := truthy_values query_duration_ms queries in
      AnalyticsOf {| query_count := List.length queries;
                     avg_confidence := mean_or_zero confidences;
                     avg_response_time_ms := mean_or_zero durations;
                     unique_sessions := count_sessions queries;
                     period_days := Some days_back |}
  end.

End PostgresService.

(* ================================================================= *)
(** ** Sorting: [sorted(values)]

    A stable insertion sort; like Python's [sorted] it compares with [<]
    only and keeps equal elements in their original order. *)

Module Sorting.

Fixpoint insert (x : Q) (l : list Q) : list Q :=
  match l with
  | [] => [x]
  | y :: l' => if Qlt_le_dec y x then y :: insert x l' else x :: l
  end.

Fixpoint sorted (l : list Q) : list Q :=
  match l with
  | [] => []
  | x :: l' => insert x (sorted l')
  end.

End Sorting.

(* ================================================================= *)
(** ** app/services/analytics_service.py *)

Module AnalyticsService.
Import Py Db.

(** The local function [percentile(data, p)] of
    [get_performance_metrics]. *)
Definition percentile (data : list Q) (p : Z) : Q :=
  match data with
  | [] => 0%Q
  | _ =>
      let sorted_data := Sorting.sorted data in
      let idx :=
        Py.int (inject_Z (Z.of_nat (List.length sorted_data) * p) / 100)%Q in
      nth (Nat.min idx (List.length sorted_data - 1)) sorted_data 0%Q
  end.

(** [min(xs)] and [max(xs)] on a non-empty list. *)
Definition list_min (xs : list Q) : Q :=
  match xs with
  | [] => 0%Q
  | x :: xs' => fold_left Py.min xs' x
  end.

Definition list_max (xs : list Q) : Q :=
  match xs with
  | [] => 0%Q
  | x :: xs' => fold_left Py.max xs' x
  end.

Record PerformanceMetrics : Type := {
  query_count : nat;
  period_days : Z;
  avg_confidence : Q;
  min_confidence : Q;
  max_confidence : Q;
  avg_response_time_ms : Q;
  p95_response_time_ms : Q;
  avg_retrieval_time_ms : Q;
  avg_generation_time_ms : Q;
  unique_sessions : nat
}.

Definition _empty_metrics (days_back : Z) : PerformanceMetrics :=
  {| query_count := 0;
     period_days := days_back;
     avg_confidence := 0;
     min_confidence := 0;
     max_confidence := 0;
     avg_response_time_ms := 0;
     p95_response_time_ms := 0;
     avg_retrieval_time_ms := 0;
     avg_generation_time_ms := 0;
     unique_sessions := 0 |}.

Definition is_nil {A} (l : list A) : bool :=
  match l with [] => true | _ => false end.

Definition get_performance_metrics (session : Session) (utcnow : Z)
    (days_back : Z) : PerformanceMetrics :=
  match select_since session (cutoff utcnow days_back) with
  | inl _ => _empty_metrics days_back
  | inr [] => _empty_metrics days_back
  | inr queries =>
      let confidences := truthy_values confidence_score queries in
      let durations := truthy_values query_duration_ms queries in
      let retrieval_times := truthy_values retrieval_duration_ms queries in
      let generation_times := truthy_values generation_duration_ms queries in
      {| query_count := List.length queries;
         period_days := days_back;
         avg_confidence := mean_or_zero confidences;
         min_confidence :=
           if is_nil confidences then 0%Q else list_min confidences;
         max_confidence :=
           if is_nil confidences then 1%Q else list_max confidences;
         avg_response_time_ms := mean_or_zero durations;
         p95_response_time_ms :=
           if is_nil durations then 0%Q else percentile durations 95;
         avg_retrieval_time_ms := mean_or_zero retrieval_times;
         avg_generation_time_ms := mean_or_zero generation_times;
         unique_sessions := count_sessions queries |}
  end.

End AnalyticsService.

(* ================================================================= *)
(** ** app/core/metrics.py *)

Module Metrics.
Import Py.

(** The collector's four maps.  A label set is given by its serialisation
    [str(sorted(labels.items()))], or ["none"] without labels. *)
Record MetricsCollector : Type := {
  _counters : gmap string Z;
  _gauges : gmap string Q;
  _histograms : gmap string (list Q);
  _summaries : gmap string (list Q)
}.

Definition new_collector : MetricsCollector :=
  {| _counters := ∅; _gauges := ∅; _histograms := ∅; _summaries := ∅ |}.

Definition metric_key (name labels : string) : string :=
  name ++ "__" ++ labels.

(** [self._summaries[key].append(value)] on a [defaultdict(list)]. *)
Definition observe_summary (mc : MetricsCollector) (name : string)
    (value : Q) (labels : string) : MetricsCollector :=
  let key := metric_key name labels in
  {| _counters := _counters mc;
     _gauges := _gauges mc;
     _histograms := _histograms mc;
     _summaries :=
       <[key := (default [] (_summaries mc !! key) ++ [value])%list]>
         (_summaries mc) |}.

Record SummaryStats : Type := {
  count : nat;
  sum : Q;
  avg : Q;
  min : Q;
  max : Q;
  p50 : Q;
  p95 : Q;
  p99 : Q
}.

(** [xs[i] if i < n else 0] *)
Definition at_or_zero (xs : list Q) (i n : nat) : Q :=
  if (i <? n)%nat then nth i xs 0%Q else 0%Q.

Definition get_summary_stats (mc : MetricsCollector) (name labels : string)
  : SummaryStats :=
  let key := metric_key name labels in
  let values := default [] (_summaries mc !! key) in
  match values with
  | [] => {| count := 0; sum := 0; avg := 0; min := 0; max := 0;
             p50 := 0; p95 := 0; p99 := 0 |}
  | _ =>
      let sorted_values := Sorting.sorted values in
      let n := List.length sorted_values in
      let nq := inject_Z (Z.of_nat n) in
      let p50_idx := Py.int ((5 # 10) * nq)%Q in
      let p95_idx := Py.int ((95 # 100) * nq)%Q in
      let p99_idx := Py.int ((99 # 100) * nq)%Q in
      {| count := n;
         sum := Py.sum sorted_values;
         avg := if (0 <? n)%nat then (Py.sum sorted_values / nq)%Q else 0%Q;
         min := if (0 <? n)%nat then nth 0 sorted_values 0%Q else 0%Q;
         max := if (0 <? n)%nat then List.last sorted_values 0%Q else 0%Q;
         p50 := at_or_zero sorted_values p50_idx n;
         p95 := at_or_zero sorted_values p95_idx n;
         p99 := at_or_zero sorted_values p99_idx n |}
  end.

End Metrics.

(* ================================================================= *)
(** ** Definitions that follow the specification's wording

    They are compared below with what the code computes. *)

Module Spec.
Import Py.

(** [clamp(lo, hi, x)] *)
Definition clamp (lo hi x : Q) : Q :=
  if Qlt_le_dec x lo then lo else if Qlt_le_dec hi x then hi else x.

(** The mean of a list of numbers, [0] for the empty list. *)
Definition mean (xs : list Q) : Q :=
  match xs with
  | [] => 0%Q
  | _ => (fold_right Qplus 0 xs / inject_Z (Z.of_nat (List.length xs)))%Q
  end.

(** A session id as the specification describes the accepted ones: 10 to
    50 characters, each an ASCII letter, a digit, a hyphen or an
    underscore, and nothing else. *)
Definition session_char (c : ascii) : bool :=
  let n := code c in
  (((97 <=? n) && (n <=? 122)) || ((65 <=? n) && (n <=? 90))
   || ((48 <=? n) && (n <=? 57)) || (n =? 45) || (n =? 95))%nat.

Fixpoint all_chars (p : ascii -> bool) (s : string) : bool :=
  match s with
  | EmptyString => true
  | String c s' => p c && all_chars p s'
  end.

Definition session_id_ok (s : string) : bool :=
  ((10 <=? len s) && (len s <=? 50))%nat && all_chars session_char s.

(** [s] without its last character, when that character is a newline. *)
Fixpoint strip_final_newline (s : string) : option string :=
  match s with
  | EmptyString => None
  | String c EmptyString =>
      if Ascii.eqb c LF then Some EmptyString else None
  | String c s' => option_map (String c) (strip_final_newline s')
  end.

(** A well-formed session id followed by one newline. *)
Definition session_id_ok_before_newline (s : string) : bool :=
  match strip_final_newline s with
  | Some t => session_id_ok t
  | None => false
  end.

(** Whether a validator returned normally. *)
Definition accepted (r : exn + unit) : bool :=
  match r with inr _ => true | inl _ => false end.

(** The values of an attribute over the rows where it is not null. *)
Definition non_null (attr : Db.ChatQuery -> option Q)
    (rows : list Db.ChatQuery) : list Q :=
  omap attr rows.

Definition nonzero (xs : list Q) : list Q :=
  List.filter (fun q => negb (Qeq_bool q 0)) xs.

(** The rows of the table inside the [days_back] window. *)
Definition window (table : list Db.ChatQuery) (utcnow days_back : Z)
  : list Db.ChatQuery :=
  List.filter
    (fun q => (utcnow - days_back * 86400000000 <=? Db.timestamp q)%Z)
    table.

(** The number of distinct values in a list of strings. *)
Definition distinct (l : list string) : nat :=
  List.length (remove_dups l).

(** Nearest-rank index [floor(pct/100 * n)]. *)
Definition rank_index (pct n : nat) : nat := (pct * n / 100)%nat.

(** The first [k] attempts of [func], started in [w], all raise a
    database-layer error and leave the world in [w']. *)
Inductive sql_failures {W A : Type} (func : W -> (exn + A) * W)
  : nat -> W -> W -> Prop :=
| sql_failures_0 w : sql_failures func 0 w w
| sql_failures_S k w w1 w' msg :
    func w = (inl (SQLAlchemyError msg), w1) ->
    sql_failures func k w1 w' ->
    sql_failures func (S k) w w'.

(** The delays of the default backoff: 0.1s, 0.2s, 0.4s. *)
Definition backoff_delays : list Q := [1 # 10; 2 # 10; 4 # 10]%Q.

(** The state in which the handler enters the pipeline: the clock has been
    read once and the services have been initialised. *)
Definition pipeline_entry : Eff.state :=
  {| Eff.trace := [Eff.CallInitServices]; Eff.ticks := 1 |}.

(** The response as a function of what the pipeline does. *)
Definition response_after_pipeline (now : string)
    (outcome : Py.exn + RagService.RagResult) : QueryEndpoint.HttpResponse :=
  match outcome with
  | inl (Py.QdrantUnavailableError m) => QueryEndpoint.HttpError 503 m
  | inl (Py.GeminiAPIError m) => QueryEndpoint.HttpError 502 m
  | inl (Py.HTTPException s d) => QueryEndpoint.HttpError s d
  | inl _ => QueryEndpoint.HttpError 500 QueryEndpoint.unexpected_detail
  | inr r =>
      match Schemas.ChatResponseSchema_new
              (RagService.response_text r) (RagService.source_references r)
              (RagService.confidence_score r) now with
      | inr body => QueryEndpoint.Http200 body
      | inl _ => QueryEndpoint.HttpError 500 QueryEndpoint.unexpected_detail
      end
  end.

(** The generation and persistence calls. *)
Definition is_generation_or_save (ev : Eff.event) : bool :=
  match ev with
  | Eff.CallGenerateResponse _ _ | Eff.CallSaveQuery _ _ _ => true
  | _ => false
  end.

End Spec.

(* ================================================================= *)
(** ** Concrete requests and service behaviours used below *)

Module Scenario.
Import Py.

(** A request whose session id passes the request schema (at least 5
    characters) and fails the session-id pattern. *)
Definition bad_session_request : Schemas.ChatQueryRequest :=
  {| Schemas.question := "What is ZMP?";
     Schemas.selected_context := None;
     Schemas.session_id := "invalid session id!" |}.

Definition good_request : Schemas.ChatQueryRequest :=
  {| Schemas.question := "What is ZMP in bipedal walking?";
     Schemas.selected_context := None;
     Schemas.session_id := "test-session-12345" |}.

Definition walking_chunk : RagService.Chunk :=
  {| RagService.chunk_id := 1;
     RagService.similarity_score := Some (92 # 100)%Q;
     RagService.text := "The zero moment point is the point on the ground.";
     RagService.chapter := Some 3%Z;
     RagService.lesson := Some 2%Z;
     RagService.section := Some "Walking Pattern Generation" |}.

(** Ten well-formed characters followed by a newline. *)
Definition newline_session_id : string :=
  "abcdefghij" ++ String LF EmptyString.

(** An operation that fails with a database-layer error on its first two
    calls and succeeds on the third; the world counts the calls. *)
Definition flaky (calls : nat) : (exn + string) * nat :=
  if (calls <? 2)%nat then (inl (SQLAlchemyError "Connection failed"), S calls)
  else (inr "success", S calls).

(** Stored rows: the current time, and a row one day old. *)
Definition utcnow : Z := 1700000000000000.

Definition row (id : Z) (session_id : string) (confidence duration : option Q)
  : Db.ChatQuery :=
  {| Db.id := id;
     Db.question := "What is ZMP?";
     Db.session_id := session_id;
     Db.timestamp := (utcnow - 86400000000)%Z;
     Db.response_text := "ZMP is the zero moment point of the robot.";
     Db.confidence_score := confidence;
     Db.query_duration_ms := duration;
     Db.retrieval_duration_ms := duration;
     Db.generation_duration_ms := duration |}.

(** One row with confidence and duration 0.0, one with 1.0 and 100.0. *)
Definition rows_with_a_zero : list Db.ChatQuery :=
  [row 1 "session-aaaaaaaa" (Some 0%Q) (Some 0%Q);
   row 2 "session-bbbbbbbb" (Some 1%Q) (Some 100%Q)].

(** No row has a nonzero confidence score. *)
Definition rows_without_confidence : list Db.ChatQuery :=
  [row 1 "session-aaaaaaaa" (Some 0%Q) (Some 1200%Q);
   row 2 "session-aaaaaaaa" None (Some 1500%Q)].

(** The collector after observing 1, 2, ..., 10 for one summary. *)
Definition one_to_ten : list Q :=
  map (fun n => inject_Z (Z.of_nat n)) (seq 1 10).

Definition observed_one_to_ten : Metrics.MetricsCollector :=
  fold_left (fun mc v => Metrics.observe_summary mc "latency" v "none")
            one_to_ten Metrics.new_collector.

Definition save_failure : exn :=
  DatabaseError "Failed to save query: connection refused".

(** Retrieval and generation succeed, the save fails. *)
Definition database_down (clock : nat -> Q) : RagService.Services :=
  {| RagService.init_services := inr tt;
     RagService.generate_embedding := fun _ => inr [(1 # 2)%Q];
     RagService.search_similar_chunks := fun _ _ => inr [walking_chunk];
     RagService.generate_response_for_query :=
       fun _ _ => inr "ZMP is the zero moment point of the robot.";
     RagService.save_query := fun _ => inl save_failure;
     RagService.clock := clock |}.

(** The vector search finds nothing. *)
Definition nothing_found : RagService.Services :=
  {| RagService.init_services := inr tt;
     RagService.generate_embedding := fun _ => inr [(1 # 2)%Q];
     RagService.search_similar_chunks := fun _ _ => inr [];
     RagService.generate_response_for_query := fun _ _ => inr "unused";
     RagService.save_query := fun _ => inr tt;
     RagService.clock := fun n => inject_Z (Z.of_nat n) |}.

End Scenario.

(* ================================================================= *)
(** ** app/core/metrics.py: counters, gauges, histograms, decorators *)

Module MetricsOps.
Import Py Metrics.

(** [self._counters[key] += amount] on a [defaultdict(int)]. *)
Definition increment_counter (mc : MetricsCollector) (name labels : string)
    (amount : Z) : MetricsCollector :=
  let key := metric_key name labels in
  {| _counters :=
       <[key := (default 0%Z (_counters mc !! key) + amount)%Z]> (_counters mc);
     _gauges := _gauges mc;
     _histograms := _histograms mc;
     _summaries := _summaries mc |}.

Definition set_gauge (mc : MetricsCollector) (name : string) (value : Q)
    (labels : string) : MetricsCollector :=
  let key := metric_key name labels in
  {| _counters := _counters mc;
     _gauges := <[key := value]> (_gauges mc);
     _histograms := _histograms mc;
     _summaries := _summaries mc |}.

Definition observe_histogram (mc : MetricsCollector) (name : string)
    (value : Q) (labels : string) : MetricsCollector :=
  let key := metric_key name labels in
  {| _counters := _counters mc;
     _gauges := _gauges mc;
     _histograms :=
       <[key := (default [] (_histograms mc !! key) ++ [value])%list]>
         (_histograms mc);
     _summaries := _summaries mc |}.

(** [self._counters.get(key, 0)] *)
Definition get_counter_value (mc : MetricsCollector) (name labels : string)
  : Z :=
  default 0%Z (_counters mc !! metric_key name labels).

(** [self._gauges.get(key, 0.0)] *)
Definition get_gauge_value (mc : MetricsCollector) (name labels : string)
  : Q :=
  default 0%Q (_gauges mc !! metric_key name labels).

Record HistogramStats : Type := {
  h_count : nat;
  h_sum : Q;
  h_avg : Q;
  h_min : Q;
  h_max : Q
}.

Definition get_histogram_stats (mc : MetricsCollector) (name labels : string)
  : HistogramStats :=
  let key := metric_key name labels in
  let values := default [] (_histograms mc !! key) in
  match values with
  | [] => {| h_count := 0; h_sum := 0; h_avg := 0; h_min := 0; h_max := 0 |}
  | _ =>
      {| h_count := List.length values;
         h_sum := Py.sum values;
         h_avg :=
           (Py.sum values / inject_Z (Z.of_nat (List.length values)))%Q;
         h_min := AnalyticsService.list_min values;
         h_max := AnalyticsService.list_max values |}
  end.

(** The four maps are cleared. *)
Definition reset_metrics (mc : MetricsCollector) : MetricsCollector :=
  {| _counters := ∅; _gauges := ∅; _histograms := ∅; _summaries := ∅ |}.

Definition QUERY_DURATION_HISTOGRAM : string := "rag_query_duration_seconds".
Definition QUERY_TOTAL_COUNTER : string := "rag_query_total".
Definition QUERY_ERROR_COUNTER : string := "rag_query_errors_total".

(** The state an instrumented coroutine runs in: the process-wide
    collector, the number of clock readings so far, and everything else
    the wrapped function touches. *)
Record state (W : Type) : Type := {
  collector : MetricsCollector;
  ticks : nat;
  world : W
}.
Arguments collector {W} _.
Arguments ticks {W} _.
Arguments world {W} _.

Definition with_collector {W} (s : state W) (mc : MetricsCollector)
  : state W :=
  {| collector := mc; ticks := ticks s; world := world s |}.

(** [time.time()] *)
Definition time_time {W} (clock : nat -> Q) (s : state W) : Q * state W :=
  (clock (ticks s),
   {| collector := collector s; ticks := S (ticks s); world := world s |}).

Section Decorators.
Context {W A : Type}.
Variable clock : nat -> Q.
Variables (metric_name labels : string).
Variable func : state W -> (exn + A) * state W.

(** The histogram is observed on both paths, then the result is returned
    or the exception raised again. *)
Definition measure_duration (s : state W) : (exn + A) * state W :=
  let '(start_time, s1) := time_time clock s in
  let '(r, s2) := func s1 in
  let '(t, s3) := time_time clock s2 in
  let duration := (t - start_time)%Q in
  (r, with_collector s3
        (observe_histogram (collector s3) metric_name duration labels)).

Definition count_calls (s : state W) : (exn + A) * state W :=
  func (with_collector s
          (increment_counter (collector s) metric_name labels 1)).

Definition record_error (s : state W) : (exn + A) * state W :=
  match func s with
  | (inl e, s') =>
      (inl e, with_collector s'
                (increment_counter (collector s') metric_name labels 1))
  | r => r
  end.

End Decorators.

(** 1 when the call raised, 0 when it returned. *)
Definition raised {A} (r : exn + A) : Z :=
  match r with inl _ => 1%Z | inr _ => 0%Z end.

(** The decoration of [process_query]: [@measure_duration] outermost, then
    [@count_calls], then [@record_error]; no labels. *)
Definition instrumented {W A : Type} (clock : nat -> Q)
    (func : state W -> (exn + A) * state W)
  : state W -> (exn + A) * state W :=
  measure_duration clock QUERY_DURATION_HISTOGRAM "none"
    (count_calls QUERY_TOTAL_COUNTER "none"
       (record_error QUERY_ERROR_COUNTER "none" func)).

End MetricsOps.

(* ================================================================= *)
(** ** app/services/postgres_service.py: saving and reading rows *)

Module PostgresOps.
Import Py Db.

Section SaveQuery.
Context {W R : Type}.

(** The operations of the SQLAlchemy session on the world [W]; [R] is the
    type of the ORM object built from the arguments of the call. *)
Variable add : R -> W -> (exn + unit) * W.
Variable commit : W -> (exn + unit) * W.
Variable refresh : R -> W -> (exn + R) * W.
Variable rollback : W -> (exn + unit) * W.

(** The [try] block of [save_query]: add, commit, refresh. *)
Definition save_query_try (chat_query : R) (w : W) : (exn + R) * W :=
  match add chat_query w with
  | (inl e, w1) => (inl e, w1)
  | (inr _, w1) =>
      match commit w1 with
      | (inl e, w2) => (inl e, w2)
      | (inr _, w2) => refresh chat_query w2
      end
  end.

(** The undecorated body of [save_query]: on a database-layer error the
    transaction is rolled back and [DatabaseError] is raised. *)
Definition save_query_body (chat_query : R) (w : W) : (exn + R) * W :=
  match save_query_try chat_query w with
  | (inl (SQLAlchemyError msg), w') =>
      match rollback w' with
      | (inl e, w'') => (inl e, w'')
      | (inr _, w'') =>
          (inl (DatabaseError ("Failed to save query: " ++ msg)), w'')
      end
  | r => r
  end.

(** [save_query] as decorated. *)
Definition save_query (chat_query : R) : W -> (exn + R) * W * list Q :=
  PostgresService.save_query_retry (save_query_body chat_query).

(** [log_query_async]: add and commit; a database-layer error is logged
    and not raised. *)
Definition log_query_async (chat_query : R) (w : W) : (exn + unit) * W :=
  let r :=
    match add chat_query w with
    | (inl e, w1) => (inl e, w1)
    | (inr _, w1) => commit w1
    end in
  match r with
  | (inl (SQLAlchemyError _), w') => (inr tt, w')
  | _ => r
  end.

End SaveQuery.

(** [ORDER BY timestamp DESC]; rows with equal timestamps stay in table
    order (SQL leaves their order open). *)
Fixpoint insert_desc (q : ChatQuery) (l : list ChatQuery) : list ChatQuery :=
  match l with
  | [] => [q]
  | y :: l' =>
      if (timestamp q <? timestamp y)%Z then y :: insert_desc q l'
      else q :: l
  end.

Definition order_by_timestamp_desc (l : list ChatQuery) : list ChatQuery :=
  fold_right insert_desc [] l.

(** The filters of [get_query_logs]: each is applied only when its
    argument is truthy. *)
Definition session_filter (session_id : option string) (q : ChatQuery)
  : bool :=
  match session_id with
  | Some s => if (len s =? 0)%nat then true else String.eqb (Db.session_id q) s
  | None => true
  end.

Definition days_filter (utcnow : Z) (days_back : option Z) (q : ChatQuery)
  : bool :=
  match days_back with
  | Some d =>
      if (d =? 0)%Z then true else (cutoff utcnow d <=? timestamp q)%Z
  | None => true
  end.

Definition log_filters (utcnow : Z) (session_id : option string)
    (days_back : option Z) (q : ChatQuery) : bool :=
  session_filter session_id q && days_filter utcnow days_back q.

(** [get_query_logs]: the page and the total count.  [limit] and [offset]
    are natural numbers. *)
Definition get_query_logs (session : Session) (utcnow : Z)
    (session_id : option string) (limit offset : nat) (days_back : option Z)
  : exn + (list ChatQuery * nat) :=
  match session with
  | Failing msg => inl (DatabaseError ("Failed to retrieve logs: " ++ msg))
  | Serving table =>
      let matching :=
        List.filter (log_filters utcnow session_id days_back) table in
      let total := List.length matching in
      let queries :=
        firstn limit (skipn offset (order_by_timestamp_desc matching)) in
      inr (queries, total)
  end.

End PostgresOps.

(* ================================================================= *)
(** ** app/services/analytics_service.py: the most frequent questions *)

Module AnalyticsOps.
Import Py Db.

(** An entry of the dict [by_question]; the list of groups keeps the
    insertion order of the dict. *)
Record Group : Type := {
  g_question : string;
  g_count : nat;
  g_confidences : list (option Q)
}.

(** One iteration of the grouping loop. *)
Fixpoint group_add (question : string) (confidence : option Q)
    (groups : list Group) : list Group :=
  match groups with
  | [] =>
      [{| g_question := question; g_count := 1;
          g_confidences := [confidence] |}]
  | g :: rest =>
      if String.eqb (g_question g) question then
        {| g_question := g_question g;
           g_count := S (g_count g);
           g_confidences := g_confidences g ++ [confidence] |} :: rest
      else g :: group_add question confidence rest
  end.

Definition by_question (queries : list ChatQuery) : list Group :=
  fold_left (fun groups q => group_add (question q) (confidence_score q) groups)
    queries [].

(** [sorted(..., key=count, reverse=True)]: a stable sort, larger counts
    first. *)
Fixpoint insert_by_count (g : Group) (l : list Group) : list Group :=
  match l with
  | [] => [g]
  | h :: l' =>
      if (g_count g <? g_count h)%nat then h :: insert_by_count g l'
      else g :: l
  end.

Definition sort_by_count (l : list Group) : list Group :=
  fold_right insert_by_count [] l.

(** [sum(confidences)]: adding [None] raises [TypeError]; the left operand
    is the integer 0 at the first element and a float afterwards. *)
Fixpoint sum_confidences (acc : Q) (first : bool) (cs : list (option Q))
  : exn + Q :=
  match cs with
  | [] => inr acc
  | Some c :: rest => sum_confidences (acc + c)%Q false rest
  | None :: _ =>
      inl (TypeError
             (if first
              then "unsupported operand type(s) for +: 'int' and 'NoneType'"
              else "unsupported operand type(s) for +: 'float' and 'NoneType'"))
  end.

Record TopQuestion : Type := {
  tq_question : string;
  tq_count : nat;
  tq_avg_confidence : Q
}.

Definition top_question (g : Group) : exn + TopQuestion :=
  match sum_confidences 0 true (g_confidences g) with
  | inl e => inl e
  | inr total =>
      inr {| tq_question := g_question g;
             tq_count := g_count g;
             tq_avg_confidence :=
               (total / inject_Z (Z.of_nat (List.length (g_confidences g))))%Q
          |}
  end.

Fixpoint top_questions (groups : list Group) : exn + list TopQuestion :=
  match groups with
  | [] => inr []
  | g :: rest =>
      match top_question g with
      | inl e => inl e
      | inr item =>
          match top_questions rest with
          | inl e => inl e
          | inr items => inr (item :: items)
          end
      end
  end.

(** [limit] is a natural number. *)
Definition get_top_questions (session : Session) (utcnow : Z) (limit : nat)
    (days_back : Z) : exn + list TopQuestion :=
  match select_since session (cutoff utcnow days_back) with
  | inl _ => inr []
  | inr queries =>
      top_questions (firstn limit (sort_by_count (by_question queries)))
  end.

End AnalyticsOps.

(* ================================================================= *)
(** ** app/api/v1/logs.py *)

Module LogsEndpoint.
Import Py Db.

(** [expected_token] is [os.getenv("ADMIN_TOKEN")], [x_admin_token] the
    [X-Admin-Token] header. *)
Definition require_admin_token (expected_token x_admin_token : option string)
  : exn + bool :=
  match expected_token with
  | None => inr true
  | Some expected =>
      if (len expected =? 0)%nat then inr true
      else
        match x_admin_token with
        | None => inl (HTTPException 401 "Unauthorized: Invalid admin token")
        | Some token =>
            if (len token =? 0)%nat || negb (String.eqb token expected) then
              inl (HTTPException 401 "Unauthorized: Invalid admin token")
            else inr true
        end
  end.

(** The bounds declared for the query parameters with
    [Query(..., ge=..., le=...)]; the handlers below are run on parameters
    inside them. *)
Definition limit_in_bounds (limit : nat) : bool :=
  ((1 <=? limit) && (limit <=? 1000))%nat.

Definition days_back_in_bounds (days_back : Z) : bool :=
  ((1 <=? days_back) && (days_back <=? 365))%Z.

Definition optional_days_back_in_bounds (days_back : option Z) : bool :=
  match days_back with
  | Some d => days_back_in_bounds d
  | None => true
  end.

Inductive Response (B : Type) : Type :=
| Ok200 (body : B)
| Err (status_code : Z) (detail : string).
Arguments Ok200 {B} _.
Arguments Err {B} _ _.

(** A route whose dependency [require_admin_token] raised is not run. *)
Definition guarded {B} (expected_token x_admin_token : option string)
    (handler : Response B) : Response B :=
  match require_admin_token expected_token x_admin_token with
  | inr _ => handler
  | inl (HTTPException status detail) => Err status detail
  | inl _ => Err 500 "Internal Server Error"
  end.

Record QueryLogEntry : Type := {
  le_id : Z;
  le_question : string;
  le_response_text : string;
  le_session_id : string;
  le_confidence_score : Q;
  le_timestamp : Z;
  le_query_duration_ms : option Q
}.

(** [confidence_score] is a required float of the response model.  The
    timestamp is kept as the stored instant (the handler renders it with
    [isoformat]). *)
Definition QueryLogEntry_new (q : ChatQuery) : exn + QueryLogEntry :=
  match confidence_score q with
  | Some c =>
      inr {| le_id := id q;
             le_question := question q;
             le_response_text := response_text q;
             le_session_id := session_id q;
             le_confidence_score := c;
             le_timestamp := timestamp q;
             le_query_duration_ms := query_duration_ms q |}
  | None => inl (PydanticValidationError "confidence_score")
  end.

Fixpoint entries (queries : list ChatQuery) : exn + list QueryLogEntry :=
  match queries with
  | [] => inr []
  | q :: rest =>
      match QueryLogEntry_new q with
      | inl e => inl e
      | inr item =>
          match entries rest with
          | inl e => inl e
          | inr items => inr (item :: items)
          end
      end
  end.

Record PaginatedLogsResponse : Type := {
  items : list QueryLogEntry;
  total : nat;
  limit : nat;
  offset : nat
}.

(** GET /v1/logs *)
Definition get_query_logs (expected_token x_admin_token : option string)
    (session : Session) (utcnow : Z) (session_id : option string)
    (limit offset : nat) (days_back : option Z)
  : Response PaginatedLogsResponse :=
  guarded expected_token x_admin_token
    match PostgresOps.get_query_logs session utcnow session_id limit offset
            days_back with
    | inl _ => Err 500 "Failed to retrieve logs. Please try again."
    | inr (queries, total) =>
        match entries queries with
        | inl _ => Err 500 "Failed to retrieve logs. Please try again."
        | inr items =>
            Ok200 {| items := items; total := total;
                     limit := limit; offset := offset |}
        end
    end.

Record AnalyticsResponse : Type := {
  query_count : nat;
  avg_confidence : Q;
  avg_response_time_ms : Q;
  unique_sessions : nat;
  period_days : Z
}.

(** GET /v1/logs/aggregate: each field is read with a default. *)
Definition get_analytics (expected_token x_admin_token : option string)
    (session : Session) (utcnow : Z) (days_back : Z)
  : Response AnalyticsResponse :=
  guarded expected_token x_admin_token
    match PostgresService.get_analytics session utcnow days_back with
    | PostgresService.EmptyDict =>
        Ok200 {| query_count := 0; avg_confidence := 0;
                 avg_response_time_ms := 0; unique_sessions := 0;
                 period_days := days_back |}
    | PostgresService.AnalyticsOf a =>
        Ok200 {| query_count := PostgresService.query_count a;
                 avg_confidence := PostgresService.avg_confidence a;
                 avg_response_time_ms :=
                   PostgresService.avg_response_time_ms a;
                 unique_sessions := PostgresService.unique_sessions a;
                 period_days :=
                   default days_back (PostgresService.period_days a) |}
    end.

(** GET /v1/logs/metrics *)
Definition get_performance_metrics
    (expected_token x_admin_token : option string)
    (session : Session) (utcnow : Z) (days_back : Z)
  : Response AnalyticsService.PerformanceMetrics :=
  guarded expected_token x_admin_token
    (Ok200 (AnalyticsService.get_performance_metrics session utcnow
              days_back)).

Definition top_limit_in_bounds (limit : nat) : bool :=
  ((1 <=? limit) && (limit <=? 100))%nat.

Record TopQuestionsResponse : Type := {
  tq_items : list AnalyticsOps.TopQuestion;
  tq_period_days : Z
}.

(** GET /v1/logs/top-questions *)
Definition get_top_questions (expected_token x_admin_token : option string)
    (session : Session) (utcnow : Z) (limit : nat) (days_back : Z)
  : Response TopQuestionsResponse :=
  guarded expected_token x_admin_token
    match AnalyticsOps.get_top_questions session utcnow limit days_back with
    | inl _ => Err 500 "Failed to retrieve top questions. Please try again."
    | inr top_questions =>
        Ok200 {| tq_items := top_questions; tq_period_days := days_back |}
    end.

End LogsEndpoint.

(* ================================================================= *)
(** ** Notions used to state the further properties *)

Module Aux.
Import Py.

(** Rows ordered from newest to oldest. *)
Definition newer_first (a b : Db.ChatQuery) : Prop :=
  (Db.timestamp b <= Db.timestamp a)%Z.

(** The page and the total of a [get_query_logs] result. *)
Definition page_of (r : exn + (list Db.ChatQuery * nat))
  : list Db.ChatQuery :=
  match r with
  | inr (page, _) => page
  | inl _ => []
  end.

(** A string that is empty or starts with a character that is not white
    space. *)
Definition starts_clean (s : string) : bool :=
  match s with
  | EmptyString => true
  | String c _ => negb (isspace c)
  end.

(** The delays of an exponential backoff: [d], [d*f], [d*f*f], ... *)
Fixpoint geometric (d f : Q) (k : nat) : list Q :=
  match k with
  | 0 => []
  | S k' => d :: geometric (d * f)%Q f k'
  end.

(** A function together with a count of its calls. *)
Definition counting {W A} (func : W -> (exn + A) * W) (s : W * nat)
  : (exn + A) * (W * nat) :=
  let '(r, w') := func (fst s) in (r, (w', S (snd s))).

(** The rows that ask a given question, in table order. *)
Definition rows_asking (question : string) (rows : list Db.ChatQuery)
  : list Db.ChatQuery :=
  List.filter (fun q => String.eqb (Db.question q) question) rows.


(** What the grouping loop maintains about the rows processed so far. *)
Definition grouped (rows : list Db.ChatQuery) (g : AnalyticsOps.Group)
  : Prop :=
  AnalyticsOps.g_count g
  = List.length (rows_asking (AnalyticsOps.g_question g) rows)
  /\ AnalyticsOps.g_confidences g
     = map Db.confidence_score (rows_asking (AnalyticsOps.g_question g) rows)
  /\ (1 <= AnalyticsOps.g_count g)%nat.

(** The calls recorded between two states of a run. *)
Definition new_events (st st' : Eff.state) : list Eff.event :=
  skipn (List.length (Eff.trace st)) (Eff.trace st').

Definition is_save (ev : Eff.event) : bool :=
  match ev with
  | Eff.CallSaveQuery _ _ _ => true
  | _ => false
  end.

(** The admin gate lets a request through when no token is configured,
    when the configured token is empty, or when the header carries the
    configured token. *)
Definition gate_open (expected_token x_admin_token : option string) : bool :=
  match expected_token with
  | None => true
  | Some expected =>
      String.eqb expected ""
      || match x_admin_token with
         | Some token => String.eqb token expected
         | None => false
         end
  end.

Definition total_of (r : exn + (list Db.ChatQuery * nat)) : nat :=
  match r with
  | inr (_, total) => total
  | inl _ => 0
  end.

End Aux.

(* ================================================================= *)
(** ** Further concrete behaviours used below *)

Module Scenario2.
Import Py.

(** A session that records the operations performed on it and whose
    commit fails with a database-layer error. *)
Definition add_logged (r : string) (w : list string)
  : (exn + unit) * list string :=
  (inr tt, (w ++ [("add " ++ r)%string])%list).

Definition commit_failing (w : list string) : (exn + unit) * list string :=
  (inl (SQLAlchemyError "connection refused"), (w ++ ["commit"])%list).

Definition refresh_logged (r : string) (w : list string)
  : (exn + string) * list string :=
  (inr r, (w ++ ["refresh"])%list).

Definition rollback_logged (w : list string) : (exn + unit) * list string :=
  (inr tt, (w ++ ["rollback"])%list).

(** Every service answers. *)
Definition all_up : RagService.Services :=
  {| RagService.init_services := inr tt;
     RagService.generate_embedding := fun _ => inr [(1 # 2)%Q];
     RagService.search_similar_chunks :=
       fun _ _ => inr [Scenario.walking_chunk];
     RagService.generate_response_for_query :=
       fun _ _ => inr "ZMP is the zero moment point of the robot.";
     RagService.save_query := fun _ => inr tt;
     RagService.clock := fun n => inject_Z (Z.of_nat n) |}.

(** The vector-search client cannot be initialised. *)
Definition qdrant_init_down : RagService.Services :=
  {| RagService.init_services :=
       inl (QdrantUnavailableError "Could not connect to vector database");
     RagService.generate_embedding := fun _ => inr [(1 # 2)%Q];
     RagService.search_similar_chunks :=
       fun _ _ => inr [Scenario.walking_chunk];
     RagService.generate_response_for_query :=
       fun _ _ => inr "ZMP is the zero moment point of the robot.";
     RagService.save_query := fun _ => inr tt;
     RagService.clock := fun n => inject_Z (Z.of_nat n) |}.

(** Stored rows asking two different questions, one day old. *)
Definition asked (id : Z) (question : string) (confidence : Q)
  : Db.ChatQuery :=
  {| Db.id := id;
     Db.question := question;
     Db.session_id := "session-aaaaaaaa";
     Db.timestamp := (Scenario.utcnow - 86400000000)%Z;
     Db.response_text := "An answer from the book.";
     Db.confidence_score := Some confidence;
     Db.query_duration_ms := Some 1200%Q;
     Db.retrieval_duration_ms := Some 200%Q;
     Db.generation_duration_ms := Some 1000%Q |}.


(** Three rows logged one, two and three days ago. *)
Definition logged (id days_ago : Z) : Db.ChatQuery :=
  {| Db.id := id;
     Db.question := "What is ZMP?";
     Db.session_id := "session-aaaaaaaa";
     Db.timestamp := (Scenario.utcnow - days_ago * 86400000000)%Z;
     Db.response_text := "An answer from the book.";
     Db.confidence_score := Some (1 # 2)%Q;
     Db.query_duration_ms := Some 1200%Q;
     Db.retrieval_duration_ms := Some 200%Q;
     Db.generation_duration_ms := Some 1000%Q |}.

Definition three_days : list Db.ChatQuery :=
  [logged 1 3; logged 2 1; logged 3 2].

End Scenario2.

(* ================================================================= *)
(** * Properties                                                      *)
(* ================================================================= *)

(** ** Health aggregation *)

Lemma overall_status_cases (q g p : bool) :
  Health.overall_status q g p
  = if q && g && p then "healthy" else "degraded".
Proof. destruct q, g, p; reflexivity. Qed.

(** C3: the claimed aggregation (all three checks fail: "unhealthy") is
    not what [health_check] computes.  When all three dependency checks
    fail the reported status is "degraded", and no combination of check
    results is reported as "unhealthy": the last branch of the status
    selection cannot be reached. *)
Theorem health_check_all_down_is_degraded :
  (forall (e1 e2 e3 : Py.exn) (now : string),
      Health.status (Health.health_check (inl e1) (inl e2) (inl e3) now)
      = "degraded")
  /\ (forall q g p : bool, Health.overall_status q g p <> "unhealthy")
  /\ Health.overall_status true true true = "healthy".
Proof.
  split; [| split].
  - intros e1 e2 e3 now. reflexivity.
  - intros q g p. rewrite overall_status_cases.
    destruct (q && g && p); discriminate.
  - reflexivity.
Qed.

(** ** The query handler *)

Lemma validate_query_input_raises (q s : string) (c : option string)
    (e : Py.exn) :
  Validators.validate_query_input q s c = inl e ->
  exists msg, e = Py.ValidatorsValidationError msg.
Proof.
  unfold Validators.validate_query_input, Validators.validate_query_length,
    Validators.validate_session_id, Validators.validate_selected_context.
  intros H.
  repeat match type of H with
         | context [if ?b then _ else _] => destruct b
         | context [match ?o with Some _ => _ | None => _ end] => destruct o
         end;
    inversion H; eauto.
Qed.

Lemma post_query_invalid_input (svc : RagService.Services) (now : string)
    (req : Schemas.ChatQueryRequest) (e : Py.exn) :
  RagService.init_services svc = inr tt ->
  Validators.validate_query_input (Schemas.question req)
    (Schemas.session_id req) (Schemas.selected_context req) = inl e ->
  QueryEndpoint.post_query svc now req
  = QueryEndpoint.HttpError 500 QueryEndpoint.unexpected_detail.
Proof.
  intros Hinit Hval.
  destruct (validate_query_input_raises _ _ _ _ Hval) as [msg ->].
  unfold QueryEndpoint.post_query, QueryEndpoint.query_chatbot,
    Eff.try_except, Eff.bind, Eff.time_time, Eff.call, Eff.lift.
  cbn. rewrite Hinit, Hval. reflexivity.
Qed.

Lemma post_query_valid_input (svc : RagService.Services) (now : string)
    (req : Schemas.ChatQueryRequest) :
  RagService.init_services svc = inr tt ->
  Validators.validate_query_input (Schemas.question req)
    (Schemas.session_id req) (Schemas.selected_context req) = inr tt ->
  QueryEndpoint.post_query svc now req
  = Spec.response_after_pipeline now
      (fst (RagService.process_query svc (Schemas.question req)
              (Schemas.session_id req) (Schemas.selected_context req)
              Spec.pipeline_entry)).
Proof.
  intros Hinit Hval.
  unfold QueryEndpoint.post_query, QueryEndpoint.query_chatbot.
  unfold Eff.try_except at 1. unfold Eff.bind at 1.
  unfold Eff.time_time at 1. cbn [Eff.ticks Eff.trace Eff.initial].
  unfold Eff.bind at 1. unfold Eff.call at 1. rewrite Hinit.
  cbn [Eff.ticks Eff.trace Eff.initial app].
  unfold Eff.bind at 1. unfold Eff.try_except at 1. unfold Eff.lift at 1.
  rewrite Hval.
  unfold Eff.bind at 1. unfold Eff.try_except at 1. unfold Eff.bind at 1.
  fold Spec.pipeline_entry.
  destruct (RagService.process_query svc (Schemas.question req)
              (Schemas.session_id req) (Schemas.selected_context req)
              Spec.pipeline_entry) as [[e | r] st'].
  - destruct e; reflexivity.
  - cbn. unfold Eff.lift, Schemas.ChatResponseSchema_new.
    destruct (Qle_bool 0 _ && Qle_bool _ 1); reflexivity.
Qed.

Lemma post_query_vector_search_down (svc : RagService.Services)
    (now : string) (req : Schemas.ChatQueryRequest) (msg : string) :
  RagService.init_services svc = inr tt ->
  Validators.validate_query_input (Schemas.question req)
    (Schemas.session_id req) (Schemas.selected_context req) = inr tt ->
  fst (RagService.process_query svc (Schemas.question req)
         (Schemas.session_id req) (Schemas.selected_context req)
         Spec.pipeline_entry) = inl (Py.QdrantUnavailableError msg) ->
  QueryEndpoint.post_query svc now req = QueryEndpoint.HttpError 503 msg.
Proof.
  intros Hinit Hval Hrun.
  rewrite (post_query_valid_input _ _ _ Hinit Hval), Hrun. reflexivity.
Qed.

Lemma post_query_generation_failed (svc : RagService.Services)
    (now : string) (req : Schemas.ChatQueryRequest) (msg : string) :
  RagService.init_services svc = inr tt ->
  Validators.validate_query_input (Schemas.question req)
    (Schemas.session_id req) (Schemas.selected_context req) = inr tt ->
  fst (RagService.process_query svc (Schemas.question req)
         (Schemas.session_id req) (Schemas.selected_context req)
         Spec.pipeline_entry) = inl (Py.GeminiAPIError msg) ->
  QueryEndpoint.post_query svc now req = QueryEndpoint.HttpError 502 msg.
Proof.
  intros Hinit Hval Hrun.
  rewrite (post_query_valid_input _ _ _ Hinit Hval), Hrun. reflexivity.
Qed.

Lemma post_query_persistence_failed (svc : RagService.Services)
    (now : string) (req : Schemas.ChatQueryRequest) (msg : string) :
  RagService.init_services svc = inr tt ->
  Validators.validate_query_input (Schemas.question req)
    (Schemas.session_id req) (Schemas.selected_context req) = inr tt ->
  fst (RagService.process_query svc (Schemas.question req)
         (Schemas.session_id req) (Schemas.selected_context req)
         Spec.pipeline_entry) = inl (Py.DatabaseError msg) ->
  QueryEndpoint.post_query svc now req
  = QueryEndpoint.HttpError 500 QueryEndpoint.unexpected_detail.
Proof.
  intros Hinit Hval Hrun.
  rewrite (post_query_valid_input _ _ _ Hinit Hval), Hrun. reflexivity.
Qed.

(** C1: an invalid-input failure is not answered with HTTP 400.  The
    request with session id "invalid session id!" passes the request schema
    and [validate_query_input] raises the validators' [ValidationError]
    with the session-id message; the handler's 400 clause names the
    [ValidationError] class of the exceptions module, so the failure
    reaches the outer clause and the client receives HTTP 500 with the
    generic detail, whatever the services answer. *)
Theorem post_query_invalid_session_is_500 :
  Schemas.ChatQueryRequest_validate "What is ZMP?" None "invalid session id!"
  = inr Scenario.bad_session_request
  /\ Validators.validate_query_input "What is ZMP?" "invalid session id!" None
     = inl (Py.ValidatorsValidationError
              "Invalid session ID format. Must match pattern: ^[a-zA-Z0-9\-_]{10,50}$")
  /\ forall embed search generate save clock now,
      QueryEndpoint.post_query
        {| RagService.init_services := inr tt;
           RagService.generate_embedding := embed;
           RagService.search_similar_chunks := search;
           RagService.generate_response_for_query := generate;
           RagService.save_query := save;
           RagService.clock := clock |}
        now Scenario.bad_session_request
      = QueryEndpoint.HttpError 500
          "An unexpected error occurred. Please try again.".
Proof.
  split; [reflexivity | split; [reflexivity |]].
  intros embed search generate save clock now.
  eapply post_query_invalid_input; reflexivity.
Qed.

Lemma good_request_is_valid :
  Validators.validate_query_input
    (Schemas.question Scenario.good_request)
    (Schemas.session_id Scenario.good_request)
    (Schemas.selected_context Scenario.good_request) = inr tt.
Proof. reflexivity. Qed.

(** C2: a persistence failure is fatal to the caller.  With retrieval and
    generation succeeding and [save_query] raising [DatabaseError], the
    pipeline raises that error after the generation call; the handler
    catches it and continues, [rag_result] was never assigned, and the
    client receives HTTP 500 with the generic detail instead of the
    generated answer. *)
Theorem post_query_database_error_is_500 :
  forall (clock : nat -> Q) (now : string),
    (exists st,
        RagService.process_query (Scenario.database_down clock)
          "What is ZMP in bipedal walking?" "test-session-12345" None
          Spec.pipeline_entry
        = (inl Scenario.save_failure, st)
        /\ existsb Spec.is_generation_or_save (Eff.trace st) = true)
    /\ QueryEndpoint.post_query (Scenario.database_down clock) now
         Scenario.good_request
       = QueryEndpoint.HttpError 500
           "An unexpected error occurred. Please try again.".
Proof.
  intros clock now. split.
  - eexists. split; [cbv; reflexivity | reflexivity].
  - eapply (post_query_persistence_failed (Scenario.database_down clock)
              now Scenario.good_request);
      reflexivity.
Qed.

(** ** The no-results branch of the pipeline *)

(** C5: when the vector search returns no chunk, [process_query] returns
    the fixed answer, whose text contains "couldn't find relevant
    information", with an empty source list and confidence exactly 0; the
    calls made are the embedding call and the search call, so neither the
    generation call nor the save is invoked. *)
Theorem process_query_no_results (svc : RagService.Services)
    (question session_id : string) (selected_context : option string)
    (embedding : list Q) (st : Eff.state) :
  Validators.validate_query_input question session_id selected_context
  = inr tt ->
  RagService.generate_embedding svc question = inr embedding ->
  RagService.search_similar_chunks svc embedding 5 = inr [] ->
  exists r st',
    RagService.process_query svc question session_id selected_context st
    = (inr r, st')
    /\ Py.contains "couldn't find relevant information"
         (RagService.response_text r) = true
    /\ RagService.source_references r = []
    /\ RagService.confidence_score r = 0%Q
    /\ Eff.trace st'
       = (Eff.trace st
          ++ [Eff.CallGenerateEmbedding question;
              Eff.CallSearchSimilarChunks 5])%list
    /\ existsb Spec.is_generation_or_save
         [Eff.CallGenerateEmbedding question; Eff.CallSearchSimilarChunks 5]
       = false.
Proof.
  intros Hval Hemb Hsearch.
  unfold RagService.process_query, Eff.bind, Eff.time_time, Eff.lift,
    Eff.call, Constants.MAX_RETRIEVED_CHUNKS.
  rewrite Hval, Hemb, Hsearch. cbn.
  eexists _, _. split; [reflexivity |].
  cbn [RagService.response_text RagService.source_references
         RagService.confidence_score Eff.trace].
  repeat split; try reflexivity.
  rewrite <- app_assoc. reflexivity.
Qed.

(** The no-results branch on a concrete request. *)
Lemma process_query_no_results_witness :
  Validators.validate_query_input
    "What is ZMP in bipedal walking?" "test-session-12345" None = inr tt
  /\ RagService.generate_embedding Scenario.nothing_found
       "What is ZMP in bipedal walking?" = inr [(1 # 2)%Q]
  /\ RagService.search_similar_chunks Scenario.nothing_found [(1 # 2)%Q] 5
     = inr []
  /\ exists r st',
      RagService.process_query Scenario.nothing_found
        "What is ZMP in bipedal walking?" "test-session-12345" None
        Eff.initial
      = (inr r, st')
      /\ Py.contains "couldn't find relevant information"
           (RagService.response_text r) = true
      /\ RagService.source_references r = []
      /\ RagService.confidence_score r = 0%Q
      /\ Eff.trace st'
         = (Eff.trace Eff.initial
            ++ [Eff.CallGenerateEmbedding "What is ZMP in bipedal walking?";
                Eff.CallSearchSimilarChunks 5])%list
      /\ existsb Spec.is_generation_or_save
           [Eff.CallGenerateEmbedding "What is ZMP in bipedal walking?";
            Eff.CallSearchSimilarChunks 5]
         = false.
Proof.
  split; [reflexivity | split; [reflexivity | split; [reflexivity |]]].
  apply (process_query_no_results Scenario.nothing_found
           "What is ZMP in bipedal walking?" "test-session-12345" None
           [(1 # 2)%Q] Eff.initial);
    reflexivity.
Defined.

(** ** Arithmetic on scores *)

Lemma py_min_Qmin (a b : Q) : (Py.min a b == Qmin a b)%Q.
Proof.
  unfold Py.min. destruct (Qlt_le_dec b a) as [Hlt | Hle].
  - symmetry. apply Q.min_r. lra.
  - symmetry. apply Q.min_l. exact Hle.
Qed.

Lemma py_max_Qmax (a b : Q) : (Py.max a b == Qmax a b)%Q.
Proof.
  unfold Py.max. destruct (Qlt_le_dec a b) as [Hlt | Hle].
  - symmetry. apply Q.max_r. lra.
  - symmetry. apply Q.max_l. exact Hle.
Qed.

Lemma py_sum_from (l : list Q) (a : Q) :
  (fold_left Qplus l a == a + fold_right Qplus 0 l)%Q.
Proof.
  revert a. induction l as [| x l IH]; intros a; cbn.
  - ring.
  - rewrite IH. ring.
Qed.

Lemma py_sum_fold_right (l : list Q) :
  (Py.sum l == fold_right Qplus 0 l)%Q.
Proof. unfold Py.sum. rewrite py_sum_from. ring. Qed.

(** The clamp written by the code, [max(lo, min(x, hi))], is the clamp of
    the specification. *)
Lemma max_min_is_clamp (lo hi x y : Q) :
  (lo <= hi)%Q -> (x == y)%Q ->
  (Py.max lo (Py.min x hi) == Spec.clamp lo hi y)%Q.
Proof.
  intros Hlh Hxy. unfold Py.max, Py.min, Spec.clamp.
  destruct (Qlt_le_dec hi x), (Qlt_le_dec y lo), (Qlt_le_dec hi y);
    repeat match goal with
           | |- context [Qlt_le_dec ?a ?b] => destruct (Qlt_le_dec a b)
           end;
    lra.
Qed.

Lemma max_min_in_range (lo hi x : Q) :
  (lo <= hi)%Q ->
  (lo <= Py.max lo (Py.min x hi) /\ Py.max lo (Py.min x hi) <= hi)%Q.
Proof.
  intros Hlh. unfold Py.max, Py.min.
  destruct (Qlt_le_dec hi x);
    match goal with
    | |- context [Qlt_le_dec ?a ?b] => destruct (Qlt_le_dec a b)
    end;
    lra.
Qed.

(** C4: for a non-empty chunk list the confidence helper returns
    [clamp(0.3, 1.0, 0.7 * avg_similarity + 0.3 * min(len(response)/200,
    1.0))], where [avg_similarity] is the mean of the chunks' similarity
    scores; the result lies in [0.3, 1.0]; and for the empty chunk list the
    helper returns exactly 0. *)
Theorem calculate_confidence_score_spec (c : RagService.Chunk)
    (cs : list RagService.Chunk) (response : string) :
  let chunks := c :: cs in
  let avg_similarity := Spec.mean (map RagService.get_similarity chunks) in
  let score := RagService._calculate_confidence_score chunks response in
  (score == Spec.clamp (3 # 10) 1
              ((7 # 10) * avg_similarity
               + (3 # 10) * Qmin (inject_Z (Z.of_nat (Py.len response)) / 200) 1)
   /\ (3 # 10) <= score /\ score <= 1)%Q
  /\ RagService._calculate_confidence_score [] response = 0%Q.
Proof.
  cbv zeta. split; [| reflexivity].
  unfold RagService._calculate_confidence_score,
    Constants.MIN_CONFIDENCE_SCORE.
  split.
  - apply max_min_is_clamp; [lra |].
    rewrite py_min_Qmin, py_sum_fold_right.
    unfold Spec.mean. cbn [map List.length]. rewrite List.length_map. ring.
  - apply max_min_in_range. lra.
Qed.

(** The example of the specification: similarities 0.95, 0.92, 0.88 and a
    response of 200 characters give 0.7 * 0.91666... + 0.3. *)
Example confidence_score_sample :
  let chunk s :=
    {| RagService.chunk_id := 0; RagService.similarity_score := Some s;
       RagService.text := ""; RagService.chapter := None;
       RagService.lesson := None; RagService.section := None |} in
  (RagService._calculate_confidence_score
     [chunk (95 # 100); chunk (92 # 100); chunk (88 # 100)]
     (String.concat "" (repeat "0123456789" 20))
   == 2825 # 3000)%Q.
Proof. vm_compute. reflexivity. Qed.

(** ** The session-id pattern *)

Lemma in_session_id_class (c : ascii) :
  Re.in_class Constants.session_id_class c = Spec.session_char c.
Proof. destruct c as [[] [] [] [] [] [] [] []]; reflexivity. Qed.

Lemma all_chars_ext (p q : ascii -> bool) (s : string) :
  (forall c, p c = q c) -> Spec.all_chars p s = Spec.all_chars q s.
Proof.
  intros Hpq. induction s as [| c s IH]; cbn; [reflexivity |].
  rewrite Hpq, IH. reflexivity.
Qed.

Lemma existsb_greedy_counts (f : nat -> bool) (lo kmax : nat) :
  existsb f (Re.greedy_counts lo kmax) = true
  <-> exists k, (lo <= k <= kmax)%nat /\ f k = true.
Proof.
  unfold Re.greedy_counts. rewrite existsb_exists. split.
  - intros [k [Hin Hf]]. exists k. split; [| exact Hf].
    apply in_rev, in_seq in Hin. lia.
  - intros [k [Hk Hf]]. exists k. split; [| exact Hf].
    apply -> in_rev. apply in_seq. lia.
Qed.

Section ClassPrefix.
Variable ranges : list (ascii * ascii).
Let P := Re.in_class ranges.

Lemma class_prefix_le (hi : nat) (s : string) :
  (Re.class_prefix ranges hi s <= hi)%nat.
Proof.
  revert s. induction hi as [| hi IH]; intros [| c s]; cbn; try lia.
  destruct (Re.in_class ranges c); [specialize (IH s) |]; lia.
Qed.

Lemma class_prefix_end (hi k : nat) (s : string) :
  (k <= Re.class_prefix ranges hi s)%nat -> Re.drop k s = EmptyString ->
  Spec.all_chars P s = true /\ Py.len s = k.
Proof.
  revert hi s. induction k as [| k IH]; intros hi s Hk Hdrop.
  - destruct s; cbn in Hdrop; [split; reflexivity | discriminate].
  - destruct hi as [| hi], s as [| c s]; cbn in Hk; try lia.
    subst P. cbn. destruct (Re.in_class ranges c) eqn:Hc; [| lia].
    destruct (IH hi s) as [Hall Hlen]; [lia | exact Hdrop |].
    split; [exact Hall | cbn; unfold Py.len in Hlen; lia].
Qed.

Lemma class_prefix_before_newline (hi k : nat) (s : string) :
  (k <= Re.class_prefix ranges hi s)%nat ->
  Re.drop k s = String Py.LF EmptyString ->
  exists t, Spec.strip_final_newline s = Some t
            /\ Spec.all_chars P t = true /\ Py.len t = k.
Proof.
  revert hi s. induction k as [| k IH]; intros hi s Hk Hdrop.
  - destruct s as [| c s]; cbn in Hdrop; [discriminate |].
    inversion Hdrop; subst. exists EmptyString. repeat split.
  - destruct hi as [| hi], s as [| c s]; cbn in Hk; try lia.
    destruct (Re.in_class ranges c) eqn:Hc; [| lia].
    destruct (IH hi s) as [t [Hstrip [Hall Hlen]]]; [lia | exact Hdrop |].
    exists (String c t). cbn [Spec.strip_final_newline].
    destruct s as [| c' s]; [cbn in Hstrip; discriminate |].
    rewrite Hstrip. subst P. cbn. rewrite Hc.
    repeat split; [exact Hall | unfold Py.len in *; cbn; lia].
Qed.

Lemma class_prefix_all (hi : nat) (s : string) :
  Spec.all_chars P s = true -> (Py.len s <= hi)%nat ->
  Re.class_prefix ranges hi s = Py.len s
  /\ Re.drop (Py.len s) s = EmptyString.
Proof.
  revert hi. induction s as [| c s IH]; intros hi Hall Hlen.
  - destruct hi; split; reflexivity.
  - destruct hi as [| hi]; [cbn in Hlen; lia |].
    subst P. cbn in Hall. apply andb_prop in Hall as [Hc Hall].
    unfold Py.len in *. cbn [String.length] in *.
    destruct (IH hi Hall) as [Hpre Hdrop]; [lia |].
    cbn. rewrite Hc, Hpre.
    split; [reflexivity | exact Hdrop].
Qed.

Lemma class_prefix_stripped (hi : nat) (s t : string) :
  Spec.strip_final_newline s = Some t ->
  Spec.all_chars P t = true -> (Py.len t <= hi)%nat ->
  (Py.len t <= Re.class_prefix ranges hi s)%nat
  /\ Re.drop (Py.len t) s = String Py.LF EmptyString.
Proof.
  revert hi t. induction s as [| c s IH]; intros hi t Hstrip Hall Hlen.
  - discriminate.
  - cbn [Spec.strip_final_newline] in Hstrip. destruct s as [| c' s].
    + destruct (Ascii.eqb_spec c Py.LF); [| discriminate].
      inversion Hstrip; subst. cbn. split; [lia | reflexivity].
    + destruct (Spec.strip_final_newline (String c' s)) as [t' |] eqn:Ht';
        [| discriminate].
      cbn in Hstrip. inversion Hstrip; subst t. clear Hstrip.
      subst P. cbn in Hall. apply andb_prop in Hall as [Hc Hall].
      unfold Py.len in *. cbn [String.length] in *.
      destruct hi as [| hi]; [lia |].
      destruct (IH hi t' eq_refl Hall) as [Hpre Hdrop]; [lia |].
      cbn [Re.class_prefix]. rewrite Hc.
      cbn [Re.drop].
      split; [lia | exact Hdrop].
Qed.

End ClassPrefix.

Lemma at_eol_cases (s : string) :
  Re.at_eol s = true
  <-> s = EmptyString \/ s = String Py.LF EmptyString.
Proof.
  destruct s as [| c [| c' s]]; cbn.
  - intuition.
  - destruct (Ascii.eqb_spec c Py.LF) as [Heq | Hne].
    + subst c. split; [right; reflexivity | reflexivity].
    + split; [discriminate |].
      intros [H | H]; [discriminate | inversion H; congruence].
  - split; [discriminate | intros [H | H]; discriminate].
Qed.

(** What the pattern accepts: a well-formed session id, or a well-formed
    session id followed by one newline. *)
Lemma re_match_session_id (s : string) :
  Re.re_match Constants.SESSION_ID_PATTERN s
  = Spec.session_id_ok s || Spec.session_id_ok_before_newline s.
Proof.
  apply Bool.eq_iff_eq_true.
  unfold Re.re_match, Constants.SESSION_ID_PATTERN. cbn [Re.match_items].
  rewrite Bool.andb_true_l, existsb_greedy_counts, Bool.orb_true_iff.
  unfold Spec.session_id_ok_before_newline, Spec.session_id_ok.
  rewrite (all_chars_ext _ _ s (fun c => eq_sym (in_session_id_class c))).
  pose proof (class_prefix_le Constants.session_id_class 50 s) as Hle.
  split.
  - intros [k [[Hlo Hhi] Hk]].
    rewrite Bool.andb_true_r in Hk. apply at_eol_cases in Hk as [Hk | Hk].
    + left.
      destruct (class_prefix_end _ _ _ _ Hhi Hk) as [Hall Hlen].
      rewrite Hall, Hlen, Bool.andb_true_r.
      apply andb_true_intro; split; apply Nat.leb_le; lia.
    + right.
      destruct (class_prefix_before_newline _ _ _ _ Hhi Hk)
        as [t [-> [Hall Hlen]]].
      rewrite <- (all_chars_ext _ _ t in_session_id_class), Hall, Hlen.
      rewrite Bool.andb_true_r.
      apply andb_true_intro; split; apply Nat.leb_le; lia.
  - intros [H | H].
    + apply andb_prop in H as [Hlen Hall].
      apply andb_prop in Hlen as [Hlo Hhi].
      apply Nat.leb_le in Hlo, Hhi.
      destruct (class_prefix_all _ 50 s Hall Hhi) as [Hpre Hdrop].
      exists (Py.len s). rewrite Hpre, Hdrop. repeat split; lia.
    + destruct (Spec.strip_final_newline s) as [t |] eqn:Ht; [| discriminate].
      apply andb_prop in H as [Hlen Hall].
      apply andb_prop in Hlen as [Hlo Hhi].
      apply Nat.leb_le in Hlo, Hhi.
      rewrite (all_chars_ext _ _ t (fun c => eq_sym (in_session_id_class c)))
        in Hall.
      destruct (class_prefix_stripped _ 50 s t Ht Hall Hhi) as [Hpre Hdrop].
      exists (Py.len t). rewrite Hdrop. repeat split; lia.
Qed.

(** C7: the validator accepts more than the strings the claim describes.
    [validate_session_id] accepts exactly the well-formed session ids (10
    to 50 letters, digits, hyphens, underscores) and the well-formed
    session ids followed by one newline, because [$] also matches just
    before a final newline; "abcdefghij" followed by a newline is accepted
    although it has 11 characters, one of them outside the class. *)
Theorem validate_session_id_accepts_final_newline :
  (forall s : string,
      Spec.accepted (Validators.validate_session_id s)
      = Spec.session_id_ok s || Spec.session_id_ok_before_newline s)
  /\ Validators.validate_session_id Scenario.newline_session_id = inr tt
  /\ Spec.session_id_ok Scenario.newline_session_id = false
  /\ Py.len Scenario.newline_session_id = 11.
Proof.
  split; [| repeat split].
  intros s. unfold Validators.validate_session_id.
  rewrite re_match_session_id.
  destruct (Spec.session_id_ok s || Spec.session_id_ok_before_newline s);
    reflexivity.
Qed.

(** ** The persistence retry decorator *)

Ltac invert_sql_failures :=
  repeat match goal with
         | H : Spec.sql_failures _ (S _) _ _ |- _ =>
             inversion H; subst; clear H
         | H : Spec.sql_failures _ 0 _ _ |- _ =>
             inversion H; subst; clear H
         end.

Section RetryLoop.
Context {W A : Type}.
Variables (max_retries : Z) (backoff_factor : Q).
Variable func : W -> (Py.exn + A) * W.

(** A failed attempt that is not the last one: sleep, multiply the delay,
    go on with the next attempt. *)
Lemma retry_loop_retries (attempt : Z) (rest : list Z)
    (last : option Py.exn) (delay : Q) (w w' : W) (slept : list Q)
    (msg : string) :
  func w = (inl (Py.SQLAlchemyError msg), w') ->
  attempt <> max_retries ->
  PostgresService.retry_loop max_retries backoff_factor func
    (attempt :: rest) last delay w slept
  = PostgresService.retry_loop max_retries backoff_factor func rest
      (Some (Py.SQLAlchemyError msg)) (delay * backoff_factor)%Q w'
      (slept ++ [delay]).
Proof.
  intros Hcall Hne. cbn [PostgresService.retry_loop]. rewrite Hcall.
  cbn [PostgresService.is_SQLAlchemyError].
  destruct (Z.eqb_spec attempt max_retries); [contradiction | reflexivity].
Qed.

(** An attempt that ends the loop: a value, an error of another kind, or
    the last attempt. *)
Lemma retry_loop_ends (attempt : Z) (rest : list Z) (last : option Py.exn)
    (delay : Q) (w w' : W) (slept : list Q) (r : Py.exn + A) :
  func w = (r, w') ->
  (attempt = max_retries
   \/ forall e, r = inl e -> PostgresService.is_SQLAlchemyError e = false) ->
  PostgresService.retry_loop max_retries backoff_factor func
    (attempt :: rest) last delay w slept
  = (r, w', slept).
Proof.
  intros Hcall Hc. cbn [PostgresService.retry_loop]. rewrite Hcall.
  destruct r as [e | a]; [| reflexivity].
  destruct (PostgresService.is_SQLAlchemyError e) eqn:He; [| reflexivity].
  destruct Hc as [-> | Hc].
  - rewrite Z.eqb_refl. reflexivity.
  - rewrite (Hc e eq_refl) in He. discriminate.
Qed.

End RetryLoop.

(** C6: the retry decorator as applied to [save_query] (3 retries, 0.1s
    initial delay, factor 2).  If the first [k <= 3] attempts raise
    database-layer errors and attempt [k+1] returns a value, or raises an
    error that is not a database-layer error, or is the fourth attempt,
    then the wrapper ends with that attempt: its value is returned or its
    error is raised unchanged, no further attempt is made, and the sleeps
    made are the first [k] of 0.1s, 0.2s, 0.4s. *)
Theorem retry_on_connection_error_spec {W A : Type}
    (func : W -> (Py.exn + A) * W) (k : nat) (w w1 w2 : W)
    (r : Py.exn + A) :
  (k <= 3)%nat ->
  Spec.sql_failures func k w w1 ->
  func w1 = (r, w2) ->
  (k = 3%nat
   \/ forall e, r = inl e -> PostgresService.is_SQLAlchemyError e = false) ->
  PostgresService.save_query_retry func w
  = (r, w2, firstn k Spec.backoff_delays).
Proof.
  intros Hk Hfail Hlast Hcond.
  unfold PostgresService.save_query_retry,
    PostgresService.retry_on_connection_error.
  change (PostgresService.range (3 + 1)) with [0; 1; 2; 3]%Z.
  destruct k as [| [| [| [| k]]]]; [| | | | lia]; invert_sql_failures;
    repeat match goal with
           | H : func ?w = (inl (Py.SQLAlchemyError _), _) |- _ =>
               rewrite (retry_loop_retries 3 2 func _ _ _ _ w _ _ _ H)
                 by discriminate;
               clear H
           end;
    (rewrite (retry_loop_ends 3 2 func _ _ _ _ _ _ _ _ Hlast);
     [reflexivity |]);
    try (destruct Hcond as [Hcond | Hcond];
         [discriminate Hcond | right; exact Hcond]).
  left; reflexivity.
Qed.

Lemma flaky_fails_twice : Spec.sql_failures Scenario.flaky 2 0 2.
Proof.
  eapply Spec.sql_failures_S; [reflexivity |].
  eapply Spec.sql_failures_S; [reflexivity |].
  apply Spec.sql_failures_0.
Qed.

(** Two database-layer failures, then success: the result is returned
    after sleeps of 0.1s and 0.2s. *)
Lemma retry_on_connection_error_spec_witness :
  (2 <= 3)%nat
  /\ Spec.sql_failures Scenario.flaky 2 0 2
  /\ Scenario.flaky 2 = (inr "success", 3)
  /\ PostgresService.save_query_retry Scenario.flaky 0
     = (inr "success", 3, [1 # 10; 2 # 10]%Q).
Proof.
  split; [lia | split; [exact flaky_fails_twice | split; [reflexivity |]]].
  apply (retry_on_connection_error_spec Scenario.flaky 2 0 2 3
           (inr "success"));
    [lia | exact flaky_fails_twice | reflexivity |].
  right. intros e He. discriminate He.
Defined.

(** An operation that always fails with a database-layer error is
    attempted four times, with sleeps of 0.1s, 0.2s and 0.4s. *)
Example retry_always_failing :
  PostgresService.save_query_retry
    (fun calls : nat =>
       (inl (Py.SQLAlchemyError "Always fails") : Py.exn + unit, S calls)) 0
  = (inl (Py.SQLAlchemyError "Always fails"), 4, [1 # 10; 2 # 10; 4 # 10]%Q).
Proof. reflexivity. Qed.

(** An error that is not a database-layer error is not retried. *)
Example retry_other_error :
  PostgresService.save_query_retry
    (fun calls : nat =>
       (inl (Py.DatabaseError "Failed to save query") : Py.exn + unit,
        S calls)) 0
  = (inl (Py.DatabaseError "Failed to save query"), 1, []).
Proof. reflexivity. Qed.

(** ** Aggregations over the stored rows *)

Lemma select_since_window (table : list Db.ChatQuery) (utcnow days_back : Z) :
  Db.select_since (Db.Serving table) (Db.cutoff utcnow days_back)
  = inr (Spec.window table utcnow days_back).
Proof. reflexivity. Qed.

(** The comprehension [[q.attr for q in queries if q.attr]] keeps the
    values that are neither null nor zero. *)
Lemma truthy_values_nonzero (attr : Db.ChatQuery -> option Q)
    (rows : list Db.ChatQuery) :
  Db.truthy_values attr rows = Spec.nonzero (Spec.non_null attr rows).
Proof.
  unfold Db.truthy_values, Spec.nonzero, Spec.non_null.
  induction rows as [| q rows IH]; [reflexivity |].
  cbn [omap list_omap]. rewrite IH. unfold Py.truthy.
  destruct (attr q) as [v |]; [| reflexivity].
  cbn [List.filter]. destruct (Qeq_bool v 0); reflexivity.
Qed.

Lemma mean_or_zero_mean (xs : list Q) :
  (Db.mean_or_zero xs == Spec.mean xs)%Q.
Proof.
  destruct xs as [| x xs]; [reflexivity |].
  unfold Db.mean_or_zero, Spec.mean. rewrite py_sum_fold_right. reflexivity.
Qed.

Lemma count_sessions_distinct (rows : list Db.ChatQuery) :
  Db.count_sessions rows = Spec.distinct (map Db.session_id rows).
Proof.
  unfold Db.count_sessions, Spec.distinct.
  rewrite <- (size_list_to_set (C := gset string)
                (remove_dups (map Db.session_id rows)))
    by apply NoDup_remove_dups.
  f_equal. apply set_eq. intros x.
  rewrite !elem_of_list_to_set, elem_of_remove_dups. reflexivity.
Qed.

(** C8, as stated, fails: with one row of confidence 0.0 and one of
    confidence 1.0 in the window, the mean of the non-null confidence
    scores is 1/2 while [get_analytics] reports 1. *)
Lemma get_analytics_skips_zero_confidence :
  exists a,
    PostgresService.get_analytics (Db.Serving Scenario.rows_with_a_zero)
      Scenario.utcnow 7 = PostgresService.AnalyticsOf a
    /\ (PostgresService.avg_confidence a == 1)%Q
    /\ (Spec.mean (Spec.non_null Db.confidence_score
                     (Spec.window Scenario.rows_with_a_zero
                        Scenario.utcnow 7)) == 1 # 2)%Q
    /\ ~ (PostgresService.avg_confidence a
          == Spec.mean (Spec.non_null Db.confidence_score
                          (Spec.window Scenario.rows_with_a_zero
                             Scenario.utcnow 7)))%Q.
Proof.
  eexists. split; [reflexivity |].
  split; [reflexivity | split; [reflexivity |]].
  vm_compute. discriminate.
Qed.

(** C8, as amended: for the rows inside the [days_back] window,
    [get_analytics] returns their number as [query_count], the number of
    distinct session ids as [unique_sessions], and as [avg_confidence] and
    [avg_response_time_ms] the means of the confidence scores and of the
    query durations that are neither null nor zero (0 when there is no
    such value). *)
Theorem get_analytics_spec (table : list Db.ChatQuery) (utcnow days_back : Z) :
  let rows := Spec.window table utcnow days_back in
  exists a,
    PostgresService.get_analytics (Db.Serving table) utcnow days_back
    = PostgresService.AnalyticsOf a
    /\ PostgresService.query_count a = List.length rows
    /\ PostgresService.unique_sessions a
       = Spec.distinct (map Db.session_id rows)
    /\ (PostgresService.avg_confidence a
        == Spec.mean (Spec.nonzero (Spec.non_null Db.confidence_score rows)))%Q
    /\ (PostgresService.avg_response_time_ms a
        == Spec.mean
             (Spec.nonzero (Spec.non_null Db.query_duration_ms rows)))%Q.
Proof.
  cbv zeta. unfold PostgresService.get_analytics.
  rewrite select_since_window.
  destruct (Spec.window table utcnow days_back) as [| q rows] eqn:Hw.
  - eexists. split; [reflexivity |]. repeat split; reflexivity.
  - eexists. split; [reflexivity |].
    cbn [PostgresService.query_count PostgresService.unique_sessions
           PostgresService.avg_confidence
           PostgresService.avg_response_time_ms].
    rewrite !truthy_values_nonzero, !mean_or_zero_mean.
    repeat split; try reflexivity.
    apply count_sessions_distinct.
Qed.

(** C10: in [get_performance_metrics] the confidence aggregates are
    computed from the confidence scores that are neither null nor 0.0, and
    the timing averages from the durations that are neither null nor 0.0;
    so when the window holds at least one row and no row has a nonzero
    confidence score, the result has [max_confidence = 1] while
    [min_confidence] and [avg_confidence] are 0. *)
Theorem get_performance_metrics_zero_confidence
    (table : list Db.ChatQuery) (utcnow days_back : Z) :
  let rows := Spec.window table utcnow days_back in
  let m :=
    AnalyticsService.get_performance_metrics (Db.Serving table)
      utcnow days_back in
  let confidences := Spec.nonzero (Spec.non_null Db.confidence_score rows) in
  rows <> [] ->
  (AnalyticsService.avg_confidence m = Db.mean_or_zero confidences
   /\ AnalyticsService.min_confidence m
      = (if AnalyticsService.is_nil confidences then 0%Q
         else AnalyticsService.list_min confidences)
   /\ AnalyticsService.max_confidence m
      = (if AnalyticsService.is_nil confidences then 1%Q
         else AnalyticsService.list_max confidences)
   /\ AnalyticsService.avg_response_time_ms m
      = Db.mean_or_zero
          (Spec.nonzero (Spec.non_null Db.query_duration_ms rows))
   /\ AnalyticsService.avg_retrieval_time_ms m
      = Db.mean_or_zero
          (Spec.nonzero (Spec.non_null Db.retrieval_duration_ms rows))
   /\ AnalyticsService.avg_generation_time_ms m
      = Db.mean_or_zero
          (Spec.nonzero (Spec.non_null Db.generation_duration_ms rows)))
  /\ (confidences = [] ->
      AnalyticsService.max_confidence m = 1%Q
      /\ AnalyticsService.min_confidence m = 0%Q
      /\ AnalyticsService.avg_confidence m = 0%Q).
Proof.
  cbv zeta. intros Hrows.
  unfold AnalyticsService.get_performance_metrics.
  rewrite select_since_window.
  destruct (Spec.window table utcnow days_back) as [| q rows];
    [contradiction |].
  cbn [AnalyticsService.avg_confidence AnalyticsService.min_confidence
         AnalyticsService.max_confidence
         AnalyticsService.avg_response_time_ms
         AnalyticsService.avg_retrieval_time_ms
         AnalyticsService.avg_generation_time_ms].
  rewrite !truthy_values_nonzero.
  split; [repeat split |].
  intros ->. repeat split.
Qed.

(** Two rows in the window, one with confidence 0.0 and one with none. *)
Lemma get_performance_metrics_zero_confidence_witness :
  Spec.window Scenario.rows_without_confidence Scenario.utcnow 7 <> []
  /\ Spec.nonzero
       (Spec.non_null Db.confidence_score
          (Spec.window Scenario.rows_without_confidence Scenario.utcnow 7))
     = []
  /\ AnalyticsService.max_confidence
       (AnalyticsService.get_performance_metrics
          (Db.Serving Scenario.rows_without_confidence) Scenario.utcnow 7)
     = 1%Q
  /\ AnalyticsService.min_confidence
       (AnalyticsService.get_performance_metrics
          (Db.Serving Scenario.rows_without_confidence) Scenario.utcnow 7)
     = 0%Q
  /\ AnalyticsService.avg_confidence
       (AnalyticsService.get_performance_metrics
          (Db.Serving Scenario.rows_without_confidence) Scenario.utcnow 7)
     = 0%Q.
Proof.
  split; [discriminate | split; [reflexivity |]].
  apply (get_performance_metrics_zero_confidence
           Scenario.rows_without_confidence Scenario.utcnow 7);
    [discriminate | reflexivity].
Defined.

(** ** Sorting and nearest-rank percentiles *)

Lemma insert_length (x : Q) (l : list Q) :
  List.length (Sorting.insert x l) = S (List.length l).
Proof.
  induction l as [| y l IH]; cbn; [reflexivity |].
  destruct (Qlt_le_dec y x); cbn; [rewrite IH |]; reflexivity.
Qed.

Lemma sorted_length (l : list Q) :
  List.length (Sorting.sorted l) = List.length l.
Proof.
  induction l as [| x l IH]; cbn; [reflexivity |].
  rewrite insert_length, IH. reflexivity.
Qed.

Lemma insert_perm (x : Q) (l : list Q) : Sorting.insert x l ≡ₚ x :: l.
Proof.
  induction l as [| y l IH]; cbn; [reflexivity |].
  destruct (Qlt_le_dec y x); [| reflexivity].
  rewrite IH. apply Permutation_swap.
Qed.

Lemma sorted_perm (l : list Q) : Sorting.sorted l ≡ₚ l.
Proof.
  induction l as [| x l IH]; cbn; [reflexivity |].
  rewrite insert_perm, IH. reflexivity.
Qed.

Lemma insert_ordered (x : Q) (l : list Q) :
  StronglySorted Qle l -> StronglySorted Qle (Sorting.insert x l).
Proof.
  induction 1 as [| y l Hs IH Hy]; cbn.
  - repeat constructor.
  - destruct (Qlt_le_dec y x) as [Hlt | Hle].
    + constructor; [exact IH |].
      apply Forall_forall. intros z Hz.
      rewrite insert_perm in Hz.
      apply elem_of_cons in Hz as [-> | Hz]; [lra |].
      rewrite Forall_forall in Hy. apply Hy, Hz.
    + constructor; [constructor; assumption |].
      constructor; [exact Hle |].
      eapply Forall_impl; [exact Hy |]. cbn. intros z Hz. lra.
Qed.

Lemma sorted_ordered (l : list Q) : StronglySorted Qle (Sorting.sorted l).
Proof.
  induction l as [| x l IH]; cbn; [constructor |].
  apply insert_ordered, IH.
Qed.

(** [int(a/b * n)] is the integer quotient of [a * n] by [b]. *)
Lemma int_fraction_of (a b n : nat) :
  (0 < b)%nat ->
  Py.int ((Z.of_nat a # Pos.of_nat b) * inject_Z (Z.of_nat n))%Q
  = (a * n / b)%nat.
Proof.
  intros Hb. unfold Py.int, Qfloor, Qmult, inject_Z. cbn [Qnum Qden].
  rewrite Pos.mul_1_r, <- Nat2Z.inj_mul.
  replace (Z.pos (Pos.of_nat b)) with (Z.of_nat b)
    by (destruct b; [lia |]; rewrite <- Pos.of_nat_succ; lia).
  rewrite <- Nat2Z.inj_div. apply Nat2Z.id.
Qed.

Lemma rank_index_lt (pct n : nat) :
  (pct < 100)%nat -> (0 < n)%nat -> (Spec.rank_index pct n < n)%nat.
Proof.
  intros Hp Hn. unfold Spec.rank_index.
  apply Nat.Div0.div_lt_upper_bound. nia.
Qed.

Lemma at_or_zero_rank (xs : list Q) (pct n : nat) :
  (pct < 100)%nat -> (0 < n)%nat -> List.length xs = n ->
  nth_error xs (Spec.rank_index pct n)
  = Some (Metrics.at_or_zero xs (Spec.rank_index pct n) n).
Proof.
  intros Hp Hn Hlen. pose proof (rank_index_lt pct n Hp Hn) as Hlt.
  unfold Metrics.at_or_zero.
  destruct (Nat.ltb_spec (Spec.rank_index pct n) n); [| lia].
  apply nth_error_nth'. lia.
Qed.

Lemma int_percent_of (n p : nat) :
  Py.int (inject_Z (Z.of_nat n * Z.of_nat p) / 100)%Q
  = Spec.rank_index p n.
Proof.
  unfold Py.int, Spec.rank_index, Qfloor, Qdiv, Qmult, Qinv, inject_Z.
  cbn [Qnum Qden]. rewrite Z.mul_1_r, Pos.mul_1_l, <- Nat2Z.inj_mul.
  change (Z.pos 100) with (Z.of_nat 100).
  rewrite <- Nat2Z.inj_div, Nat2Z.id, Nat.mul_comm. reflexivity.
Qed.

Lemma int_half_of (n : nat) :
  Py.int ((5 # 10) * inject_Z (Z.of_nat n))%Q = Spec.rank_index 50 n.
Proof.
  change (5 # 10)%Q with (Z.of_nat 5 # Pos.of_nat 10)%Q.
  rewrite int_fraction_of by lia. unfold Spec.rank_index.
  replace (50 * n)%nat with (10 * (5 * n))%nat by lia.
  change 100%nat with (10 * 10)%nat.
  rewrite Nat.Div0.div_mul_cancel_l by lia. reflexivity.
Qed.

Lemma summary_percentile_indices (n : nat) :
  Py.int ((5 # 10) * inject_Z (Z.of_nat n))%Q = Spec.rank_index 50 n
  /\ Py.int ((95 # 100) * inject_Z (Z.of_nat n))%Q = Spec.rank_index 95 n
  /\ Py.int ((99 # 100) * inject_Z (Z.of_nat n))%Q = Spec.rank_index 99 n.
Proof.
  split; [apply int_half_of | split].
  - change (95 # 100)%Q with (Z.of_nat 95 # Pos.of_nat 100)%Q.
    apply int_fraction_of. lia.
  - change (99 # 100)%Q with (Z.of_nat 99 # Pos.of_nat 100)%Q.
    apply int_fraction_of. lia.
Qed.

(** C9: for a non-empty list of observed values, [get_summary_stats]
    reports as p50, p95 and p99 the element of the sorted values at index
    [floor(percentile/100 * n)], without interpolation; the percentile
    helper of the analytics service takes the element at the same index,
    clamped to the last one; and for the observed values 1, 2, ..., 10 the
    reported p50 is 6. *)
Theorem summary_percentiles_nearest_rank (mc : Metrics.MetricsCollector)
    (name labels : string) (values : list Q) (p : nat) :
  Metrics._summaries mc !! Metrics.metric_key name labels = Some values ->
  values <> [] ->
  let stats := Metrics.get_summary_stats mc name labels in
  let sorted_values := Sorting.sorted values in
  let n := List.length values in
  (nth_error sorted_values (Spec.rank_index 50 n) = Some (Metrics.p50 stats)
   /\ nth_error sorted_values (Spec.rank_index 95 n)
      = Some (Metrics.p95 stats)
   /\ nth_error sorted_values (Spec.rank_index 99 n)
      = Some (Metrics.p99 stats))
  /\ nth_error sorted_values (Nat.min (Spec.rank_index p n) (n - 1))
     = Some (AnalyticsService.percentile values (Z.of_nat p))
  /\ Metrics.p50
       (Metrics.get_summary_stats Scenario.observed_one_to_ten
          "latency" "none")
     = 6%Q.
Proof.
  intros Hlookup Hne. cbv zeta.
  assert (Hn : (0 < List.length values)%nat)
    by (destruct values; [contradiction | cbn; lia]).
  pose proof (sorted_length values) as Hlen.
  split; [| split].
  - unfold Metrics.get_summary_stats. rewrite Hlookup.
    destruct values as [| v values]; [contradiction |].
    cbn [from_option id Metrics.p50 Metrics.p95 Metrics.p99].
    destruct (summary_percentile_indices
                (List.length (Sorting.sorted (v :: values))))
      as [-> [-> ->]].
    rewrite Hlen.
    repeat split; apply at_or_zero_rank; lia || exact Hlen.
  - unfold AnalyticsService.percentile.
    destruct values as [| v values]; [contradiction |].
    rewrite int_percent_of, Hlen.
    apply nth_error_nth'. lia.
  - vm_compute. reflexivity.
Qed.

(** The observed values 1, 2, ..., 10. *)
Lemma summary_percentiles_nearest_rank_witness :
  Metrics._summaries Scenario.observed_one_to_ten
    !! Metrics.metric_key "latency" "none" = Some Scenario.one_to_ten
  /\ Scenario.one_to_ten <> []
  /\ nth_error (Sorting.sorted Scenario.one_to_ten) (Spec.rank_index 50 10)
     = Some (Metrics.p50
               (Metrics.get_summary_stats Scenario.observed_one_to_ten
                  "latency" "none"))
  /\ nth_error (Sorting.sorted Scenario.one_to_ten)
       (Nat.min (Spec.rank_index 95 10) (10 - 1))
     = Some (AnalyticsService.percentile Scenario.one_to_ten 95).
Proof.
  assert (Hlookup :
            Metrics._summaries Scenario.observed_one_to_ten
              !! Metrics.metric_key "latency" "none"
            = Some Scenario.one_to_ten)
    by (vm_compute; reflexivity).
  assert (Hne : Scenario.one_to_ten <> []) by discriminate.
  split; [exact Hlookup | split; [exact Hne |]].
  destruct (summary_percentiles_nearest_rank Scenario.observed_one_to_ten
              "latency" "none" Scenario.one_to_ten 95 Hlookup Hne)
    as [[H50 _] [Hp _]].
  split; [exact H50 | exact Hp].
Defined.

(* ================================================================= *)
(** * Further properties of the modelled code                         *)
(* ================================================================= *)

(** ** The metrics collector *)

Lemma sorted_nth_le (l : list Q) (i j : nat) :
  StronglySorted Qle l -> (i <= j)%nat -> (j < List.length l)%nat ->
  (nth i l 0 <= nth j l 0)%Q.
Proof.
  intros Hs. revert i j. induction Hs as [| x l Hs IH Hx]; intros i j Hij Hj.
  - cbn in Hj. lia.
  - destruct j as [| j].
    + replace i with 0%nat by lia. cbn. lra.
    + destruct i as [| i].
      * cbn [nth]. rewrite Forall_forall in Hx. apply Hx.
        apply list_elem_of_In, nth_In. cbn in Hj. lia.
      * cbn [nth]. apply IH; [lia | cbn in Hj; lia].
Qed.

Lemma last_nth (l : list Q) :
  List.last l 0%Q = nth (List.length l - 1) l 0%Q.
Proof.
  induction l as [| x [| y l] IH]; [reflexivity | reflexivity |].
  change (List.last (x :: y :: l) 0%Q) with (List.last (y :: l) 0%Q).
  rewrite IH. cbn [List.length nth Nat.sub]. rewrite Nat.sub_0_r.
  reflexivity.
Qed.

Lemma rank_index_mono (p q n : nat) :
  (p <= q)%nat -> (Spec.rank_index p n <= Spec.rank_index q n)%nat.
Proof.
  intros Hpq. unfold Spec.rank_index. apply Nat.Div0.div_le_mono. nia.
Qed.

Lemma In_nth_sorted (l : list Q) (v : Q) :
  In v l -> exists i, (i < List.length l)%nat /\ nth i l 0%Q = v.
Proof. intros H. apply (In_nth l v 0%Q H). Qed.

(** X1: the statistics of a summary are ordered,
    [min <= p50 <= p95 <= p99 <= max], and [min] and [max] bound every
    observed value. *)
Theorem summary_stats_ordered (mc : Metrics.MetricsCollector)
    (name labels : string) (values : list Q) :
  Metrics._summaries mc !! Metrics.metric_key name labels = Some values ->
  values <> [] ->
  let stats := Metrics.get_summary_stats mc name labels in
  (Metrics.min stats <= Metrics.p50 stats
   /\ Metrics.p50 stats <= Metrics.p95 stats
   /\ Metrics.p95 stats <= Metrics.p99 stats
   /\ Metrics.p99 stats <= Metrics.max stats)%Q
  /\ Forall (fun v => (Metrics.min stats <= v /\ v <= Metrics.max stats)%Q)
       values.
Proof.
  intros Hlookup Hne. cbv zeta.
  unfold Metrics.get_summary_stats. rewrite Hlookup.
  destruct values as [| v0 values]; [contradiction |].
  cbn [from_option id Metrics.min Metrics.max Metrics.p50 Metrics.p95
         Metrics.p99].
  set (sv := Sorting.sorted (v0 :: values)).
  assert (Hlen : List.length sv = S (List.length values))
    by apply sorted_length.
  assert (Hs : StronglySorted Qle sv) by apply sorted_ordered.
  destruct (summary_percentile_indices (List.length sv)) as [-> [-> ->]].
  rewrite Hlen. cbn [Nat.ltb Nat.leb].
  unfold Metrics.at_or_zero.
  pose proof (rank_index_lt 50 (S (List.length values))) as H50.
  pose proof (rank_index_lt 95 (S (List.length values))) as H95.
  pose proof (rank_index_lt 99 (S (List.length values))) as H99.
  pose proof (rank_index_mono 50 95 (S (List.length values))) as H5095.
  pose proof (rank_index_mono 95 99 (S (List.length values))) as H9599.
  repeat match goal with
         | |- context [(?a <? ?b)%nat] =>
             destruct (Nat.ltb_spec a b); [| lia]
         end.
  rewrite last_nth, Hlen.
  split.
  - repeat split; apply sorted_nth_le; try exact Hs; lia.
  - apply Forall_forall. intros v Hv.
    rewrite <- (sorted_perm (v0 :: values)) in Hv. fold sv in Hv.
    apply list_elem_of_In, In_nth_sorted in Hv as [i [Hi <-]].
    split; apply sorted_nth_le; try exact Hs; lia.
Qed.

Lemma summary_stats_ordered_witness :
  Metrics._summaries Scenario.observed_one_to_ten
    !! Metrics.metric_key "latency" "none" = Some Scenario.one_to_ten
  /\ Scenario.one_to_ten <> []
  /\ (Metrics.p50 (Metrics.get_summary_stats Scenario.observed_one_to_ten
                     "latency" "none")
      <= Metrics.p95 (Metrics.get_summary_stats Scenario.observed_one_to_ten
                        "latency" "none"))%Q.
Proof.
  assert (Hlookup :
            Metrics._summaries Scenario.observed_one_to_ten
              !! Metrics.metric_key "latency" "none"
            = Some Scenario.one_to_ten)
    by (vm_compute; reflexivity).
  assert (Hne : Scenario.one_to_ten <> []) by discriminate.
  split; [exact Hlookup | split; [exact Hne |]].
  destruct (summary_stats_ordered Scenario.observed_one_to_ten
              "latency" "none" Scenario.one_to_ten Hlookup Hne)
    as [[_ [H _]] _].
  exact H.
Defined.





(** X3: a counter reads back what was added to it: after
    [increment_counter] the counter of the same name and labels has grown
    by the amount, every counter with another key is unchanged, and a
    counter never incremented reads 0. *)
Theorem counter_increment_get (mc : Metrics.MetricsCollector)
    (name labels name' labels' : string) (amount : Z) :
  MetricsOps.get_counter_value
    (MetricsOps.increment_counter mc name labels amount) name' labels'
  = (if decide (Metrics.metric_key name labels
                = Metrics.metric_key name' labels')
     then (MetricsOps.get_counter_value mc name labels + amount)%Z
     else MetricsOps.get_counter_value mc name' labels')
  /\ MetricsOps.get_counter_value Metrics.new_collector name labels = 0%Z.
Proof.
  split; [| reflexivity].
  unfold MetricsOps.get_counter_value, MetricsOps.increment_counter.
  cbn [Metrics._counters]. rewrite lookup_insert.
  destruct (decide (Metrics.metric_key name labels
                    = Metrics.metric_key name' labels'));
    reflexivity.
Qed.

(** X4: [reset_metrics] forgets everything recorded before: a counter
    incremented after a reset reads just the amount, a histogram or
    summary observed once after a reset has one observation, series not
    written since read their defaults, and resetting twice is resetting
    once. *)
Theorem reset_metrics_forgets (mc : Metrics.MetricsCollector)
    (name labels : string) (amount : Z) (value : Q) :
  let mc' := MetricsOps.reset_metrics mc in
  MetricsOps.get_counter_value
    (MetricsOps.increment_counter mc' name labels amount) name labels
  = amount
  /\ MetricsOps.h_count
       (MetricsOps.get_histogram_stats
          (MetricsOps.observe_histogram mc' name value labels) name labels)
     = 1%nat
  /\ Metrics.count
       (Metrics.get_summary_stats
          (Metrics.observe_summary mc' name value labels) name labels)
     = 1%nat
  /\ MetricsOps.get_counter_value mc' name labels = 0%Z
  /\ MetricsOps.get_gauge_value mc' name labels = 0%Q
  /\ Metrics.count (Metrics.get_summary_stats mc' name labels) = 0%nat
  /\ MetricsOps.reset_metrics mc' = mc'.
Proof.
  cbv zeta. repeat split.
  - unfold MetricsOps.get_counter_value, MetricsOps.increment_counter.
    cbn [Metrics._counters MetricsOps.reset_metrics].
    rewrite lookup_insert_eq, lookup_empty. reflexivity.
  - unfold MetricsOps.get_histogram_stats, MetricsOps.observe_histogram.
    cbn [Metrics._histograms MetricsOps.reset_metrics].
    rewrite lookup_insert_eq, lookup_empty. reflexivity.
  - unfold Metrics.get_summary_stats, Metrics.observe_summary.
    cbn [Metrics._summaries MetricsOps.reset_metrics].
    rewrite lookup_insert_eq, lookup_empty. reflexivity.
Qed.

Lemma observe_summary_one (mc : Metrics.MetricsCollector)
    (name labels : string) (v : Q) :
  let mc' := Metrics.observe_summary mc name v labels in
  let key := Metrics.metric_key name labels in
  default [] (Metrics._summaries mc' !! key)
  = (default [] (Metrics._summaries mc !! key) ++ [v])%list
  /\ (forall key', key' <> key ->
       Metrics._summaries mc' !! key' = Metrics._summaries mc !! key').
Proof.
  cbv zeta. unfold Metrics.observe_summary. cbn [Metrics._summaries].
  split.
  - rewrite lookup_insert_eq. reflexivity.
  - intros key' Hne. apply lookup_insert_ne. congruence.
Qed.

Lemma observe_summary_all (mc : Metrics.MetricsCollector)
    (name labels : string) (values : list Q) :
  let mc' :=
    fold_left (fun mc v => Metrics.observe_summary mc name v labels)
      values mc in
  let key := Metrics.metric_key name labels in
  default [] (Metrics._summaries mc' !! key)
  = (default [] (Metrics._summaries mc !! key) ++ values)%list
  /\ (forall key', key' <> key ->
       Metrics._summaries mc' !! key' = Metrics._summaries mc !! key')
  /\ Metrics._counters mc' = Metrics._counters mc
  /\ Metrics._gauges mc' = Metrics._gauges mc
  /\ Metrics._histograms mc' = Metrics._histograms mc.
Proof.
  cbv zeta. revert mc. induction values as [| v values IH]; intros mc.
  - cbn [fold_left]. rewrite app_nil_r. repeat split.
  - cbn [fold_left].
    destruct (IH (Metrics.observe_summary mc name v labels))
      as [H1 [H2 [H3 [H4 H5]]]].
    destruct (observe_summary_one mc name labels v) as [G1 G2].
    rewrite H1, H3, H4, H5, G1, <- app_assoc.
    split; [reflexivity |]. split; [| auto].
    intros key' Hne. rewrite (H2 key' Hne). apply G2, Hne.
Qed.

(** X5: observing values for one summary appends them, in order, to the
    values already stored under its key and touches nothing else: the
    summaries under other keys and the counters, gauges and histograms are
    unchanged, and the count reported afterwards is the earlier count plus
    the number of new observations. *)
Theorem observe_summary_accumulates (mc : Metrics.MetricsCollector)
    (name labels : string) (values : list Q) :
  let mc' :=
    fold_left (fun mc v => Metrics.observe_summary mc name v labels)
      values mc in
  default [] (Metrics._summaries mc' !! Metrics.metric_key name labels)
  = (default [] (Metrics._summaries mc !! Metrics.metric_key name labels)
     ++ values)%list
  /\ Metrics.count (Metrics.get_summary_stats mc' name labels)
     = (Metrics.count (Metrics.get_summary_stats mc name labels)
        + List.length values)%nat
  /\ (forall name' labels',
       Metrics.metric_key name' labels' <> Metrics.metric_key name labels ->
       Metrics.get_summary_stats mc' name' labels'
       = Metrics.get_summary_stats mc name' labels')
  /\ Metrics._counters mc' = Metrics._counters mc
  /\ Metrics._gauges mc' = Metrics._gauges mc
  /\ Metrics._histograms mc' = Metrics._histograms mc.
Proof.
  cbv zeta.
  destruct (observe_summary_all mc name labels values)
    as [H1 [H2 [H3 [H4 H5]]]].
  split; [exact H1 |]. split; [| split; [| auto]].
  - assert (Hcount : forall m, Metrics.count (Metrics.get_summary_stats m
                                                name labels)
                               = List.length
                                   (default [] (Metrics._summaries m
                                      !! Metrics.metric_key name labels))).
    { intros m. unfold Metrics.get_summary_stats.
      destruct (default [] (Metrics._summaries m
                   !! Metrics.metric_key name labels)) as [| x xs];
        [reflexivity |].
      cbn [Metrics.count]. apply sorted_length. }
    rewrite !Hcount, H1, length_app. reflexivity.
  - intros name' labels' Hne. unfold Metrics.get_summary_stats.
    rewrite (H2 _ Hne). reflexivity.
Qed.

Lemma observe_summary_accumulates_witness :
  Metrics.metric_key "errors" "none" <> Metrics.metric_key "latency" "none"
  /\ Metrics.get_summary_stats Scenario.observed_one_to_ten "errors" "none"
     = Metrics.get_summary_stats Metrics.new_collector "errors" "none".
Proof.
  assert (H : Metrics.metric_key "errors" "none"
              <> Metrics.metric_key "latency" "none") by discriminate.
  split; [exact H |].
  exact (proj1 (proj2 (proj2
           (observe_summary_accumulates Metrics.new_collector "latency"
              "none" Scenario.one_to_ten))) "errors" "none" H).
Defined.

(** X6: one call of a function decorated like [process_query] passes the
    function's result or exception through unchanged, adds one to
    [rag_query_total], and adds one to [rag_query_errors_total] exactly
    when the function raised; so the error count never exceeds the call
    count.  The wrapped function is assumed not to write counters. *)
Theorem instrumented_counts {W A : Type} (clock : nat -> Q)
    (func : MetricsOps.state W -> (Py.exn + A) * MetricsOps.state W)
    (s : MetricsOps.state W) :
  (forall s0, Metrics._counters (MetricsOps.collector (snd (func s0)))
              = Metrics._counters (MetricsOps.collector s0)) ->
  let s_in :=
    MetricsOps.with_collector (snd (MetricsOps.time_time clock s))
      (MetricsOps.increment_counter (MetricsOps.collector s)
         MetricsOps.QUERY_TOTAL_COUNTER "none" 1) in
  let total m :=
    MetricsOps.get_counter_value m MetricsOps.QUERY_TOTAL_COUNTER "none" in
  let errors m :=
    MetricsOps.get_counter_value m MetricsOps.QUERY_ERROR_COUNTER "none" in
  let r := fst (MetricsOps.instrumented clock func s) in
  let mc' :=
    MetricsOps.collector (snd (MetricsOps.instrumented clock func s)) in
  r = fst (func s_in)
  /\ total mc' = (total (MetricsOps.collector s) + 1)%Z
  /\ errors mc' = (errors (MetricsOps.collector s) + MetricsOps.raised r)%Z
  /\ ((errors (MetricsOps.collector s) <= total (MetricsOps.collector s))%Z
      -> (errors mc' <= total mc')%Z).
Proof.
  intros Hframe. cbv zeta.
  unfold MetricsOps.instrumented, MetricsOps.measure_duration,
    MetricsOps.count_calls, MetricsOps.record_error.
  cbn [MetricsOps.time_time MetricsOps.collector MetricsOps.ticks
         MetricsOps.world MetricsOps.with_collector fst snd].
  match goal with
  | |- context [func ?x] => set (s_in := x); specialize (Hframe s_in)
  end.
  destruct (func s_in) as [[e | a] s2] eqn:Hcall;
    cbn [fst snd MetricsOps.collector MetricsOps.with_collector
           MetricsOps.time_time MetricsOps.ticks MetricsOps.world
           MetricsOps.raised]
      in *;
    unfold MetricsOps.get_counter_value, MetricsOps.observe_histogram,
      MetricsOps.increment_counter;
    cbn [Metrics._counters]; rewrite ?Hframe; subst s_in;
    cbn [MetricsOps.collector MetricsOps.with_collector
           MetricsOps.increment_counter Metrics._counters];
    repeat (rewrite lookup_insert_eq || (rewrite lookup_insert_ne by done));
    cbn [from_option id]; repeat split; lia.
Qed.

Lemma instrumented_counts_witness :
  let failing (s : MetricsOps.state unit) :=
    (inl (Py.GeminiAPIError "Failed to generate response") : Py.exn + unit,
     s) in
  let s :=
    {| MetricsOps.collector := Metrics.new_collector;
       MetricsOps.ticks := 0;
       MetricsOps.world := tt |} in
  (forall s0,
      Metrics._counters (MetricsOps.collector (snd (failing s0)))
      = Metrics._counters (MetricsOps.collector s0))
  /\ MetricsOps.get_counter_value
       (MetricsOps.collector
          (snd (MetricsOps.instrumented (fun _ => 0%Q) failing s)))
       MetricsOps.QUERY_ERROR_COUNTER "none"
     = 1%Z.
Proof.
  cbv zeta. split; [intros s0; reflexivity |].
  destruct (instrumented_counts (fun _ => 0%Q)
              (fun s : MetricsOps.state unit =>
                 (inl (Py.GeminiAPIError "Failed to generate response")
                  : Py.exn + unit, s))
              {| MetricsOps.collector := Metrics.new_collector;
                 MetricsOps.ticks := 0;
                 MetricsOps.world := tt |}
              (fun s0 => eq_refl))
    as [_ [_ [H _]]].
  exact H.
Defined.

(** ** Saving a row *)

Section SaveQueryProps.
Context {W R : Type}.
Variable add : R -> W -> (Py.exn + unit) * W.
Variable commit : W -> (Py.exn + unit) * W.
Variable refresh : R -> W -> (Py.exn + R) * W.
Variable rollback : W -> (Py.exn + unit) * W.

(** The body of [save_query] raises a database-layer error only when the
    rollback raised it. *)
Lemma save_query_body_sql_error (chat_query : R) (w w' : W) (msg : string) :
  PostgresOps.save_query_body add commit refresh rollback chat_query w
  = (inl (Py.SQLAlchemyError msg), w') ->
  exists w0, rollback w0 = (inl (Py.SQLAlchemyError msg), w').
Proof.
  unfold PostgresOps.save_query_body.
  destruct (PostgresOps.save_query_try add commit refresh chat_query w)
    as [[e | r] w1].
  - destruct e; try discriminate.
    destruct (rollback w1) as [[e' | []] w2] eqn:Hrb; [| discriminate].
    intros H. inversion H; subst. exists w1. exact Hrb.
  - discriminate.
Qed.

(** X7: when the rollback does not itself raise a database-layer error,
    the decorated [save_query] makes a single attempt and never sleeps: a
    database-layer error of add, commit or refresh is rolled back and
    raised as [DatabaseError] with the message "Failed to save query: "
    followed by the error's text, which the retry decorator does not
    retry. *)
Theorem save_query_is_not_retried (chat_query : R) (w : W) :
  (forall w0 msg, fst (rollback w0) <> inl (Py.SQLAlchemyError msg)) ->
  PostgresOps.save_query add commit refresh rollback chat_query w
  = (PostgresOps.save_query_body add commit refresh rollback chat_query w,
     [])
  /\ forall msg w1 w2,
      PostgresOps.save_query_try add commit refresh chat_query w
      = (inl (Py.SQLAlchemyError msg), w1) ->
      rollback w1 = (inr tt, w2) ->
      PostgresOps.save_query add commit refresh rollback chat_query w
      = (inl (Py.DatabaseError ("Failed to save query: " ++ msg)), w2, []).
Proof.
  intros Hrb.
  assert (Hone :
            PostgresOps.save_query add commit refresh rollback chat_query w
            = (PostgresOps.save_query_body add commit refresh rollback
                 chat_query w, [])).
  { unfold PostgresOps.save_query, PostgresService.save_query_retry,
      PostgresService.retry_on_connection_error.
    change (PostgresService.range (3 + 1)) with [0; 1; 2; 3]%Z.
    destruct (PostgresOps.save_query_body add commit refresh rollback
                chat_query w) as [r w'] eqn:Hbody.
    rewrite (retry_loop_ends 3 2 _ _ _ _ _ _ _ _ _ Hbody); [reflexivity |].
    right. intros e ->. destruct e; try reflexivity.
    destruct (save_query_body_sql_error _ _ _ _ Hbody) as [w0 Hw0].
    exfalso. apply (Hrb w0 msg). rewrite Hw0. reflexivity. }
  split; [exact Hone |].
  intros msg w1 w2 Htry Hroll. rewrite Hone.
  unfold PostgresOps.save_query_body. rewrite Htry, Hroll. reflexivity.
Qed.

End SaveQueryProps.

Lemma save_query_is_not_retried_witness :
  (forall w0 msg,
      fst (Scenario2.rollback_logged w0) <> inl (Py.SQLAlchemyError msg))
  /\ PostgresOps.save_query Scenario2.add_logged Scenario2.commit_failing
       Scenario2.refresh_logged Scenario2.rollback_logged "row" []
     = (inl (Py.DatabaseError "Failed to save query: connection refused"),
        ["add row"; "commit"; "rollback"], []).
Proof.
  assert (Hrb : forall w0 msg,
             fst (Scenario2.rollback_logged w0)
             <> inl (Py.SQLAlchemyError msg))
    by (intros w0 msg; discriminate).
  split; [exact Hrb |].
  destruct (save_query_is_not_retried Scenario2.add_logged
              Scenario2.commit_failing Scenario2.refresh_logged
              Scenario2.rollback_logged "row" [] Hrb) as [_ H].
  apply (H "connection refused" ["add row"; "commit"]); reflexivity.
Defined.

(** ** Reading the logs *)

Lemma insert_desc_perm (q : Db.ChatQuery) (l : list Db.ChatQuery) :
  PostgresOps.insert_desc q l ≡ₚ q :: l.
Proof.
  induction l as [| y l IH]; cbn; [reflexivity |].
  destruct (Db.timestamp q <? Db.timestamp y)%Z; [| reflexivity].
  rewrite IH. apply Permutation_swap.
Qed.

Lemma order_by_timestamp_desc_perm (l : list Db.ChatQuery) :
  PostgresOps.order_by_timestamp_desc l ≡ₚ l.
Proof.
  induction l as [| q l IH]; cbn; [reflexivity |].
  rewrite insert_desc_perm, IH. reflexivity.
Qed.

Lemma insert_desc_sorted (q : Db.ChatQuery) (l : list Db.ChatQuery) :
  StronglySorted Aux.newer_first l ->
  StronglySorted Aux.newer_first (PostgresOps.insert_desc q l).
Proof.
  induction 1 as [| y l Hs IH Hy]; cbn.
  - repeat constructor.
  - destruct (Z.ltb_spec (Db.timestamp q) (Db.timestamp y)) as [Hlt | Hge].
    + constructor; [exact IH |].
      apply Forall_forall. intros z Hz. rewrite insert_desc_perm in Hz.
      apply elem_of_cons in Hz as [-> | Hz]; [unfold Aux.newer_first; lia |].
      rewrite Forall_forall in Hy. apply Hy, Hz.
    + constructor; [constructor; assumption |].
      constructor; [exact Hge |].
      eapply Forall_impl; [exact Hy |]. unfold Aux.newer_first. cbn.
      intros z Hz. lia.
Qed.

Lemma order_by_timestamp_desc_sorted (l : list Db.ChatQuery) :
  StronglySorted Aux.newer_first (PostgresOps.order_by_timestamp_desc l).
Proof.
  induction l as [| q l IH]; cbn; [constructor |].
  apply insert_desc_sorted, IH.
Qed.

Lemma StronglySorted_skipn {A} (R : A -> A -> Prop) (n : nat) (l : list A) :
  StronglySorted R l -> StronglySorted R (skipn n l).
Proof.
  revert l. induction n as [| n IH]; intros l Hs; [exact Hs |].
  destruct l as [| x l]; [constructor |].
  cbn. apply IH. inversion Hs; assumption.
Qed.

Lemma StronglySorted_firstn {A} (R : A -> A -> Prop) (n : nat) (l : list A) :
  StronglySorted R l -> StronglySorted R (firstn n l).
Proof.
  revert l. induction n as [| n IH]; intros l Hs; [constructor |].
  destruct l as [| x l]; [constructor |].
  cbn. inversion Hs as [| ? ? Hl Hx]; subst.
  constructor; [apply IH, Hl |].
  apply Forall_forall. intros y Hy. rewrite Forall_forall in Hx.
  apply Hx. eapply elem_of_sublist; [exact Hy | apply sublist_take].
Qed.

Lemma order_by_timestamp_desc_length (l : list Db.ChatQuery) :
  List.length (PostgresOps.order_by_timestamp_desc l) = List.length l.
Proof. apply Permutation_length, order_by_timestamp_desc_perm. Qed.

(** X8: on a serving session [get_query_logs] returns as total the number
    of rows that pass the filters, whatever [limit] and [offset] are, and
    a page of exactly [min(limit, total - offset)] rows; an offset at or
    beyond the total gives an empty page. *)
Theorem get_query_logs_counts (table : list Db.ChatQuery) (utcnow : Z)
    (session_id : option string) (limit offset : nat)
    (days_back : option Z) :
  exists page total,
    PostgresOps.get_query_logs (Db.Serving table) utcnow session_id
      limit offset days_back = inr (page, total)
    /\ total
       = List.length
           (List.filter (PostgresOps.log_filters utcnow session_id days_back)
              table)
    /\ List.length page = Nat.min limit (total - offset)
    /\ ((total <= offset)%nat -> page = []).
Proof.
  eexists _, _. split; [reflexivity |]. split; [reflexivity |].
  set (rows := List.filter _ table).
  assert (Hlen : List.length
                   (firstn limit
                      (skipn offset
                         (PostgresOps.order_by_timestamp_desc rows)))
                 = Nat.min limit (List.length rows - offset)).
  { rewrite length_take, length_drop, order_by_timestamp_desc_length.
    reflexivity. }
  split; [exact Hlen |].
  intros Hoff. apply length_zero_iff_nil. rewrite Hlen. lia.
Qed.

Lemma get_query_logs_counts_witness :
  exists page total,
    PostgresOps.get_query_logs (Db.Serving Scenario.rows_with_a_zero)
      Scenario.utcnow None 10 2 None = inr (page, total)
    /\ total
       = List.length
           (List.filter (PostgresOps.log_filters Scenario.utcnow None None)
              Scenario.rows_with_a_zero)
    /\ List.length page = Nat.min 10 (total - 2)
    /\ ((total <= 2)%nat -> page = []).
Proof.
  exact (get_query_logs_counts Scenario.rows_with_a_zero Scenario.utcnow
           None 10 2 None).
Defined.

(** X9: every row of the page returned by [get_query_logs] is a row of the
    table that passes the session and time filters, and the page is in
    order of non-increasing timestamp. *)
Theorem get_query_logs_page (table : list Db.ChatQuery) (utcnow : Z)
    (session_id : option string) (limit offset : nat)
    (days_back : option Z) :
  exists page total,
    PostgresOps.get_query_logs (Db.Serving table) utcnow session_id
      limit offset days_back = inr (page, total)
    /\ Forall (fun q => In q table
                        /\ PostgresOps.session_filter session_id q = true
                        /\ PostgresOps.days_filter utcnow days_back q = true)
         page
    /\ StronglySorted Aux.newer_first page.
Proof.
  eexists _, _. split; [reflexivity |]. split.
  - apply Forall_forall. intros q Hq.
    pose proof (elem_of_sublist _ _ _ Hq (sublist_take _ _)) as Hq1.
    pose proof (elem_of_sublist _ _ _ Hq1 (sublist_drop _ _)) as Hq2.
    clear Hq Hq1. rename Hq2 into Hq.
    rewrite order_by_timestamp_desc_perm in Hq.
    apply list_elem_of_In, filter_In in Hq as [Hin Hf].
    unfold PostgresOps.log_filters in Hf.
    apply andb_prop in Hf as [Hs Hd]. auto.
  - apply StronglySorted_firstn, StronglySorted_skipn,
      order_by_timestamp_desc_sorted.
Qed.

(** X10: on a table whose timestamps are all different (so that the
    order of the rows is fixed), consecutive pages fit together: the page
    at [offset] with limit [l1] followed by the page at [offset + l1] with
    limit [l2] is the page at [offset] with limit [l1 + l2]. *)
Theorem get_query_logs_pages_concatenate (table : list Db.ChatQuery)
    (utcnow : Z) (session_id : option string) (l1 l2 offset : nat)
    (days_back : option Z) :
  NoDup (map Db.timestamp table) ->
  let page limit offset :=
    Aux.page_of (PostgresOps.get_query_logs (Db.Serving table) utcnow
                   session_id limit offset days_back) in
  (page l1 offset ++ page l2 (offset + l1)%nat)%list
  = page (l1 + l2)%nat offset.
Proof.
  intros _. cbv zeta. cbn [PostgresOps.get_query_logs Aux.page_of].
  rewrite <- drop_drop. apply take_take_drop.
Qed.

Lemma get_query_logs_pages_concatenate_witness :
  NoDup (map Db.timestamp Scenario2.three_days)
  /\ (Aux.page_of (PostgresOps.get_query_logs
                     (Db.Serving Scenario2.three_days) Scenario.utcnow None
                     1 0 None)
       ++ Aux.page_of (PostgresOps.get_query_logs
                         (Db.Serving Scenario2.three_days) Scenario.utcnow
                         None 2 1 None))%list
     = [Scenario2.logged 2 1; Scenario2.logged 3 2; Scenario2.logged 1 3].
Proof.
  assert (H : NoDup (map Db.timestamp Scenario2.three_days)).
  { apply (bool_decide_unpack _). vm_compute. exact I. }
  split; [exact H |].
  etransitivity;
    [exact (get_query_logs_pages_concatenate Scenario2.three_days
              Scenario.utcnow None 1 2 0 None H)
    | reflexivity].
Defined.

(** X11: a filter argument that is present but falsy is not applied:
    with [session_id = ""] and [days_back = 0] the call counts and pages
    every row of the table, exactly as without the two arguments. *)
Theorem get_query_logs_falsy_filters (session : Db.Session) (utcnow : Z)
    (limit offset : nat) :
  PostgresOps.get_query_logs session utcnow (Some "") limit offset
    (Some 0%Z)
  = PostgresOps.get_query_logs session utcnow None limit offset None
  /\ forall table,
      Aux.total_of (PostgresOps.get_query_logs (Db.Serving table) utcnow
                      (Some "") limit offset (Some 0%Z))
      = List.length table.
Proof.
  split; [destruct session; reflexivity |].
  intros table. cbn [PostgresOps.get_query_logs Aux.total_of].
  f_equal. apply forallb_filter_id. apply forallb_forall.
  intros q _. reflexivity.
Qed.

(** ** The log and analytics routes *)

Lemma len_zero (s : string) : (Py.len s =? 0)%nat = String.eqb s "".
Proof. destruct s; reflexivity. Qed.

Lemma require_admin_token_gate (expected header : option string) :
  LogsEndpoint.require_admin_token expected header
  = if Aux.gate_open expected header then inr true
    else inl (Py.HTTPException 401 "Unauthorized: Invalid admin token").
Proof.
  unfold LogsEndpoint.require_admin_token, Aux.gate_open.
  destruct expected as [e |]; [| reflexivity].
  rewrite len_zero. destruct (String.eqb_spec e "") as [-> | He];
    [reflexivity |].
  destruct header as [t |]; [| reflexivity].
  rewrite len_zero. cbn [orb].
  destruct (String.eqb_spec t "") as [-> | Ht].
  - cbn [orb]. destruct (String.eqb_spec "" e); [congruence | reflexivity].
  - cbn [orb]. destruct (String.eqb t e); reflexivity.
Qed.

(** X12: the admin gate opens exactly when no token is configured, or the
    configured token is the empty string, or the [X-Admin-Token] header
    equals the configured token; when it is closed, each of GET /v1/logs,
    /v1/logs/aggregate and /v1/logs/metrics, called with query parameters
    inside their declared bounds, answers 401 "Unauthorized: Invalid admin
    token" whatever the database holds or does. *)
Theorem admin_gate (expected header : option string) :
  LogsEndpoint.require_admin_token expected header
  = (if Aux.gate_open expected header then inr true
     else inl (Py.HTTPException 401 "Unauthorized: Invalid admin token"))
  /\ (Aux.gate_open expected header = false ->
      forall session utcnow session_id limit offset days_back days,
        LogsEndpoint.limit_in_bounds limit = true ->
        LogsEndpoint.optional_days_back_in_bounds days_back = true ->
        LogsEndpoint.days_back_in_bounds days = true ->
        LogsEndpoint.get_query_logs expected header session utcnow
          session_id limit offset days_back
        = LogsEndpoint.Err 401 "Unauthorized: Invalid admin token"
        /\ LogsEndpoint.get_analytics expected header session utcnow days
           = LogsEndpoint.Err 401 "Unauthorized: Invalid admin token"
        /\ LogsEndpoint.get_performance_metrics expected header session
             utcnow days
           = LogsEndpoint.Err 401 "Unauthorized: Invalid admin token").
Proof.
  split; [apply require_admin_token_gate |].
  intros Hclosed session utcnow session_id limit offset days_back days
    _ _ _.
  unfold LogsEndpoint.get_query_logs, LogsEndpoint.get_analytics,
    LogsEndpoint.get_performance_metrics, LogsEndpoint.guarded.
  rewrite require_admin_token_gate, Hclosed. repeat split.
Qed.

Lemma admin_gate_witness :
  Aux.gate_open (Some "secret123") (Some "wrong") = false
  /\ LogsEndpoint.get_analytics (Some "secret123") (Some "wrong")
       (Db.Serving Scenario.rows_with_a_zero) Scenario.utcnow 7
     = LogsEndpoint.Err 401 "Unauthorized: Invalid admin token".
Proof.
  split; [reflexivity |].
  destruct (admin_gate (Some "secret123") (Some "wrong")) as [_ H].
  destruct (H eq_refl (Db.Serving Scenario.rows_with_a_zero) Scenario.utcnow
              None 10%nat 0%nat None 7%Z eq_refl eq_refl eq_refl)
    as [_ [Hagg _]].
  exact Hagg.
Defined.

(** X13: with the gate open and the query parameters inside their
    declared bounds, a database-layer failure is reported differently by
    the three routes: GET /v1/logs answers 500 "Failed to retrieve logs.
    Please try again.", while GET /v1/logs/aggregate and GET
    /v1/logs/metrics answer 200 with all-zero figures for the requested
    period. *)
Theorem logs_routes_on_database_failure (expected header : option string)
    (msg : string) (utcnow : Z) (session_id : option string)
    (limit offset : nat) (days_back : option Z) (days : Z) :
  Aux.gate_open expected header = true ->
  LogsEndpoint.limit_in_bounds limit = true ->
  LogsEndpoint.optional_days_back_in_bounds days_back = true ->
  LogsEndpoint.days_back_in_bounds days = true ->
  LogsEndpoint.get_query_logs expected header (Db.Failing msg) utcnow
    session_id limit offset days_back
  = LogsEndpoint.Err 500 "Failed to retrieve logs. Please try again."
  /\ LogsEndpoint.get_analytics expected header (Db.Failing msg) utcnow days
     = LogsEndpoint.Ok200
         {| LogsEndpoint.query_count := 0;
            LogsEndpoint.avg_confidence := 0;
            LogsEndpoint.avg_response_time_ms := 0;
            LogsEndpoint.unique_sessions := 0;
            LogsEndpoint.period_days := days |}
  /\ LogsEndpoint.get_performance_metrics expected header (Db.Failing msg)
       utcnow days
     = LogsEndpoint.Ok200 (AnalyticsService._empty_metrics days).
Proof.
  intros Hopen _ _ _.
  unfold LogsEndpoint.get_query_logs, LogsEndpoint.get_analytics,
    LogsEndpoint.get_performance_metrics, LogsEndpoint.guarded.
  rewrite require_admin_token_gate, Hopen. repeat split.
Qed.

Lemma logs_routes_on_database_failure_witness :
  Aux.gate_open None None = true
  /\ LogsEndpoint.limit_in_bounds 100 = true
  /\ LogsEndpoint.optional_days_back_in_bounds None = true
  /\ LogsEndpoint.days_back_in_bounds 7 = true
  /\ LogsEndpoint.get_query_logs None None (Db.Failing "connection refused")
       Scenario.utcnow None 100 0 None
     = LogsEndpoint.Err 500 "Failed to retrieve logs. Please try again.".
Proof.
  do 4 (split; [reflexivity |]).
  destruct (logs_routes_on_database_failure None None "connection refused"
              Scenario.utcnow None 100 0 None 7%Z eq_refl eq_refl eq_refl
              eq_refl) as [H _].
  exact H.
Defined.

(** X14: with the gate open, [days_back] inside its declared bounds and
    the session serving, GET /v1/logs/aggregate always answers 200, its
    [period_days] is the requested [days_back] (also for an empty window,
    where the service's dict has no such key), and its [query_count] is
    the number of rows in the window. *)
Theorem aggregate_route_period (expected header : option string)
    (table : list Db.ChatQuery) (utcnow days : Z) :
  Aux.gate_open expected header = true ->
  LogsEndpoint.days_back_in_bounds days = true ->
  exists body,
    LogsEndpoint.get_analytics expected header (Db.Serving table) utcnow days
    = LogsEndpoint.Ok200 body
    /\ LogsEndpoint.period_days body = days
    /\ LogsEndpoint.query_count body
       = List.length (Spec.window table utcnow days).
Proof.
  intros Hopen _.
  unfold LogsEndpoint.get_analytics, LogsEndpoint.guarded.
  rewrite require_admin_token_gate, Hopen.
  unfold PostgresService.get_analytics. rewrite select_since_window.
  destruct (Spec.window table utcnow days) as [| q rows];
    eexists; repeat split.
Qed.

Lemma aggregate_route_period_witness :
  Aux.gate_open (Some "secret123") (Some "secret123") = true
  /\ LogsEndpoint.days_back_in_bounds 30 = true
  /\ exists body,
      LogsEndpoint.get_analytics (Some "secret123") (Some "secret123")
        (Db.Serving []) Scenario.utcnow 30
      = LogsEndpoint.Ok200 body
      /\ LogsEndpoint.period_days body = 30%Z
      /\ LogsEndpoint.query_count body
         = List.length (Spec.window [] Scenario.utcnow 30).
Proof.
  do 2 (split; [reflexivity |]).
  apply (aggregate_route_period (Some "secret123") (Some "secret123") []
           Scenario.utcnow 30 eq_refl eq_refl).
Defined.

(** ** The pipeline and the query route *)

Lemma skipn_app_length {A} (l k : list A) :
  skipn (List.length l) (l ++ k) = k.
Proof. apply drop_app_length. Qed.

Ltac run_pipeline :=
  unfold RagService.process_query, Eff.bind, Eff.time_time, Eff.lift,
    Eff.call, Constants.MAX_RETRIEVED_CHUNKS.

(** X15: a successful run of [process_query] on a non-empty retrieval calls
    the services in the order embedding, search, generation, save, each
    once; the save receives the question, the generated text and the
    session id; the result carries the generated text, one source
    reference per chunk in chunk order, and a confidence in [0.3, 1]. *)
Theorem process_query_success (svc : RagService.Services)
    (question session_id : string) (selected_context : option string)
    (embedding : list Q) (c : RagService.Chunk) (cs : list RagService.Chunk)
    (text : string) (st : Eff.state) :
  Validators.validate_query_input question session_id selected_context
  = inr tt ->
  RagService.generate_embedding svc question = inr embedding ->
  RagService.search_similar_chunks svc embedding 5 = inr (c :: cs) ->
  RagService.generate_response_for_query svc question
    (RagService._build_augmented_prompt question (c :: cs) selected_context)
  = inr text ->
  (forall args, RagService.save_query svc args = inr tt) ->
  exists r st',
    RagService.process_query svc question session_id selected_context st
    = (inr r, st')
    /\ RagService.response_text r = text
    /\ RagService.source_references r
       = RagService._extract_source_references (c :: cs)
    /\ List.length (RagService.source_references r)
       = List.length (c :: cs)
    /\ (3 # 10 <= RagService.confidence_score r
        /\ RagService.confidence_score r <= 1)%Q
    /\ Aux.new_events st st'
       = [Eff.CallGenerateEmbedding question;
          Eff.CallSearchSimilarChunks 5;
          Eff.CallGenerateResponse question
            (RagService._build_augmented_prompt question (c :: cs)
               selected_context);
          Eff.CallSaveQuery question text session_id].
Proof.
  intros Hval Hemb Hsearch Hgen Hsave. run_pipeline.
  rewrite Hval, Hemb. cbn [Eff.trace Eff.ticks]. rewrite Hsearch.
  cbn [Eff.trace Eff.ticks]. rewrite Hgen. cbn [Eff.trace Eff.ticks].
  rewrite Hsave. eexists _, _. split; [reflexivity |].
  cbn [RagService.response_text RagService.source_references
         RagService.confidence_score Eff.trace].
  repeat split.
  - unfold RagService._extract_source_references. apply List.length_map.
  - apply (max_min_in_range (3 # 10) 1). lra.
  - apply (max_min_in_range (3 # 10) 1). lra.
  - unfold Aux.new_events. rewrite <- !app_assoc. apply skipn_app_length.
Qed.

Lemma process_query_success_witness :
  Validators.validate_query_input "What is ZMP in bipedal walking?"
    "test-session-12345" None = inr tt
  /\ exists r st',
      RagService.process_query Scenario2.all_up
        "What is ZMP in bipedal walking?" "test-session-12345" None
        Eff.initial = (inr r, st')
      /\ RagService.response_text r
         = "ZMP is the zero moment point of the robot."
      /\ List.length (RagService.source_references r) = 1%nat.
Proof.
  split; [reflexivity |].
  destruct (process_query_success Scenario2.all_up
              "What is ZMP in bipedal walking?" "test-session-12345" None
              [(1 # 2)%Q] Scenario.walking_chunk []
              "ZMP is the zero moment point of the robot." Eff.initial
              eq_refl eq_refl eq_refl eq_refl (fun _ => eq_refl))
    as [r [st' [Hrun [Htext [_ [Hlen _]]]]]].
  exists r, st'. repeat split; assumption.
Defined.

Ltac new_events_in H :=
  unfold Aux.new_events in H; cbn [Eff.trace] in H;
  rewrite <- ?app_assoc in H;
  first [rewrite skipn_app_length in H | rewrite drop_all in H];
  cbn [app In] in H.

(** X16: [process_query] saves only what it answered: if a run records a
    call of [save_query], then the input had passed validation, the
    embedding call and the search had returned, at least one chunk had
    been retrieved, and the saved text is the text the generation call
    returned for this question; a run that fails earlier, or retrieves
    nothing, saves nothing. *)
Theorem process_query_saves_only_answers (svc : RagService.Services)
    (question session_id : string) (selected_context : option string)
    (st st' : Eff.state) (r : Py.exn + RagService.RagResult)
    (q' t' s' : string) :
  RagService.process_query svc question session_id selected_context st
  = (r, st') ->
  In (Eff.CallSaveQuery q' t' s') (Aux.new_events st st') ->
  q' = question /\ s' = session_id
  /\ Validators.validate_query_input question session_id selected_context
     = inr tt
  /\ exists embedding chunks,
      RagService.generate_embedding svc question = inr embedding
      /\ RagService.search_similar_chunks svc embedding 5 = inr chunks
      /\ chunks <> []
      /\ RagService.generate_response_for_query svc question
           (RagService._build_augmented_prompt question chunks
              selected_context)
         = inr t'.
Proof.
  run_pipeline. intros Hrun Hin.
  destruct (Validators.validate_query_input question session_id
              selected_context) as [e | []] eqn:Hval.
  { inversion Hrun; subst. new_events_in Hin. contradiction. }
  destruct (RagService.generate_embedding svc question)
    as [e | embedding] eqn:Hemb.
  { inversion Hrun; subst. new_events_in Hin. intuition discriminate. }
  cbn [Eff.trace Eff.ticks] in Hrun.
  destruct (RagService.search_similar_chunks svc embedding 5)
    as [e | chunks] eqn:Hsearch.
  { inversion Hrun; subst. new_events_in Hin. intuition discriminate. }
  cbn [Eff.trace Eff.ticks] in Hrun.
  destruct chunks as [| c cs].
  { inversion Hrun; subst. new_events_in Hin. intuition discriminate. }
  cbn [Eff.trace Eff.ticks] in Hrun.
  destruct (RagService.generate_response_for_query svc question
              (RagService._build_augmented_prompt question (c :: cs)
                 selected_context)) as [e | text] eqn:Hgen.
  { inversion Hrun; subst. new_events_in Hin. intuition discriminate. }
  cbn [Eff.trace Eff.ticks] in Hrun.
  match type of Hrun with
  | context [RagService.save_query svc ?a] =>
      destruct (RagService.save_query svc a) as [e | []]
  end;
    inversion Hrun; subst; new_events_in Hin;
    (destruct Hin as [Hin | [Hin | [Hin | [Hin | []]]]];
     try discriminate Hin; inversion Hin; subst;
     repeat split; exists embedding, (c :: cs);
     repeat split; try assumption; discriminate).
Qed.

Lemma process_query_saves_only_answers_witness :
  let st' :=
    {| Eff.trace :=
         [Eff.CallGenerateEmbedding "What is ZMP in bipedal walking?";
          Eff.CallSearchSimilarChunks 5;
          Eff.CallGenerateResponse "What is ZMP in bipedal walking?"
            (RagService._build_augmented_prompt
               "What is ZMP in bipedal walking?" [Scenario.walking_chunk]
               None);
          Eff.CallSaveQuery "What is ZMP in bipedal walking?"
            "ZMP is the zero moment point of the robot."
            "test-session-12345"];
       Eff.ticks := 7 |} in
  let r :=
    {| RagService.response_text :=
         "ZMP is the zero moment point of the robot.";
       RagService.source_references :=
         RagService._extract_source_references [Scenario.walking_chunk];
       RagService.confidence_score :=
         RagService._calculate_confidence_score [Scenario.walking_chunk]
           "ZMP is the zero moment point of the robot.";
       RagService.timestamp := None |} in
  RagService.process_query Scenario2.all_up
    "What is ZMP in bipedal walking?" "test-session-12345" None Eff.initial
  = (inr r, st')
  /\ In (Eff.CallSaveQuery "What is ZMP in bipedal walking?"
           "ZMP is the zero moment point of the robot." "test-session-12345")
       (Aux.new_events Eff.initial st')
  /\ Validators.validate_query_input "What is ZMP in bipedal walking?"
       "test-session-12345" None = inr tt.
Proof.
  cbv zeta.
  match goal with
  | |- ?run /\ ?i /\ _ =>
      assert (Hrun : run) by (vm_compute; reflexivity);
      assert (Hin : i) by (do 3 right; left; reflexivity)
  end.
  split; [exact Hrun | split; [exact Hin |]].
  destruct (process_query_saves_only_answers _ _ _ _ _ _ _ _ _ _ Hrun Hin)
    as [_ [_ [Hval _]]].
  exact Hval.
Defined.

Lemma calculate_confidence_score_range (c : RagService.Chunk)
    (cs : list RagService.Chunk) (response : string) :
  (3 # 10 <= RagService._calculate_confidence_score (c :: cs) response
   /\ RagService._calculate_confidence_score (c :: cs) response <= 1)%Q.
Proof.
  unfold RagService._calculate_confidence_score,
    Constants.MIN_CONFIDENCE_SCORE.
  apply max_min_in_range. lra.
Qed.

(** Whatever [process_query] returns has a confidence score between 0 and
    1. *)
Lemma process_query_confidence_range (svc : RagService.Services)
    (question session_id : string) (selected_context : option string)
    (st st' : Eff.state) (r : RagService.RagResult) :
  RagService.process_query svc question session_id selected_context st
  = (inr r, st') ->
  (0 <= RagService.confidence_score r
   /\ RagService.confidence_score r <= 1)%Q.
Proof.
  run_pipeline. intros Hrun.
  destruct (Validators.validate_query_input question session_id
              selected_context) as [e | []]; [discriminate |].
  destruct (RagService.generate_embedding svc question) as [e | embedding];
    [discriminate |].
  cbn [Eff.trace Eff.ticks] in Hrun.
  destruct (RagService.search_similar_chunks svc embedding 5)
    as [e | [| c cs]]; [discriminate | |].
  - inversion Hrun; subst. cbn. split; lra.
  - cbn [Eff.trace Eff.ticks] in Hrun.
    destruct (RagService.generate_response_for_query svc question _)
      as [e | text]; [discriminate |].
    cbn [Eff.trace Eff.ticks] in Hrun.
    match type of Hrun with
    | context [RagService.save_query svc ?a] =>
        destruct (RagService.save_query svc a) as [e | []]
    end; [discriminate |].
    unfold Eff.ret in Hrun. injection Hrun as Hr _. subst r.
    cbn [RagService.confidence_score].
    destruct (calculate_confidence_score_range c cs text) as [H1 H2].
    split; [eapply Qle_trans; [| exact H1]; lra | exact H2].
Qed.

(** X17: whenever the pipeline returns a result, the query route answers
    200: the confidence score of a result is always between 0 and 1, so
    building the response model cannot fail.  The body carries the
    pipeline's text and confidence, one source reference per pipeline
    source with [context_grounded] false, and the current time as
    timestamp. *)
Theorem post_query_success (svc : RagService.Services) (now : string)
    (req : Schemas.ChatQueryRequest) (r : RagService.RagResult)
    (st' : Eff.state) :
  RagService.init_services svc = inr tt ->
  Validators.validate_query_input (Schemas.question req)
    (Schemas.session_id req) (Schemas.selected_context req) = inr tt ->
  RagService.process_query svc (Schemas.question req)
    (Schemas.session_id req) (Schemas.selected_context req)
    Spec.pipeline_entry = (inr r, st') ->
  QueryEndpoint.post_query svc now req
  = QueryEndpoint.Http200
      {| Schemas.response_text := RagService.response_text r;
         Schemas.source_references :=
           map Schemas.SourceReference_of (RagService.source_references r);
         Schemas.confidence_score := RagService.confidence_score r;
         Schemas.timestamp := now |}
  /\ Forall (fun s => Schemas.context_grounded s = false)
       (map Schemas.SourceReference_of (RagService.source_references r)).
Proof.
  intros Hinit Hval Hrun. split.
  - rewrite (post_query_valid_input _ _ _ Hinit Hval), Hrun.
    cbn [fst Spec.response_after_pipeline].
    unfold Schemas.ChatResponseSchema_new.
    destruct (process_query_confidence_range _ _ _ _ _ _ _ Hrun) as [H0 H1].
    apply Qle_bool_iff in H0, H1. rewrite H0, H1. reflexivity.
  - apply Forall_forall. intros s Hs.
    apply list_elem_of_In, in_map_iff in Hs as [x [<- _]]. reflexivity.
Qed.

Lemma post_query_success_witness :
  exists st',
    RagService.init_services Scenario2.all_up = inr tt
    /\ RagService.process_query Scenario2.all_up
         (Schemas.question Scenario.good_request)
         (Schemas.session_id Scenario.good_request)
         (Schemas.selected_context Scenario.good_request)
         Spec.pipeline_entry
       = (inr {| RagService.response_text :=
                   "ZMP is the zero moment point of the robot.";
                 RagService.source_references :=
                   RagService._extract_source_references
                     [Scenario.walking_chunk];
                 RagService.confidence_score :=
                   RagService._calculate_confidence_score
                     [Scenario.walking_chunk]
                     "ZMP is the zero moment point of the robot.";
                 RagService.timestamp := None |}, st')
    /\ exists body,
        QueryEndpoint.post_query Scenario2.all_up "2025-12-09T13:45:23"
          Scenario.good_request = QueryEndpoint.Http200 body
        /\ Schemas.timestamp body = "2025-12-09T13:45:23".
Proof.
  eexists. split; [reflexivity |].
  match goal with
  | |- ?run /\ _ => assert (Hrun : run) by (vm_compute; reflexivity)
  end.
  split; [exact Hrun |].
  destruct (post_query_success Scenario2.all_up "2025-12-09T13:45:23"
              Scenario.good_request _ _ eq_refl eq_refl Hrun) as [H _].
  eexists. split; [exact H | reflexivity].
Defined.

(** X18: a failure of [init_services] is answered with 500 and the generic
    detail, also when the exception is [QdrantUnavailableError] or
    [GeminiAPIError] (which the route maps to 503 and 502 only when the
    pipeline raises them); neither validation nor the pipeline runs. *)
Theorem post_query_init_failure (svc : RagService.Services) (now : string)
    (req : Schemas.ChatQueryRequest) (e : Py.exn) :
  RagService.init_services svc = inl e ->
  (forall status detail, e <> Py.HTTPException status detail) ->
  QueryEndpoint.post_query svc now req
  = QueryEndpoint.HttpError 500 QueryEndpoint.unexpected_detail
  /\ Eff.trace (snd (QueryEndpoint.query_chatbot svc now req Eff.initial))
     = [Eff.CallInitServices].
Proof.
  intros Hinit Hnot.
  unfold QueryEndpoint.post_query, QueryEndpoint.query_chatbot,
    Eff.try_except, Eff.bind, Eff.time_time, Eff.call.
  cbn [Eff.initial Eff.trace Eff.ticks]. rewrite Hinit.
  destruct e; try (split; reflexivity).
  exfalso. eapply Hnot. reflexivity.
Qed.

Lemma post_query_init_failure_witness :
  RagService.init_services Scenario2.qdrant_init_down
  = inl (Py.QdrantUnavailableError "Could not connect to vector database")
  /\ QueryEndpoint.post_query Scenario2.qdrant_init_down
       "2025-12-09T13:45:23" Scenario.good_request
     = QueryEndpoint.HttpError 500
         "An unexpected error occurred. Please try again.".
Proof.
  split; [reflexivity |].
  destruct (post_query_init_failure Scenario2.qdrant_init_down
              "2025-12-09T13:45:23" Scenario.good_request
              (Py.QdrantUnavailableError
                 "Could not connect to vector database")
              eq_refl) as [H _].
  - intros status detail. discriminate.
  - exact H.
Defined.

(** ** Validation of the question *)

Lemma lstrip_starts_clean (s : string) :
  Aux.starts_clean (Py.lstrip s) = true.
Proof.
  induction s as [| c s IH]; cbn; [reflexivity |].
  destruct (Py.isspace c) eqn:Hc; [exact IH |]. cbn. rewrite Hc. reflexivity.
Qed.

Lemma lstrip_clean (s : string) :
  Aux.starts_clean s = true -> Py.lstrip s = s.
Proof.
  destruct s as [| c s]; cbn; [reflexivity |].
  destruct (Py.isspace c); [discriminate | reflexivity].
Qed.

Lemma rstrip_starts_clean (s : string) :
  Aux.starts_clean s = true -> Aux.starts_clean (Py.rstrip s) = true.
Proof.
  destruct s as [| c s]; cbn; [reflexivity |].
  intros Hc. destruct (Py.rstrip s); [| exact Hc].
  destruct (Py.isspace c) eqn:Hs; [discriminate |].
  cbn. rewrite Hs. reflexivity.
Qed.

Lemma rstrip_idempotent (s : string) : Py.rstrip (Py.rstrip s) = Py.rstrip s.
Proof.
  induction s as [| c s IH]; [reflexivity |].
  cbn [Py.rstrip]. destruct (Py.rstrip s) as [| c' r] eqn:Hr.
  - destruct (Py.isspace c) eqn:Hc; [reflexivity |].
    cbn. rewrite Hc. reflexivity.
  - cbn [Py.rstrip] in *. rewrite IH. reflexivity.
Qed.

Lemma strip_idempotent (s : string) : Py.strip (Py.strip s) = Py.strip s.
Proof.
  unfold Py.strip.
  rewrite (lstrip_clean (Py.rstrip (Py.lstrip s)))
    by apply rstrip_starts_clean, lstrip_starts_clean.
  apply rstrip_idempotent.
Qed.

Lemma lstrip_length (s : string) : (Py.len (Py.lstrip s) <= Py.len s)%nat.
Proof.
  unfold Py.len. induction s as [| c s IH]; cbn; [lia |].
  destruct (Py.isspace c); cbn; lia.
Qed.

Lemma rstrip_length (s : string) : (Py.len (Py.rstrip s) <= Py.len s)%nat.
Proof.
  unfold Py.len. induction s as [| c s IH]; cbn [Py.rstrip]; [lia |].
  destruct (Py.rstrip s) as [| c' r].
  - destruct (Py.isspace c); cbn in *; lia.
  - cbn in *; lia.
Qed.

Lemma strip_length (s : string) : (Py.len (Py.strip s) <= Py.len s)%nat.
Proof.
  unfold Py.strip. pose proof (rstrip_length (Py.lstrip s)).
  pose proof (lstrip_length s). lia.
Qed.

(** X19: [validate_query_length] judges the question without its leading
    and trailing white space: the verdict on a question is the verdict on
    its stripped form, and stripping never lengthens it. *)
Theorem validate_query_length_ignores_padding (query : string) :
  Validators.validate_query_length (Py.strip query)
  = Validators.validate_query_length query
  /\ (Py.len (Py.strip query) <= Py.len query)%nat
  /\ Py.strip (Py.strip query) = Py.strip query.
Proof.
  split; [| split; [apply strip_length | apply strip_idempotent]].
  unfold Validators.validate_query_length. rewrite strip_idempotent.
  reflexivity.
Qed.

(** X20: for a request body accepted by the request schema, the validators
    called by the route can fail in two ways only: the question, once
    stripped, is shorter than 5 characters, or the session id does not
    match the pattern.  The upper bound on the question and the bound on
    the selected context are already enforced by the schema. *)
Theorem validated_request_failures (raw_question : string)
    (raw_context : option string) (raw_session_id : string)
    (req : Schemas.ChatQueryRequest) :
  Schemas.ChatQueryRequest_validate raw_question raw_context raw_session_id
  = inr req ->
  Validators.validate_selected_context (Schemas.selected_context req)
  = inr tt
  /\ (Validators.validate_query_input (Schemas.question req)
        (Schemas.session_id req) (Schemas.selected_context req) = inr tt
      \/ Validators.validate_query_input (Schemas.question req)
           (Schemas.session_id req) (Schemas.selected_context req)
         = inl (Py.ValidatorsValidationError
                  "Query too short. Minimum length is 5 characters.")
      \/ Validators.validate_query_input (Schemas.question req)
           (Schemas.session_id req) (Schemas.selected_context req)
         = inl (Py.ValidatorsValidationError
                  "Invalid session ID format. Must match pattern: ^[a-zA-Z0-9\-_]{10,50}$")).
Proof.
  unfold Schemas.ChatQueryRequest_validate. intros Hreq.
  destruct ((Py.len raw_question <? 5)%nat || (2000 <? Py.len raw_question)%nat)
    eqn:Hq; [discriminate |].
  destruct (Py.len (Py.strip raw_question) =? 0)%nat; [discriminate |].
  assert (Hctx : Validators.validate_selected_context raw_context = inr tt).
  { unfold Validators.validate_selected_context.
    destruct raw_context as [c |]; [| reflexivity].
    destruct (4000 <? Py.len c)%nat eqn:Hc; [discriminate |].
    unfold Constants.MAX_CONTEXT_LENGTH. rewrite Hc, Bool.andb_false_r.
    reflexivity. }
  destruct (match raw_context with
            | Some c => (4000 <? Py.len c)%nat
            | None => false
            end); [discriminate |].
  destruct (Py.len raw_session_id <? 5)%nat; [discriminate |].
  inversion Hreq; subst; clear Hreq.
  cbn [Schemas.question Schemas.session_id Schemas.selected_context].
  split; [exact Hctx |].
  unfold Validators.validate_query_input, Validators.validate_query_length.
  rewrite strip_idempotent, Hctx.
  apply Bool.orb_false_elim in Hq as [_ Hlong].
  apply Nat.ltb_ge in Hlong. pose proof (strip_length raw_question) as Hs.
  destruct (Py.len (Py.strip raw_question) <? Constants.MIN_QUERY_LENGTH)%nat;
    [right; left; reflexivity |].
  destruct (Nat.ltb_spec Constants.MAX_QUERY_LENGTH
              (Py.len (Py.strip raw_question)));
    [unfold Constants.MAX_QUERY_LENGTH in *; lia |].
  unfold Validators.validate_session_id.
  destruct (Re.re_match Constants.SESSION_ID_PATTERN raw_session_id);
    [left | right; right]; reflexivity.
Qed.

Lemma validated_request_failures_witness :
  Schemas.ChatQueryRequest_validate "  hi   " None "test-session-12345"
  = inr {| Schemas.question := "hi";
           Schemas.selected_context := None;
           Schemas.session_id := "test-session-12345" |}
  /\ Validators.validate_selected_context None = inr tt
  /\ Validators.validate_query_input "hi" "test-session-12345" None
     = inl (Py.ValidatorsValidationError
              "Query too short. Minimum length is 5 characters.").
Proof.
  assert (Hreq :
            Schemas.ChatQueryRequest_validate "  hi   " None
              "test-session-12345"
            = inr {| Schemas.question := "hi";
                     Schemas.selected_context := None;
                     Schemas.session_id := "test-session-12345" |})
    by reflexivity.
  split; [exact Hreq |].
  destruct (validated_request_failures _ _ _ _ Hreq) as [Hctx _].
  split; [exact Hctx | reflexivity].
Defined.

(** ** The confidence score as a function of the response *)

Lemma py_min_mono (x y c : Q) :
  (x <= y)%Q -> (Py.min x c <= Py.min y c)%Q.
Proof.
  intros Hxy. unfold Py.min.
  destruct (Qlt_le_dec c x), (Qlt_le_dec c y); lra.
Qed.

Lemma py_max_mono (c x y : Q) :
  (x <= y)%Q -> (Py.max c x <= Py.max c y)%Q.
Proof.
  intros Hxy. unfold Py.max.
  destruct (Qlt_le_dec c x), (Qlt_le_dec c y); lra.
Qed.

Lemma length_ratio_mono (n m : nat) :
  (n <= m)%nat ->
  (inject_Z (Z.of_nat n) / 200 <= inject_Z (Z.of_nat m) / 200)%Q.
Proof.
  intros Hnm. apply Qmult_le_compat_r; [| discriminate].
  rewrite <- Zle_Qle. lia.
Qed.

Lemma response_factor_mono (n m : nat) :
  (n <= m)%nat ->
  (Py.min (inject_Z (Z.of_nat n) / 200) 1
   <= Py.min (inject_Z (Z.of_nat m) / 200) 1)%Q.
Proof. intros Hnm. apply py_min_mono, length_ratio_mono, Hnm. Qed.

Lemma response_factor_saturates (n : nat) :
  (200 <= n)%nat -> (Py.min (inject_Z (Z.of_nat n) / 200) 1 == 1)%Q.
Proof.
  intros Hn. unfold Py.min.
  destruct (Qlt_le_dec 1 (inject_Z (Z.of_nat n) / 200)) as [Hlt | Hle];
    [reflexivity |].
  apply Qle_antisym; [exact Hle |].
  apply Qle_shift_div_l; [reflexivity |].
  rewrite Qmult_1_l. change 200%Q with (inject_Z 200).
  rewrite <- Zle_Qle. lia.
Qed.

Lemma confidence_mono_in_factor (chunks : list RagService.Chunk)
    (r1 r2 : string) :
  (Py.min (inject_Z (Z.of_nat (Py.len r1)) / 200) 1
   <= Py.min (inject_Z (Z.of_nat (Py.len r2)) / 200) 1)%Q ->
  (RagService._calculate_confidence_score chunks r1
   <= RagService._calculate_confidence_score chunks r2)%Q.
Proof.
  intros H. destruct chunks as [| c cs]; [cbn; lra |].
  unfold RagService._calculate_confidence_score.
  apply py_max_mono, py_min_mono. lra.
Qed.

(** X21: for a fixed list of chunks the confidence score never decreases
    when the response gets longer, and it does not depend on the length
    of the response once that length is at least 200. *)
Theorem confidence_monotone_in_length (chunks : list RagService.Chunk)
    (r1 r2 : string) :
  ((Py.len r1 <= Py.len r2)%nat ->
   (RagService._calculate_confidence_score chunks r1
    <= RagService._calculate_confidence_score chunks r2)%Q)
  /\ ((200 <= Py.len r1)%nat -> (200 <= Py.len r2)%nat ->
      (RagService._calculate_confidence_score chunks r1
       == RagService._calculate_confidence_score chunks r2)%Q).
Proof.
  split.
  - intros Hlen. apply confidence_mono_in_factor, response_factor_mono, Hlen.
  - intros H1 H2.
    pose proof (response_factor_saturates _ H1) as S1.
    pose proof (response_factor_saturates _ H2) as S2.
    apply Qle_antisym; apply confidence_mono_in_factor; lra.
Qed.

Lemma confidence_monotone_in_length_witness :
  (Py.len "Yes." <= Py.len "Yes, it is.")%nat
  /\ (RagService._calculate_confidence_score [Scenario.walking_chunk] "Yes."
      <= RagService._calculate_confidence_score [Scenario.walking_chunk]
           "Yes, it is.")%Q.
Proof.
  assert (Hlen : (Py.len "Yes." <= Py.len "Yes, it is.")%nat)
    by (cbn; lia).
  split; [exact Hlen |].
  destruct (confidence_monotone_in_length [Scenario.walking_chunk]
              "Yes." "Yes, it is.") as [H _].
  exact (H Hlen).
Defined.

(** ** The retry decorator for arbitrary parameters *)

Section RetryBounds.
Context {W A : Type}.
Variables (initial_delay backoff_factor : Q).
Variable func : W -> (Py.exn + A) * W.

Lemma retry_loop_cons {V} (max_retries : Z) (f : V -> (Py.exn + A) * V)
    (attempt : Z) (rest : list Z) (last : option Py.exn) (delay : Q)
    (v : V) (slept : list Q) :
  PostgresService.retry_loop max_retries backoff_factor f (attempt :: rest)
    last delay v slept
  = match f v with
    | (inr a, v') => (inr a, v', slept)
    | (inl e, v') =>
        if PostgresService.is_SQLAlchemyError e then
          if (attempt =? max_retries)%Z then (inl e, v', slept)
          else PostgresService.retry_loop max_retries backoff_factor f rest
                 (Some e) (delay * backoff_factor)%Q v' (slept ++ [delay])
        else (inl e, v', slept)
    end.
Proof. reflexivity. Qed.

Lemma retry_loop_counts (N n : nat) :
  forall (a : nat) (last : option Py.exn) (delay : Q) (w : W)
         (calls : nat) (slept : list Q),
    (a + S n = S N)%nat ->
    exists k r w',
      (k <= n)%nat
      /\ PostgresService.retry_loop (Z.of_nat N) backoff_factor
           (Aux.counting func) (map Z.of_nat (seq a (S n))) last delay
           (w, calls) slept
         = (r, (w', (calls + S k)%nat),
            (slept ++ Aux.geometric delay backoff_factor k)%list)
      /\ ((k < n)%nat ->
          forall e, r = inl e -> PostgresService.is_SQLAlchemyError e = false).
Proof.
  induction n as [| n IH]; intros a last delay w calls slept Ha.
  - cbn [seq map]. rewrite retry_loop_cons. unfold Aux.counting.
    cbn [fst snd]. destruct (func w) as [[e | v] w1].
    + exists 0%nat, (inl e), w1. split; [lia |]. split; [| lia].
      replace (Z.of_nat a) with (Z.of_nat N) by lia.
      rewrite Z.eqb_refl, app_nil_r, Nat.add_1_r.
      destruct (PostgresService.is_SQLAlchemyError e); reflexivity.
    + exists 0%nat, (inr v), w1. split; [lia |]. split; [| lia].
      rewrite app_nil_r, Nat.add_1_r. reflexivity.
  - change (seq a (S (S n))) with (a :: seq (S a) (S n)). cbn [map].
    rewrite retry_loop_cons. unfold Aux.counting at 1.
    cbn [fst snd]. destruct (func w) as [[e | v] w1].
    + destruct (PostgresService.is_SQLAlchemyError e) eqn:He.
      * destruct (Z.eqb_spec (Z.of_nat a) (Z.of_nat N)); [lia |].
        destruct (IH (S a) (Some e) (delay * backoff_factor)%Q w1 (S calls)
                    (slept ++ [delay])%list) as [k [r [w' [Hk [Hrun Hstop]]]]];
          [lia |].
        exists (S k), r, w'. split; [lia |]. split.
        -- rewrite Hrun. cbn [Aux.geometric].
           rewrite <- app_assoc.
           replace (S calls + S k)%nat with (calls + S (S k))%nat by lia.
           reflexivity.
        -- intros Hlt. apply Hstop. lia.
      * exists 0%nat, (inl e), w1. split; [lia |]. split.
        -- rewrite app_nil_r, Nat.add_1_r. reflexivity.
        -- intros _ e' He'. inversion He'; subst. exact He.
    + exists 0%nat, (inr v), w1. split; [lia |]. split.
      * rewrite app_nil_r, Nat.add_1_r. reflexivity.
      * intros _ e He. discriminate.
Qed.

(** X22: for any non-negative [max_retries], any initial delay and any
    backoff factor, the wrapper calls the function [k + 1] times for some
    [k <= max_retries] and sleeps [k] times, for [initial_delay],
    [initial_delay * factor], [initial_delay * factor^2], ... in this
    order; it stops before the last attempt only on a returned value or an
    error that is not a database-layer error. *)
Theorem retry_bounds (max_retries : Z) (w : W) :
  (0 <= max_retries)%Z ->
  exists k r w',
    (Z.of_nat k <= max_retries)%Z
    /\ PostgresService.retry_on_connection_error max_retries initial_delay
         backoff_factor (Aux.counting func) (w, 0%nat)
       = (r, (w', S k), Aux.geometric initial_delay backoff_factor k)
    /\ ((Z.of_nat k < max_retries)%Z ->
        forall e, r = inl e -> PostgresService.is_SQLAlchemyError e = false).
Proof.
  intros Hmax. unfold PostgresService.retry_on_connection_error,
    PostgresService.range.
  replace (Z.to_nat (max_retries + 1)) with (S (Z.to_nat max_retries))
    by lia.
  destruct (retry_loop_counts (Z.to_nat max_retries) (Z.to_nat max_retries)
              0%nat None initial_delay w 0%nat [])
    as [k [r [w' [Hk [Hrun Hstop]]]]]; [lia |].
  rewrite Z2Nat.id in Hrun by exact Hmax.
  exists k, r, w'. split; [lia |]. split; [exact Hrun |].
  intros Hlt. apply Hstop. lia.
Qed.

(** X23: with a negative [max_retries] the wrapper never calls the wrapped
    function; it raises [TypeError], because the loop body does not run
    and [last_exception] is still [None] at the final [raise]. *)
Theorem retry_negative_max_retries (max_retries : Z) (w : W) :
  (max_retries < 0)%Z ->
  PostgresService.retry_on_connection_error max_retries initial_delay
    backoff_factor func w
  = (inl (Py.TypeError "exceptions must derive from BaseException"), w, []).
Proof.
  intros Hneg. unfold PostgresService.retry_on_connection_error,
    PostgresService.range.
  replace (Z.to_nat (max_retries + 1)) with 0%nat by lia. reflexivity.
Qed.

End RetryBounds.

Lemma retry_bounds_witness :
  (0 <= 2)%Z
  /\ PostgresService.retry_on_connection_error 2 (1 # 100) 1
       (Aux.counting Scenario.flaky) (0%nat, 0%nat)
     = (inr "success", (3%nat, 3%nat), [1 # 100; 1 # 100]%Q).
Proof.
  split; [lia |].
  destruct (retry_bounds (1 # 100) 1 Scenario.flaky 2 0%nat)
    as [k [r [w' [Hk [Hrun _]]]]]; [lia |].
  reflexivity.
Defined.

Lemma retry_negative_max_retries_witness :
  (-1 < 0)%Z
  /\ PostgresService.retry_on_connection_error (-1) (1 # 10) 2
       Scenario.flaky 0%nat
     = (inl (Py.TypeError "exceptions must derive from BaseException"),
        0%nat, []).
Proof.
  split; [lia |].
  apply (retry_negative_max_retries (1 # 10) 2 Scenario.flaky (-1) 0%nat).
  lia.
Defined.

(** ** Percentiles and confidence aggregates of the analytics service *)

(** X24: for non-empty data the analytics [percentile] helper returns one
    of the data values; for [p = 0] it is the smallest and for every
    [p >= 100] the largest, the index being clamped to the last
    position. *)
Theorem percentile_is_a_data_value (data : list Q) (p : nat) :
  data <> [] ->
  let v := AnalyticsService.percentile data (Z.of_nat p) in
  In v data
  /\ (p = 0%nat -> Forall (fun x => (v <= x)%Q) data)
  /\ ((100 <= p)%nat -> Forall (fun x => (x <= v)%Q) data).
Proof.
  intros Hne. cbv zeta. unfold AnalyticsService.percentile.
  destruct data as [| d data]; [contradiction |].
  rewrite int_percent_of.
  set (sv := Sorting.sorted (d :: data)).
  assert (Hlen : List.length sv = S (List.length data))
    by apply sorted_length.
  assert (Hs : StronglySorted Qle sv) by apply sorted_ordered.
  rewrite Hlen. split; [| split].
  - apply list_elem_of_In. rewrite <- (sorted_perm (d :: data)).
    apply list_elem_of_In. apply nth_In. fold sv. lia.
  - intros ->.
    replace (Nat.min (Spec.rank_index 0 (S (List.length data)))
               (S (List.length data) - 1)) with 0%nat
      by (unfold Spec.rank_index; rewrite Nat.mul_0_l, Nat.Div0.div_0_l;
          lia).
    apply Forall_forall. intros x Hx.
    rewrite <- (sorted_perm (d :: data)) in Hx. fold sv in Hx.
    apply list_elem_of_In, In_nth_sorted in Hx as [i [Hi <-]].
    apply sorted_nth_le; [exact Hs | lia | lia].
  - intros Hp.
    assert (Hidx : Nat.min (Spec.rank_index p (S (List.length data)))
                     (S (List.length data) - 1)
                   = List.length data).
    { unfold Spec.rank_index.
      assert ((S (List.length data)) <= p * S (List.length data) / 100)%nat
        by (apply Nat.div_le_lower_bound; nia).
      lia. }
    rewrite Hidx. apply Forall_forall. intros x Hx.
    rewrite <- (sorted_perm (d :: data)) in Hx. fold sv in Hx.
    apply list_elem_of_In, In_nth_sorted in Hx as [i [Hi <-]].
    apply sorted_nth_le; [exact Hs | lia | lia].
Qed.

Lemma percentile_is_a_data_value_witness :
  Scenario.one_to_ten <> []
  /\ In (AnalyticsService.percentile Scenario.one_to_ten (Z.of_nat 95))
       Scenario.one_to_ten.
Proof.
  assert (Hne : Scenario.one_to_ten <> []) by discriminate.
  split; [exact Hne |].
  destruct (percentile_is_a_data_value Scenario.one_to_ten 95 Hne)
    as [H _].
  exact H.
Defined.





(** ** The health route: services and messages *)

Lemma len_append (a b : string) :
  Py.len (a ++ b) = (Py.len a + Py.len b)%nat.
Proof.
  unfold Py.len. induction a as [| c a IH]; [reflexivity |].
  change (S (String.length (a ++ b))
          = S (String.length a + String.length b)).
  f_equal. exact IH.
Qed.

Lemma truncate50_length (s : string) : (Py.len (Health.truncate50 s) <= 50)%nat.
Proof.
  unfold Health.truncate50, Py.len. generalize 50%nat as n.
  induction s as [| c s IH]; intros [| n]; cbn; try lia.
  specialize (IH n). lia.
Qed.

(** X26: [health_check] always reports the three services qdrant, gemini
    and postgres, in this order; the overall status is "healthy" exactly
    when each of them is reported "up"; and every reported message has at
    most 69 characters, the text of an exception being cut to 50. *)
Theorem health_check_services (qdrant gemini : Py.exn + unit)
    (config : Py.exn + string) (now : string) :
  let response := Health.health_check qdrant gemini config now in
  map fst (Health.services response) = ["qdrant"; "gemini"; "postgres"]
  /\ (Health.status response = "healthy"
      <-> Forall (fun s => fst (snd s) = "up") (Health.services response))
  /\ Forall (fun s => (Py.len (snd (snd s)) <= 69)%nat)
       (Health.services response).
Proof.
  cbv zeta. unfold Health.health_check.
  assert (Hq : exists b m, Health.check_qdrant_health qdrant = (b, m)
                           /\ (Py.len m <= 69)%nat).
  { destruct qdrant as [e | u]; cbn; eexists _, _; (split; [reflexivity |]).
    - rewrite len_append. pose proof (truncate50_length (Py.str_exn e)).
      cbn. lia.
    - cbn. lia. }
  assert (Hg : exists b m, Health.check_gemini_health gemini = (b, m)
                           /\ (Py.len m <= 69)%nat).
  { destruct gemini as [e | u]; cbn; eexists _, _; (split; [reflexivity |]).
    - rewrite len_append. pose proof (truncate50_length (Py.str_exn e)).
      cbn. lia.
    - cbn. lia. }
  assert (Hp : exists b m, Health.check_postgres_health config = (b, m)
                           /\ (Py.len m <= 69)%nat).
  { destruct config as [e | url]; cbn.
    - eexists _, _. split; [reflexivity |].
      rewrite len_append. pose proof (truncate50_length (Py.str_exn e)).
      cbn. lia.
    - destruct (negb (Py.len url =? 0)%nat); eexists _, _;
        (split; [reflexivity | cbn; lia]). }
  destruct Hq as [bq [mq [-> Hmq]]], Hg as [bg [mg [-> Hmg]]],
    Hp as [bp [mp [-> Hmp]]].
  cbn [Health.services Health.status map fst snd].
  split; [reflexivity |]. split.
  - rewrite overall_status_cases.
    destruct bq, bg, bp; cbn; split; intros H;
      try discriminate; try (repeat constructor);
      repeat match goal with
             | H : Forall _ (_ :: _) |- _ => inversion H; subst; clear H
             end;
      cbn in *; try discriminate.
  - repeat (constructor; [assumption |]). constructor.
Qed.

Lemma health_check_services_witness :
  Forall (fun s => fst (snd s) = "up")
    (Health.services
       (Health.health_check (inr tt) (inr tt) (inr "postgresql://db/rag")
          "2024-01-01T00:00:00"))
  /\ Health.status
       (Health.health_check (inr tt) (inr tt) (inr "postgresql://db/rag")
          "2024-01-01T00:00:00")
     = "healthy".
Proof.
  assert (H : Forall (fun s => fst (snd s) = "up")
                (Health.services
                   (Health.health_check (inr tt) (inr tt)
                      (inr "postgresql://db/rag") "2024-01-01T00:00:00"))).
  { repeat constructor. }
  split; [exact H |].
  exact (proj2 (proj1 (proj2
           (health_check_services (inr tt) (inr tt)
              (inr "postgresql://db/rag") "2024-01-01T00:00:00"))) H).
Defined.

(** ** The augmented prompt *)

Lemma prefix_append (s t : string) : String.prefix s (s ++ t) = true.
Proof.
  induction s as [| c s IH]; [destruct t; reflexivity |].
  change (String.prefix (String c s) (String c (s ++ t)) = true).
  cbn [String.prefix].
  destruct (ascii_dec c c); [exact IH | contradiction].
Qed.

Lemma prefix_weaken (sub a b : string) :
  String.prefix sub a = true -> String.prefix sub (a ++ b) = true.
Proof.
  revert a. induction sub as [| c sub IH]; intros a H.
  - destruct (a ++ b); reflexivity.
  - destruct a as [| c' a]; [discriminate |].
    change (String.prefix (String c sub) (String c' (a ++ b)) = true).
    cbn [String.prefix] in *.
    destruct (ascii_dec c c'); [apply IH, H | discriminate].
Qed.

Lemma contains_of_prefix (sub s : string) :
  String.prefix sub s = true -> Py.contains sub s = true.
Proof.
  intros H. destruct s; cbn [Py.contains]; rewrite H; reflexivity.
Qed.

Lemma contains_here (s t : string) : Py.contains s (s ++ t) = true.
Proof. apply contains_of_prefix, prefix_append. Qed.

Lemma contains_skip (sub a b : string) :
  Py.contains sub b = true -> Py.contains sub (a ++ b) = true.
Proof.
  intros H. induction a as [| c a IH]; [exact H |].
  change (String c a ++ b) with (String c (a ++ b)).
  cbn [Py.contains]. rewrite IH. apply Bool.orb_true_r.
Qed.

Lemma contains_keep (sub a b : string) :
  Py.contains sub a = true -> Py.contains sub (a ++ b) = true.
Proof.
  induction a as [| c a IH]; intros H.
  - cbn in H. rewrite Bool.orb_false_r in H.
    destruct sub; [| discriminate]. destruct b; reflexivity.
  - change (String c a ++ b) with (String c (a ++ b)).
    cbn [Py.contains] in *. apply Bool.orb_true_iff in H as [H | H].
    + change (String c (a ++ b)) with (String c a ++ b).
      rewrite (prefix_weaken _ _ _ H). reflexivity.
    + rewrite (IH H). apply Bool.orb_true_r.
Qed.

Lemma append_empty (s : string) : s ++ "" = s.
Proof.
  induction s as [| c s IH]; [reflexivity |].
  change (String c (s ++ "") = String c s). f_equal. exact IH.
Qed.

Lemma contains_self (s : string) : Py.contains s s = true.
Proof.
  rewrite <- (append_empty s) at 2. apply contains_here.
Qed.

Lemma contains_concat (sep s : string) (l : list string) :
  In s l -> Py.contains s (String.concat sep l) = true.
Proof.
  induction l as [| x l IH]; intros Hin; [contradiction |].
  destruct l as [| y l].
  - destruct Hin as [-> | []]. apply contains_self.
  - change (String.concat sep (x :: y :: l))
      with (x ++ sep ++ String.concat sep (y :: l)).
    destruct Hin as [-> | Hin].
    + apply contains_here.
    + apply contains_skip, contains_skip, IH, Hin.
Qed.

Ltac find_in_prompt :=
  repeat first [apply contains_here | apply contains_skip].

(** X27: the augmented prompt begins with the constraint prompt and
    contains the question and the text of every retrieved chunk; a
    non-empty selected context is contained too, while an empty one gives
    the same prompt as no selected context. *)
Theorem augmented_prompt_contents (question : string)
    (chunks : list RagService.Chunk) (selected_context : option string) :
  let prompt :=
    RagService._build_augmented_prompt question chunks selected_context in
  String.prefix RagService.RAG_CONSTRAINT_PROMPT prompt = true
  /\ Py.contains question prompt = true
  /\ Forall (fun c => Py.contains (RagService.text c) prompt = true) chunks
  /\ match selected_context with
     | Some s => Py.contains s prompt = true
     | None => True
     end
  /\ RagService._build_augmented_prompt question chunks (Some "")
     = RagService._build_augmented_prompt question chunks None.
Proof.
  cbv zeta. unfold RagService._build_augmented_prompt.
  split; [apply prefix_append |]. split; [find_in_prompt |].
  split; [| split; [| reflexivity]].
  - apply Forall_forall. intros c Hc. apply list_elem_of_In in Hc.
    assert (Htext : Py.contains (RagService.text c)
                      (String.concat (RagService.newline ++ RagService.newline)
                         (map RagService.text chunks)) = true)
      by (apply contains_concat, in_map, Hc).
    do 5 apply contains_skip. apply contains_keep.
    destruct selected_context as [s |]; [| exact Htext].
    destruct (negb (Py.len s =? 0)%nat); [| exact Htext].
    do 7 apply contains_skip. exact Htext.
  - destruct selected_context as [s |]; [| exact I].
    destruct (Py.len s =? 0)%nat eqn:Hs.
    + destruct s; [| discriminate]. apply contains_of_prefix. reflexivity.
    + cbn [negb]. do 5 apply contains_skip. apply contains_keep.
      find_in_prompt.
Qed.

(** ** The most frequent questions *)

Lemma rows_asking_snoc (k : string) (rows : list Db.ChatQuery)
    (q : Db.ChatQuery) :
  Aux.rows_asking k (rows ++ [q])
  = (Aux.rows_asking k rows
     ++ if String.eqb (Db.question q) k then [q] else [])%list.
Proof. unfold Aux.rows_asking. rewrite List.filter_app. reflexivity. Qed.

Lemma group_add_keys (k : string) (c : option Q)
    (groups : list AnalyticsOps.Group) :
  (In k (map AnalyticsOps.g_question groups)
   /\ map AnalyticsOps.g_question (AnalyticsOps.group_add k c groups)
      = map AnalyticsOps.g_question groups)
  \/ (~ In k (map AnalyticsOps.g_question groups)
      /\ map AnalyticsOps.g_question (AnalyticsOps.group_add k c groups)
         = (map AnalyticsOps.g_question groups ++ [k])%list).
Proof.
  induction groups as [| g groups IH]; cbn [AnalyticsOps.group_add map].
  - right. split; [intros [] | reflexivity].
  - destruct (String.eqb_spec (AnalyticsOps.g_question g) k) as [Heq | Hne].
    + left. split; [left; exact Heq | reflexivity].
    + cbn [map]. destruct IH as [[Hin IH] | [Hin IH]]; rewrite IH.
      * left. split; [right; exact Hin | reflexivity].
      * right. split; [intros [H | H]; contradiction | reflexivity].
Qed.

Lemma grouped_other (rows : list Db.ChatQuery) (q : Db.ChatQuery)
    (g : AnalyticsOps.Group) :
  AnalyticsOps.g_question g <> Db.question q ->
  Aux.grouped rows g -> Aux.grouped (rows ++ [q]) g.
Proof.
  intros Hne [Hc [Hs H1]]. unfold Aux.grouped.
  rewrite rows_asking_snoc.
  destruct (String.eqb_spec (Db.question q) (AnalyticsOps.g_question g));
    [congruence |].
  rewrite app_nil_r. auto.
Qed.

Lemma group_add_grouped (rows : list Db.ChatQuery) (q : Db.ChatQuery)
    (groups : list AnalyticsOps.Group) :
  NoDup (map AnalyticsOps.g_question groups) ->
  Forall (Aux.grouped rows) groups ->
  In (Db.question q) (map AnalyticsOps.g_question groups)
  \/ Aux.rows_asking (Db.question q) rows = [] ->
  Forall (Aux.grouped (rows ++ [q]))
    (AnalyticsOps.group_add (Db.question q) (Db.confidence_score q) groups).
Proof.
  induction groups as [| g groups IH]; intros Hnd Hall Hk;
    cbn [AnalyticsOps.group_add].
  - destruct Hk as [[] | Hk]. repeat constructor; cbn.
    + rewrite rows_asking_snoc, Hk, String.eqb_refl. reflexivity.
    + rewrite rows_asking_snoc, Hk, String.eqb_refl. reflexivity.
  - inversion Hall as [| ? ? Hg Hrest]; subst.
    apply NoDup_cons in Hnd as [Hfresh Hnd].
    destruct (String.eqb_spec (AnalyticsOps.g_question g) (Db.question q))
      as [Heq | Hne].
    + constructor.
      * destruct Hg as [Hc [Hs H1]]. unfold Aux.grouped.
        cbn [AnalyticsOps.g_question AnalyticsOps.g_count
               AnalyticsOps.g_confidences].
        rewrite rows_asking_snoc, Heq, String.eqb_refl, length_app, map_app.
        rewrite <- Heq, <- Hc, <- Hs. cbn. repeat split; lia.
      * apply Forall_forall. intros h Hh. rewrite Forall_forall in Hrest.
        apply grouped_other; [| apply Hrest, Hh].
        intros Hhk. apply Hfresh. rewrite Heq, <- Hhk.
        apply list_elem_of_In, in_map, list_elem_of_In, Hh.
    + constructor; [apply grouped_other; assumption |].
      apply IH; [exact Hnd | exact Hrest |].
      destruct Hk as [[Hk | Hk] | Hk]; [contradiction | left | right];
        exact Hk.
Qed.

Lemma by_question_invariant (rows : list Db.ChatQuery) :
  NoDup (map AnalyticsOps.g_question (AnalyticsOps.by_question rows))
  /\ Forall (Aux.grouped rows) (AnalyticsOps.by_question rows)
  /\ forall k,
      In k (map AnalyticsOps.g_question (AnalyticsOps.by_question rows))
      \/ Aux.rows_asking k rows = [].
Proof.
  induction rows as [| q rows [Hnd [Hall Hkeys]]] using rev_ind.
  - repeat split; [constructor | constructor | right; reflexivity].
  - unfold AnalyticsOps.by_question in *. rewrite fold_left_app.
    cbn [fold_left]. set (groups := fold_left _ rows []) in *.
    destruct (group_add_keys (Db.question q) (Db.confidence_score q) groups)
      as [[Hin Hk] | [Hin Hk]].
    + split; [| split].
      * rewrite Hk. exact Hnd.
      * apply group_add_grouped; [exact Hnd | exact Hall | left; exact Hin].
      * intros k. rewrite Hk. destruct (Hkeys k) as [H | H];
          [left; exact H |].
        destruct (String.eqb_spec (Db.question q) k) as [Heq | Hne].
        -- left. subst k. exact Hin.
        -- right. rewrite rows_asking_snoc, H.
           destruct (String.eqb_spec (Db.question q) k); [contradiction |].
           reflexivity.
    + split; [| split].
      * rewrite Hk. apply NoDup_app. split; [exact Hnd |]. split.
        -- intros x Hx Hx'. apply list_elem_of_In in Hx.
           apply list_elem_of_singleton in Hx'. subst. contradiction.
        -- apply NoDup_singleton.
      * apply group_add_grouped; [exact Hnd | exact Hall | apply Hkeys].
      * intros k. rewrite Hk. destruct (Hkeys k) as [H | H].
        -- left. apply in_or_app. left. exact H.
        -- destruct (String.eqb_spec (Db.question q) k) as [Heq | Hne].
           ++ left. apply in_or_app. right. left. exact Heq.
           ++ right. rewrite rows_asking_snoc, H.
              destruct (String.eqb_spec (Db.question q) k);
                [contradiction |].
              reflexivity.
Qed.

Lemma insert_by_count_perm (g : AnalyticsOps.Group)
    (l : list AnalyticsOps.Group) :
  Permutation (AnalyticsOps.insert_by_count g l) (g :: l).
Proof.
  induction l as [| h l IH]; cbn [AnalyticsOps.insert_by_count];
    [reflexivity |].
  destruct (AnalyticsOps.g_count g <? AnalyticsOps.g_count h)%nat;
    [| reflexivity].
  rewrite IH. apply perm_swap.
Qed.

Lemma sort_by_count_perm (l : list AnalyticsOps.Group) :
  Permutation (AnalyticsOps.sort_by_count l) l.
Proof.
  induction l as [| g l IH]; [reflexivity |].
  cbn [AnalyticsOps.sort_by_count fold_right].
  rewrite insert_by_count_perm. constructor. exact IH.
Qed.




Lemma map_Some_omap {A B : Type} (f : A -> option B) (l : list A) :
  Forall (fun a => f a <> None) l -> map f l = map Some (omap f l).
Proof.
  induction 1 as [| a l Ha _ IH]; [reflexivity |].
  cbn [map omap list_omap]. destruct (f a) as [b |] eqn:Hb; [| contradiction].
  cbn [map]. rewrite IH. reflexivity.
Qed.

Lemma sum_confidences_Some (xs : list Q) (acc : Q) (first : bool) :
  AnalyticsOps.sum_confidences acc first (map Some xs)
  = inr (fold_left Qplus xs acc).
Proof.
  revert acc first. induction xs as [| x xs IH]; intros acc first;
    [reflexivity |].
  cbn [map AnalyticsOps.sum_confidences fold_left]. apply IH.
Qed.

Lemma top_question_Some (g : AnalyticsOps.Group) (xs : list Q) :
  AnalyticsOps.g_confidences g = map Some xs ->
  exists item,
    AnalyticsOps.top_question g = inr item
    /\ AnalyticsOps.tq_question item = AnalyticsOps.g_question g
    /\ AnalyticsOps.tq_count item = AnalyticsOps.g_count g
    /\ (AnalyticsOps.tq_avg_confidence item == Spec.mean xs)%Q.
Proof.
  intros Hxs. unfold AnalyticsOps.top_question.
  rewrite Hxs, sum_confidences_Some. eexists. split; [reflexivity |].
  cbn [AnalyticsOps.tq_question AnalyticsOps.tq_count
         AnalyticsOps.tq_avg_confidence].
  repeat split. rewrite length_map.
  destruct xs as [| x xs]; [reflexivity |].
  unfold Spec.mean. rewrite py_sum_from, Qplus_0_l. reflexivity.
Qed.

Lemma top_questions_grouped (rows : list Db.ChatQuery)
    (groups : list AnalyticsOps.Group) :
  Forall (fun q => Db.confidence_score q <> None) rows ->
  Forall (Aux.grouped rows) groups ->
  exists items,
    AnalyticsOps.top_questions groups = inr items
    /\ map AnalyticsOps.tq_question items
       = map AnalyticsOps.g_question groups
    /\ map AnalyticsOps.tq_count items = map AnalyticsOps.g_count groups
    /\ Forall
         (fun item =>
            let asked :=
              Aux.rows_asking (AnalyticsOps.tq_question item) rows in
            AnalyticsOps.tq_count item = List.length asked
            /\ (1 <= AnalyticsOps.tq_count item)%nat
            /\ (AnalyticsOps.tq_avg_confidence item
                == Spec.mean (Spec.non_null Db.confidence_score asked))%Q)
         items.
Proof.
  intros Hrows. induction 1 as [| g groups [Hc [Hs H1]] _ IH].
  - exists []. repeat split; constructor.
  - destruct IH as [items [Hrun [Hq [Hn Hall]]]].
    assert (Hsome : AnalyticsOps.g_confidences g
                    = map Some
                        (Spec.non_null Db.confidence_score
                           (Aux.rows_asking (AnalyticsOps.g_question g)
                              rows))).
    { rewrite Hs. apply map_Some_omap. unfold Aux.rows_asking.
      apply Forall_forall. intros q Hq'. apply list_elem_of_In in Hq'.
      apply filter_In in Hq' as [Hq' _]. rewrite Forall_forall in Hrows.
      apply Hrows, list_elem_of_In, Hq'. }
    destruct (top_question_Some g _ Hsome) as [item [Hi [Hiq [Hic Hia]]]].
    exists (item :: items). cbn [AnalyticsOps.top_questions map].
    rewrite Hi, Hrun, Hiq, Hic, Hq, Hn. repeat split.
    constructor; [| exact Hall]. cbn zeta. rewrite Hiq, Hic.
    repeat split; assumption.
Qed.



(** X29: GET /v1/logs/top-questions, with the gate open and its parameters
    inside their declared bounds, answers 200 with an empty list when the
    database fails, exactly as for a window without rows; and on a window
    whose rows all carry a confidence it answers 200 with the requested
    period and the entries computed by the service, at most [limit] of
    them. *)
Theorem top_questions_route (expected header : option string)
    (utcnow days_back : Z) (limit : nat) :
  Aux.gate_open expected header = true ->
  LogsEndpoint.top_limit_in_bounds limit = true ->
  LogsEndpoint.days_back_in_bounds days_back = true ->
  (forall msg,
     LogsEndpoint.get_top_questions expected header (Db.Failing msg) utcnow
       limit days_back
     = LogsEndpoint.Ok200
         {| LogsEndpoint.tq_items := [];
            LogsEndpoint.tq_period_days := days_back |}
     /\ LogsEndpoint.get_top_questions expected header (Db.Serving []) utcnow
          limit days_back
        = LogsEndpoint.get_top_questions expected header (Db.Failing msg)
            utcnow limit days_back)
  /\ forall table,
      Forall (fun q => Db.confidence_score q <> None)
        (Spec.window table utcnow days_back) ->
      exists items,
        AnalyticsOps.get_top_questions (Db.Serving table) utcnow limit
          days_back = inr items
        /\ LogsEndpoint.get_top_questions expected header (Db.Serving table)
             utcnow limit days_back
           = LogsEndpoint.Ok200
               {| LogsEndpoint.tq_items := items;
                  LogsEndpoint.tq_period_days := days_back |}
        /\ (List.length items <= limit)%nat.
Proof.
  intros Hopen _ _.
  unfold LogsEndpoint.get_top_questions, LogsEndpoint.guarded.
  rewrite require_admin_token_gate, Hopen. split.
  - intros msg. split; [reflexivity |]. destruct limit; reflexivity.
  - intros table Hrows. unfold AnalyticsOps.get_top_questions.
    rewrite select_since_window.
    set (rows := Spec.window table utcnow days_back) in *.
    destruct (by_question_invariant rows) as [_ [Hall _]].
    assert (Hall' : Forall (Aux.grouped rows)
                      (firstn limit
                         (AnalyticsOps.sort_by_count
                            (AnalyticsOps.by_question rows)))).
    { apply Forall_take. rewrite sort_by_count_perm. exact Hall. }
    destruct (top_questions_grouped rows _ Hrows Hall')
      as [items [Hrun [Hq _]]].
    exists items. rewrite Hrun. repeat split.
    rewrite <- (length_map AnalyticsOps.tq_question), Hq, length_map.
    apply firstn_le_length.
Qed.

Lemma top_questions_route_witness :
  Aux.gate_open None None = true
  /\ LogsEndpoint.top_limit_in_bounds 10 = true
  /\ LogsEndpoint.days_back_in_bounds 7 = true
  /\ LogsEndpoint.get_top_questions None None
       (Db.Failing "connection refused") Scenario.utcnow 10 7
     = LogsEndpoint.Ok200
         {| LogsEndpoint.tq_items := [];
            LogsEndpoint.tq_period_days := 7 |}.
Proof.
  do 3 (split; [reflexivity |]).
  destruct (top_questions_route None None Scenario.utcnow 7 10 eq_refl
              eq_refl eq_refl) as [H _].
  exact (proj1 (H "connection refused")).
Defined.
